(** * Mental-Health-Wellness-Chatbot: emotion detection and analytics

    A shallow embedding of the emotion-detection pipeline
    (attached_assets/emotion_detector.py and ml_utils.py) and of the
    aggregation code that consumes its output (attached_assets/analytics.py
    and the analytics endpoints of routes.py), followed by the properties
    the specification states about them.

    Conventions of the embedding.
    - Python [str] is [string]; the character tests are those of ASCII text.
    - Python [float] is read as an exact rational ([Q]): every literal is
      the decimal it is written as and arithmetic does not round.
    - A call that can raise returns a [result]; [try ... except] is
      [try_except].  [exn] stands for instances of Python's [Exception]
      class, which is what [except Exception] catches.
    - A [dict] is an association list in insertion order, which is the
      order Python iterates it in. *)

From Stdlib Require Import Bool Ascii String List ZArith QArith Qround Qminmax Lia Lqa.
From Stdlib Require Import Sorted Permutation.
Import ListNotations.

Local Close Scope Q_scope.
Local Open Scope string_scope.
Local Open Scope list_scope.
Local Open Scope nat_scope.

(* ================================================================== *)
(** * Part I: the program *)
(* ================================================================== *)

(** ** Python primitives used by the sources *)
Module Py.

(** An exception, identified by its class name. *)
Definition exn := string.

Inductive result (A : Type) : Type :=
| Ok (a : A)
| Raise (e : exn).
Arguments Ok {A} a.
Arguments Raise {A} e.

Definition bind {A B} (m : result A) (k : A -> result B) : result B :=
  match m with
  | Ok a => k a
  | Raise e => Raise e
  end.

(** [try: body except Exception as e: handler] *)
Definition try_except {A} (body : result A) (handler : exn -> result A)
  : result A :=
  match body with
  | Ok a => Ok a
  | Raise e => handler e
  end.

(** [str.isspace] on one ASCII character: TAB, LF, VT, FF, CR, the four
    separators FS, GS, RS, US, and the space. *)
Definition isspace (c : ascii) : bool :=
  let n := nat_of_ascii c in
  ((9 <=? n) && (n <=? 13)) || ((28 <=? n) && (n <=? 32)).

Fixpoint lstrip (s : string) : string :=
  match s with
  | EmptyString => EmptyString
  | String c s' => if isspace c then lstrip s' else s
  end.

Fixpoint rstrip (s : string) : string :=
  match s with
  | EmptyString => EmptyString
  | String c s' =>
      match rstrip s' with
      | EmptyString => if isspace c then EmptyString else String c EmptyString
      | r => String c r
      end
  end.

(** [s.strip()] *)
Definition strip (s : string) : string := rstrip (lstrip s).

Definition lower_char (c : ascii) : ascii :=
  let n := nat_of_ascii c in
  if (65 <=? n) && (n <=? 90) then ascii_of_nat (n + 32) else c.

(** [s.lower()] *)
Fixpoint lower (s : string) : string :=
  match s with
  | EmptyString => EmptyString
  | String c s' => String (lower_char c) (lower s')
  end.

(** [sub in s] on strings: [sub] occurs in [s] as a substring. *)
Fixpoint contains (sub s : string) : bool :=
  String.prefix sub s
  || match s with
     | EmptyString => false
     | String _ s' => contains sub s'
     end.

(** Truth value of a string: [not s] is [s == ""]. *)
Definition str_falsy (s : string) : bool := (s =? "")%string.

Definition Qltb (a b : Q) : bool := negb (Qle_bool b a).

(** [min(a, b)] and [max(a, b)] of two numbers: the first argument is
    kept unless the second is strictly smaller (larger). *)
Definition min2 (a b : Q) : Q := if Qltb b a then b else a.
Definition max2 (a b : Q) : Q := if Qltb a b then b else a.

(** [max(xs)] of a sequence of numbers; raises on an empty one. *)
Definition max_seq (xs : list Q) : result Q :=
  match xs with
  | [] => Raise "ValueError"
  | x :: r => Ok (fold_left max2 r x)
  end.

(** [max(entries, key=...)] started at [best]: the first entry whose key
    is maximal, since a later entry replaces the current one only when
    its key is strictly larger. *)
Fixpoint max_by {A} (key : A -> nat) (best : A) (rest : list A) : A :=
  match rest with
  | [] => best
  | x :: r => max_by key (if key best <? key x then x else best) r
  end.

(** [sum(xs)] of numbers. *)
Definition sum (xs : list Q) : Q := fold_left Qplus xs 0%Q.

(** [len(xs)] as a number. *)
Definition len {A} (xs : list A) : Q := inject_Z (Z.of_nat (List.length xs)).

(** [round(x, ndigits)] on the exact value: nearest multiple of
    [10^-ndigits], a tie going to the even one. *)
Definition round_half_even (x : Q) : Z :=
  let f := Qfloor x in
  let d := (x - inject_Z f)%Q in
  if Qltb d 0.5%Q then f
  else if Qltb 0.5%Q d then (f + 1)%Z
  else if Z.even f then f else (f + 1)%Z.

Definition round (x : Q) (ndigits : nat) : Q :=
  let p := inject_Z (10 ^ Z.of_nat ndigits) in
  (inject_Z (round_half_even (x * p)) / p)%Q.

(** [collections.Counter]: one entry per distinct element, in order of
    first occurrence, with its number of occurrences. *)
Fixpoint counter_add (k : string) (c : list (string * nat))
  : list (string * nat) :=
  match c with
  | [] => [(k, 1)]
  | (k', n) :: c' =>
      if (k =? k')%string then (k', S n) :: c'
      else (k', n) :: counter_add k c'
  end.

Definition Counter (xs : list string) : list (string * nat) :=
  fold_left (fun c k => counter_add k c) xs [].

(** [c[k]] on a [Counter]: the count it holds for [k], zero when it has
    no entry. *)
Definition count_in (c : list (string * nat)) (k : string) : nat :=
  match find (fun entry => (fst entry =? k)%string) c with
  | Some entry => snd entry
  | None => 0
  end.

(** [c.values()] *)
Definition values {K V} (d : list (K * V)) : list V := map snd d.

(** [c.most_common(1)]: the first entry with the largest count. *)
Definition most_common1 (c : list (string * nat)) : list (string * nat) :=
  match c with
  | [] => []
  | x :: r => [max_by snd x r]
  end.

(** [a / b] on numbers. *)
Definition truediv (a b : Q) : result Q :=
  if Qeq_bool b 0 then Raise "ZeroDivisionError" else Ok (a / b)%Q.

(** [xs[0]] *)
Definition item0 {A} (xs : list A) : result A :=
  match xs with
  | x :: _ => Ok x
  | [] => Raise "IndexError"
  end.

(** A comprehension or loop whose body can raise: the items are handled
    in order and the first exception ends it. *)
Fixpoint for_each {A B} (body : A -> result B) (xs : list A)
  : result (list B) :=
  match xs with
  | [] => Ok []
  | x :: r =>
      match body x with
      | Raise e => Raise e
      | Ok y =>
          match for_each body r with
          | Raise e => Raise e
          | Ok ys => Ok (y :: ys)
          end
      end
  end.

(** [set(xs)] only ever measured by [len]: the distinct elements. *)
Definition distinct (xs : list Z) : list Z := nodup Z.eq_dec xs.

End Py.

Import Py.

Notation "x <- m ;; k" := (Py.bind m (fun x => k))
  (at level 61, m at next level, right associativity).

(** ** Trained-model artifacts

    The detectors see a loaded artifact only through the methods they
    call on it, so an artifact is the record of those methods. *)
Module Artifacts.

(** The row matrix [vectorizer.transform([text])] returns. *)
Inductive features : Type := Features (row : list Q).

(** A predicted value, as the code observes it:
    [isinstance(p, (int, float))], [int(p)] and [str(p)]. *)
Record pyval : Type := {
  is_number : bool;
  to_int : result Z;
  to_str : string
}.

(** A Python [int]; [repr] is its decimal rendering. *)
Definition PyInt (n : Z) (repr : string) : pyval :=
  {| is_number := true; to_int := Ok n; to_str := repr |}.

(** A Python [str]; [int(p)] is never reached for it. *)
Definition PyStr (s : string) : pyval :=
  {| is_number := false; to_int := Raise "ValueError"; to_str := s |}.

Record Vectorizer : Type := {
  transform : string -> result features
}.

(** [predict X] is [model.predict(X)[0]] and [predict_proba X] is
    [model.predict_proba(X)[0]]. *)
Record Model : Type := {
  predict : features -> result pyval;
  predict_proba : features -> result (list Q)
}.

(** [inverse_transform p] is [encoder.inverse_transform([p])[0]]; a
    field is [None] when the object lacks the attribute. *)
Record LabelEncoder : Type := {
  inverse_transform : option (pyval -> result string);
  classes_ : option (list string)
}.

End Artifacts.

Import Artifacts.

(** ** The keyword scoring loop

    Both fallback classifiers run the same loop over their own table. *)
Module Scoring.

(** [sum(1 for keyword in keywords if keyword in text)] *)
Definition keyword_score (keywords : list string) (text : string) : nat :=
  List.length (filter (fun keyword => contains keyword text) keywords).

(** The [emotion_scores] dict after the loop: the emotions with a
    positive score, in the order of the table. *)
Definition emotion_scores (table : list (string * list string))
    (text : string) : list (string * nat) :=
  filter (fun entry => 0 <? snd entry)
    (map (fun entry => (fst entry, keyword_score (snd entry) text)) table).

End Scoring.

Import Scoring.

(** ** attached_assets/emotion_detector.py *)
Module EmotionDetector.

(** The state of an [EmotionDetector] instance. *)
Record t : Type := {
  model : option Model;
  vectorizer : option Vectorizer;
  label_encoder : option LabelEncoder;
  emotion_labels : list string
}.

(** [self.emotion_labels] as [__init__] sets it. *)
Definition default_labels : list string :=
  ["joy"; "sadness"; "anger"; "fear"; "surprise"; "love"; "neutral"].

(** What a search loop of [load_models] leaves in an attribute once a
    file of its list was unpickled: an object with a method the
    validation looks for ([predict] or [predict_proba] for the model,
    [transform] or [fit_transform] for the vectorizer; a method it lacks
    raises [AttributeError] when called), or any other object. *)
Inductive unpickled (A : Type) : Type :=
| Valid (a : A)
| Invalid.
Arguments Valid {A} a.
Arguments Invalid {A}.

(** The attribute after the validation: an object without the methods
    is replaced by [None]. *)
Definition validated {A} (loaded : unpickled A) : option A :=
  match loaded with
  | Valid a => Some a
  | Invalid => None
  end.

(** [load_models] from the test of [model_loaded] and [vectorizer_loaded]
    on, for any outcome of the three search loops; an argument is [None]
    when no file of its list could be unpickled.  A model or vectorizer
    that fails the validation is cleared alone: the label encoder stays
    and its [classes_] are adopted as the labels. *)
Definition load_models_from (loaded_model : option (unpickled Model))
    (loaded_vectorizer : option (unpickled Vectorizer))
    (loaded_encoder : option LabelEncoder) : t :=
  match loaded_model, loaded_vectorizer with
  | Some m, Some v =>
      {| model := validated m;
         vectorizer := validated v;
         label_encoder := loaded_encoder;
         emotion_labels :=
           match loaded_encoder with
           | Some le =>
               match classes_ le with
               | Some cs => cs
               | None => default_labels
               end
           | None => default_labels
           end |}
  | _, _ =>
      {| model := None; vectorizer := None; label_encoder := None;
         emotion_labels := default_labels |}
  end.

(** [load_models] when every object the search loops unpickled passes
    the validation: each argument is such an object, [None] when no file
    of its list could be unpickled.  [load_models_from] above is the
    general case. *)
Definition load_models (found_model : option Model)
    (found_vectorizer : option Vectorizer)
    (found_encoder : option LabelEncoder) : t :=
  match found_model, found_vectorizer with
  | Some m, Some v =>
      {| model := Some m;
         vectorizer := Some v;
         label_encoder := found_encoder;
         emotion_labels :=
           match found_encoder with
           | Some le =>
               match classes_ le with
               | Some cs => cs
               | None => default_labels
               end
           | None => default_labels
           end |}
  | _, _ =>
      {| model := None; vectorizer := None; label_encoder := None;
         emotion_labels := default_labels |}
  end.

(** The [emotion_keywords] table of [_fallback_detection]. *)
Definition emotion_keywords : list (string * list string) :=
  [ ("joy", ["happy"; "joyful"; "excited"; "cheerful"; "glad"; "delighted";
             "elated"; "content"; "thrilled"; "ecstatic"; "blissful";
             "pleased"; "wonderful"; "fantastic"; "great"; "amazing";
             "awesome"; "brilliant"; "excellent"]);
    ("sadness", ["sad"; "depressed"; "down"; "unhappy"; "melancholy";
                 "gloomy"; "miserable"; "heartbroken"; "sorrowful";
                 "dejected"; "disappointed"; "hurt"; "upset"; "blue"; "low";
                 "terrible"; "awful"; "bad"]);
    ("anger", ["angry"; "furious"; "mad"; "irritated"; "annoyed";
               "frustrated"; "rage"; "outraged"; "livid"; "irate";
               "enraged"; "indignant"; "incensed"; "pissed"; "hostile"]);
    ("fear", ["scared"; "afraid"; "anxious"; "worried"; "nervous";
              "terrified"; "panicked"; "frightened"; "fearful";
              "apprehensive"; "concerned"; "uneasy"; "distressed";
              "alarmed"]);
    ("surprise", ["surprised"; "shocked"; "amazed"; "astonished"; "stunned";
                  "bewildered"; "startled"; "astounded"; "flabbergasted";
                  "dumbfounded"]);
    ("love", ["love"; "adore"; "cherish"; "affection"; "romantic"; "caring";
              "devoted"; "fond"; "attached"; "passionate"; "infatuated"]);
    ("neutral", ["okay"; "fine"; "normal"; "regular"; "usual"; "alright";
                 "decent"; "average"]) ].

(** [min(0.8, score * 0.2 + 0.3)] *)
Definition confidence_of_score (score : nat) : Q :=
  min2 0.8%Q (inject_Z (Z.of_nat score) * 0.2 + 0.3)%Q.

(** The label and confidence [_fallback_detection] settles on. *)
Definition fallback_label (text : string) : string * Q :=
  let text_lower := lower text in
  match emotion_scores emotion_keywords text_lower with
  | first :: rest =>
      let detected := max_by snd first rest in
      (fst detected, confidence_of_score (snd detected))
  | [] => ("neutral", 0.5%Q)
  end.

(** [emotion in [...]] *)
Definition in_list (x : string) (xs : list string) : bool :=
  existsb (fun y => (x =? y)%string) xs.

Definition calculate_intensity (emotion : string) (confidence : Q)
    (sentiment_score : Q) : Q :=
  let base_intensity := confidence in
  let intensity :=
    if in_list emotion ["joy"; "love"] then
      (base_intensity * (1 + sentiment_score * 0.5))%Q
    else if in_list emotion ["sadness"; "anger"; "fear"] then
      (base_intensity * (1 - sentiment_score * 0.5))%Q
    else base_intensity in
  max2 0.0%Q (min2 1.0%Q intensity).

Section WithTextBlob.

(** [TextBlob(text).sentiment.polarity], a library call. *)
Variable textblob_polarity : string -> result Q.

Definition _get_sentiment_score (text : string) : result Q :=
  try_except (textblob_polarity text) (fun _ => Ok 0.0%Q).

Definition _fallback_detection (text : string)
  : result (string * Q * Q) :=
  let '(detected_emotion, confidence) := fallback_label text in
  sentiment_score <- _get_sentiment_score text ;;
  Ok (detected_emotion, confidence, sentiment_score).

(** The ordinal-table decoding both branches of [_predict_with_model]
    share: an in-range number indexes [emotion_labels], anything else
    is stringified. *)
Definition decode_by_index (self : t) (prediction_encoded : pyval)
  : result string :=
  if is_number prediction_encoded then
    i <- to_int prediction_encoded ;;
    if ((0 <=? i)%Z && (i <? Z.of_nat (List.length (emotion_labels self)))%Z)%bool
    then Ok (nth (Z.to_nat i) (emotion_labels self) "")
    else Ok (to_str prediction_encoded)
  else Ok (to_str prediction_encoded).

(** The body of the [try] of [_predict_with_model]. *)
Definition _predict_with_model_body (self : t) (v : Vectorizer)
    (m : Model) (text : string) : result (string * Q * Q) :=
  text_vector <- transform v text ;;
  prediction_encoded <- predict m text_vector ;;
  probabilities <- predict_proba m text_vector ;;
  confidence <- max_seq probabilities ;;
  prediction <-
    match label_encoder self with
    | Some {| inverse_transform := Some inverse |} =>
        try_except (inverse prediction_encoded)
          (fun _ => decode_by_index self prediction_encoded)
    | _ => decode_by_index self prediction_encoded
    end ;;
  sentiment_score <- _get_sentiment_score text ;;
  Ok (prediction, confidence, sentiment_score).

Definition _predict_with_model (self : t) (v : Vectorizer) (m : Model)
    (text : string) : result (string * Q * Q) :=
  try_except (_predict_with_model_body self v m text)
    (fun _ => _fallback_detection text).

Definition detect_emotion (self : t) (text : string)
  : result (string * Q * Q) :=
  if (str_falsy text || str_falsy (strip text))%bool
  then Ok ("neutral", 0.5%Q, 0.0%Q)
  else
    try_except
      (match model self, vectorizer self with
       | Some m, Some v => _predict_with_model self v m text
       | _, _ => _fallback_detection text
       end)
      (fun _ => Ok ("neutral", 0.5%Q, 0.0%Q)).

(** The two calls each ingestion handler of attached_assets/routes.py
    makes on a message: [detect_emotion], then [calculate_intensity]
    on what it returned. *)
Definition detect_with_intensity (self : t) (text : string)
  : result (string * Q * Q * Q) :=
  reading <- detect_emotion self text ;;
  let '(emotion, confidence, sentiment_score) := reading in
  Ok (emotion, confidence, sentiment_score,
      calculate_intensity emotion confidence sentiment_score).

End WithTextBlob.

End EmotionDetector.

(** ** ml_utils.py *)
Module MlUtils.

(** The state of an [EmotionDetector] instance of ml_utils.py. *)
Record t : Type := {
  model : option Model;
  vectorizer : option Vectorizer;
  label_encoder : option LabelEncoder;
  is_loaded : bool
}.

(** [load_models]: each argument is the artifact [joblib.load] returned,
    [None] when its file does not exist. *)
Definition load_models (found_model : option Model)
    (found_vectorizer : option Vectorizer)
    (found_encoder : option LabelEncoder) : t :=
  {| model := found_model;
     vectorizer := found_vectorizer;
     label_encoder := found_encoder;
     is_loaded :=
       match found_model, found_vectorizer, found_encoder with
       | Some _, Some _, Some _ => true
       | _, _, _ => false
       end |}.

(** The [emotion_keywords] table of [_fallback_emotion_detection]. *)
Definition emotion_keywords : list (string * list string) :=
  [ ("joy", ["happy"; "joy"; "excited"; "great"; "wonderful"; "amazing";
             "fantastic"; "love"; "awesome"]);
    ("sadness", ["sad"; "depressed"; "upset"; "down"; "crying"; "tears";
                 "lonely"; "grief"]);
    ("anger", ["angry"; "mad"; "furious"; "rage"; "hate"; "frustrated";
               "annoyed"]);
    ("fear", ["scared"; "afraid"; "fear"; "anxious"; "worried"; "panic";
              "terrified"]);
    ("surprise", ["surprised"; "shocked"; "amazed"; "wow"; "unexpected"]);
    ("love", ["love"; "adore"; "cherish"; "romantic"; "affection";
              "caring"]) ].

(** [min(0.9, score * 0.3 + 0.3)] *)
Definition confidence_of_score (score : nat) : Q :=
  min2 0.9%Q (inject_Z (Z.of_nat score) * 0.3 + 0.3)%Q.

Definition _fallback_emotion_detection (text : string) : string * Q :=
  if str_falsy (strip text) then ("neutral", 0.5%Q)
  else
    let text := lower text in
    match emotion_scores emotion_keywords text with
    | first :: rest =>
        let dominant := max_by snd first rest in
        (fst dominant, confidence_of_score (snd dominant))
    | [] => ("neutral", 0.5%Q)
    end.

(** The block of [predict_emotion] that uses the trained model, under
    [if self.vectorizer and self.model and self.label_encoder]. *)
Definition model_prediction (v : Vectorizer) (m : Model) (le : LabelEncoder)
    (text : string) : result (string * Q) :=
  text_vector <- transform v text ;;
  prediction <- predict m text_vector ;;
  probabilities <- predict_proba m text_vector ;;
  emotion <-
    match inverse_transform le with
    | Some inverse => inverse prediction
    | None => Raise "AttributeError"
    end ;;
  confidence <- max_seq probabilities ;;
  Ok (emotion, confidence).

Definition predict_emotion (self : t) (text : string)
  : result (string * Q) :=
  if (negb (is_loaded self) || str_falsy (strip text))%bool
  then Ok (_fallback_emotion_detection text)
  else
    let text := lower (strip text) in
    try_except
      (match vectorizer self, model self, label_encoder self with
       | Some v, Some m, Some le => model_prediction v m le text
       | _, _, _ => Ok (_fallback_emotion_detection text)
       end)
      (fun _ => Ok (_fallback_emotion_detection text)).

Section WithTextBlob.
Variable textblob_polarity : string -> result Q.

Definition analyze_sentiment (text : string) : result Q :=
  try_except (textblob_polarity text) (fun _ => Ok 0.0%Q).
End WithTextBlob.

End MlUtils.

(** ** Stored records (attached_assets/models.py)

    A [DateTime] is the number of seconds since the epoch; its calendar
    date is the number of whole days. *)
Module Models.

Definition datetime := Z.
Definition date (ts : datetime) : Z := (ts / 86400)%Z.

(** The value of [now - timedelta(days=days)] when Python can represent
    it; [utcnow_minus] below is the expression with its failures. *)
Definition cutoff_date (now : datetime) (days : Z) : datetime :=
  (now - days * 86400)%Z.

(** [timedelta(days=days)]: a timedelta holds at most 999999999 days
    either way, beyond that the constructor raises [OverflowError]. *)
Definition max_timedelta_days : Z := 999999999%Z.

Definition timedelta (days : Z) : result Z :=
  if (Z.abs days <=? max_timedelta_days)%Z then Ok days
  else Raise "OverflowError".

(** The seconds of [datetime.min], 0001-01-01 00:00:00, and of
    [datetime.max], 9999-12-31 23:59:59. *)
Definition datetime_min : datetime := (-62135596800)%Z.
Definition datetime_max : datetime := 253402300799%Z.

(** [now - delta] for a timedelta of [delta] days: [OverflowError] when
    the result is not a date of the years 1 to 9999. *)
Definition minus (now : datetime) (delta : Z) : result datetime :=
  let difference := (now - delta * 86400)%Z in
  if ((datetime_min <=? difference)%Z && (difference <=? datetime_max)%Z)%bool
  then Ok difference
  else Raise "OverflowError".

(** [datetime.utcnow() - timedelta(days=days)], the first statement of
    every analytics method and endpoint; [days] is the integer of the
    query string, of any size. *)
Definition utcnow_minus (now : datetime) (days : Z) : result datetime :=
  delta <- timedelta days ;;
  minus now delta.

Record EmotionHistory : Type := {
  eh_user_id : Z;
  eh_emotion : string;
  eh_confidence : Q;
  eh_sentiment_score : option Q;
  eh_intensity : option Q;
  eh_source_type : option string;
  eh_source_id : option Z;
  eh_timestamp : datetime
}.

Record Conversation : Type := {
  cv_user_id : Z;
  cv_message : string;
  cv_is_user_message : bool;
  cv_emotion : option string;
  cv_emotion_confidence : option Q;
  cv_sentiment_score : option Q;
  cv_timestamp : datetime
}.

End Models.

Import Models.

(** ** attached_assets/analytics.py

    The methods of this module are written from their query on: the
    cutoff date is [cutoff_date now days], the value of their first
    statement whenever it does not raise.  The daily series of
    [AnalyticsSeries] and [RoutesSeries] below start from [utcnow_minus]
    instead, the statement with its [OverflowError]. *)
Module Analytics.

(** The query every method starts with: the user's records with
    [timestamp >= cutoff_date]. *)
Definition query (db : list EmotionHistory) (user_id : Z)
    (cutoff : datetime) : list EmotionHistory :=
  filter (fun r => ((eh_user_id r =? user_id)%Z
                    && (cutoff <=? eh_timestamp r)%Z)%bool) db.

(** [sum(emotion_counts.values())] *)
Definition total_of (emotion_counts : list (string * nat)) : Q :=
  Py.sum (map (fun n => inject_Z (Z.of_nat n)) (values emotion_counts)).

(** [{emotion: (count / total_count) * 100 for ...}] *)
Definition percentages (emotion_counts : list (string * nat))
  : result (list (string * Q)) :=
  let total_count := total_of emotion_counts in
  for_each
    (fun entry =>
       share <- truediv (inject_Z (Z.of_nat (snd entry))) total_count ;;
       Ok (fst entry, (share * 100)%Q))
    emotion_counts.

Definition get_emotion_distribution (db : list EmotionHistory)
    (user_id : Z) (now : datetime) (days : Z) : result (list (string * Q)) :=
  let emotions := query db user_id (cutoff_date now days) in
  match emotions with
  | [] => Ok []
  | _ => percentages (Counter (map eh_emotion emotions))
  end.

(** [x or 0.5]: a missing value and a zero are both replaced. *)
Definition or_half (x : option Q) : Q :=
  match x with
  | Some v => if Qeq_bool v 0 then 0.5%Q else v
  | None => 0.5%Q
  end.

Definition emotion_categories : list (string * list string) :=
  [ ("Positive", ["joy"; "love"; "surprise"]);
    ("Negative", ["sadness"; "anger"; "fear"]);
    ("Neutral", ["neutral"]) ].

(** The [scores] list one category collects. *)
Definition category_scores_of (emotions : list EmotionHistory)
    (emotion_list : list string) : list Q :=
  map (fun r => or_half (eh_intensity r))
    (filter (fun r => EmotionDetector.in_list (eh_emotion r) emotion_list)
       emotions).

Definition get_emotional_balance (db : list EmotionHistory)
    (user_id : Z) (now : datetime) (days : Z) : result (list (string * Q)) :=
  let emotions := query db user_id (cutoff_date now days) in
  match emotions with
  | [] => Ok []
  | _ =>
      for_each
        (fun entry =>
           let scores := category_scores_of emotions (snd entry) in
           score <-
             match scores with
             | [] => Ok 0%Q
             | _ => truediv (Py.sum scores) (Py.len scores)
             end ;;
           Ok (fst entry, score))
        emotion_categories
  end.

Record summary : Type := {
  total_entries : nat;
  most_common_emotion : string;
  average_sentiment : Q;
  days_tracked : nat
}.

(** The values of [e.sentiment_score] that are not [None]. *)
Fixpoint not_none (xs : list (option Q)) : list Q :=
  match xs with
  | [] => []
  | Some v :: r => v :: not_none r
  | None :: r => not_none r
  end.

Definition get_summary_stats (db : list EmotionHistory)
    (user_id : Z) (now : datetime) (days : Z) : result summary :=
  let emotions := query db user_id (cutoff_date now days) in
  match emotions with
  | [] =>
      Ok {| total_entries := 0;
            most_common_emotion := "N/A";
            average_sentiment := 0%Q;
            days_tracked := 0 |}
  | _ =>
      let emotion_counts := Counter (map eh_emotion emotions) in
      most_common <-
        match emotion_counts with
        | [] => Ok ("N/A", 0)
        | _ => item0 (most_common1 emotion_counts)
        end ;;
      let sentiment_scores := not_none (map eh_sentiment_score emotions) in
      avg_sentiment <-
        match sentiment_scores with
        | [] => Ok 0%Q
        | _ => truediv (Py.sum sentiment_scores) (Py.len sentiment_scores)
        end ;;
      let unique_dates :=
        List.length (distinct (map (fun e => date (eh_timestamp e)) emotions)) in
      Ok {| total_entries := List.length emotions;
            most_common_emotion := fst most_common;
            average_sentiment := Py.round avg_sentiment 3;
            days_tracked := unique_dates |}
  end.

End Analytics.

(** ** routes.py: the analytics endpoints

    Each endpoint returns the value it hands to [jsonify], and is
    written from its query on, as the methods of [Analytics] are. *)
Module Routes.

(** The user's own messages since the cutoff. *)
Definition user_messages (db : list Conversation) (user_id : Z)
    (cutoff : datetime) : list Conversation :=
  filter (fun c => ((cv_user_id c =? user_id)%Z
                    && cv_is_user_message c
                    && (cutoff <=? cv_timestamp c)%Z)%bool) db.

(** The [emotion] column of those messages where it is not [None]. *)
Fixpoint emotions_of (cs : list Conversation) : list string :=
  match cs with
  | [] => []
  | c :: r =>
      match cv_emotion c with
      | Some e => e :: emotions_of r
      | None => emotions_of r
      end
  end.

Definition emotion_distribution (db : list Conversation)
    (user_id : Z) (now : datetime) (days : Z) : result (list (string * Q)) :=
  let emotions := emotions_of (user_messages db user_id (cutoff_date now days)) in
  match emotions with
  | [] => Ok []
  | _ => Analytics.percentages (Counter emotions)
  end.

Definition emotional_balance (db : list Conversation)
    (user_id : Z) (now : datetime) (days : Z) : result (list (string * Q)) :=
  let emotions := emotions_of (user_messages db user_id (cutoff_date now days)) in
  match emotions with
  | [] => Ok []
  | _ =>
      let emotion_counts := Counter emotions in
      let total := Analytics.total_of emotion_counts in
      for_each
        (fun entry =>
           share <- truediv (inject_Z (Z.of_nat (snd entry))) total ;;
           Ok (fst entry, share))
        emotion_counts
  end.

(** [[c.emotion for c in conversations if c.emotion]]: neither [None]
    nor the empty string. *)
Fixpoint truthy_emotions (cs : list Conversation) : list string :=
  match cs with
  | [] => []
  | c :: r =>
      match cv_emotion c with
      | Some e => if str_falsy e then truthy_emotions r
                  else e :: truthy_emotions r
      | None => truthy_emotions r
      end
  end.

Definition analytics_summary (db : list Conversation)
    (user_id : Z) (now : datetime) (days : Z) : result Analytics.summary :=
  let conversations := user_messages db user_id (cutoff_date now days) in
  let emotions := truthy_emotions conversations in
  most_common_emotion <-
    match emotions with
    | [] => Ok "neutral"
    | _ =>
        top <- item0 (most_common1 (Counter emotions)) ;;
        Ok (fst top)
    end ;;
  let sentiments := Analytics.not_none (map cv_sentiment_score conversations) in
  average_sentiment <-
    match sentiments with
    | [] => Ok 0.0%Q
    | _ => truediv (Py.sum sentiments) (Py.len sentiments)
    end ;;
  Ok {| Analytics.total_entries := List.length conversations;
        Analytics.most_common_emotion := most_common_emotion;
        Analytics.average_sentiment := average_sentiment;
        Analytics.days_tracked :=
          List.length (distinct (map (fun c => date (cv_timestamp c))
                                   conversations)) |}.

End Routes.

(** ** The specification's vocabulary

    What the specification's sentences speak of, written from its words;
    Part II relates these to the program above. *)
Module Spec.

(** The closed set of emotion labels. *)
Definition closed_labels : list string :=
  ["joy"; "sadness"; "anger"; "fear"; "surprise"; "love"; "neutral"].

(** A text that is empty or consists of whitespace only. *)
Fixpoint blank (s : string) : bool :=
  match s with
  | EmptyString => true
  | String c s' => (isspace c && blank s')%bool
  end.

Definition clamp01 (x : Q) : Q := Qmax 0 (Qmin 1 x).

(** Intensity as section 4.2 defines it. *)
Definition intensity (emotion : string) (confidence sentiment : Q) : Q :=
  clamp01
    (if ((emotion =? "joy") || (emotion =? "love"))%string%bool
     then confidence * (1 + sentiment * 0.5)
     else if ((emotion =? "sadness") || (emotion =? "anger")
              || (emotion =? "fear"))%string%bool
     then confidence * (1 - sentiment * 0.5)
     else confidence)%Q.

(** Some keyword of the table occurs in the text. *)
Definition any_hit (table : list (string * list string)) (text : string)
  : bool :=
  existsb (fun entry => 0 <? keyword_score (snd entry) text) table.

(** [winner] is the first emotion, in the order the table declares
    them, whose keyword score on [text] is the largest: every emotion
    before it scores strictly less, none after it scores more. *)
Definition first_maximal (table : list (string * list string))
    (text : string) (winner : string) : Prop :=
  exists before keywords after,
    table = before ++ (winner, keywords) :: after
    /\ Forall (fun entry => keyword_score (snd entry) text
                            < keyword_score keywords text) before
    /\ Forall (fun entry => keyword_score (snd entry) text
                            <= keyword_score keywords text) after.

(** A keyword that starts with a character that is not whitespace. *)
Definition solid (keyword : string) : Prop :=
  match keyword with
  | String a _ => isspace a = false
  | EmptyString => False
  end.

(** All keywords of a table, emotion after emotion. *)
Definition all_keywords (table : list (string * list string)) : list string :=
  concat (map snd table).

(** [keyword] is the only keyword of the table that occurs in the text:
    it occurs, and no keyword different from it does. *)
Definition only_hit (table : list (string * list string)) (text : string)
    (keyword : string) : bool :=
  forallb (fun k => Bool.eqb (contains k text) (k =? keyword)%string)
    (all_keywords table).

(** The keyword score of one emotion of the table. *)
Definition score_of (table : list (string * list string)) (emotion : string)
    (text : string) : nat :=
  match find (fun entry => (fst entry =? emotion)%string) table with
  | Some entry => keyword_score (snd entry) text
  | None => 0
  end.

(** The sum of a list of numbers. *)
Definition total (xs : list Q) : Q := fold_right Qplus 0%Q xs.

(** The arithmetic mean of a non-empty list of numbers. *)
Definition mean (xs : list Q) : Q :=
  (total xs / inject_Z (Z.of_nat (List.length xs)))%Q.

(** The share of [emotion] among [emotions], as a fraction times [scale]
    (100 for a percentage). *)
Definition share (scale : Q) (emotions : list string) (emotion : string) : Q :=
  (inject_Z (Z.of_nat (count_occ string_dec emotions emotion))
   / inject_Z (Z.of_nat (List.length emotions)) * scale)%Q.

(** [d] maps exactly the emotions that occur in [emotions], each once,
    to its share, and the shares add up to [scale]. *)
Definition shares_of (scale : Q) (emotions : list string)
    (d : list (string * Q)) : Prop :=
  NoDup (map fst d)
  /\ (forall emotion, In emotion (map fst d) <-> In emotion emotions)
  /\ (forall emotion v, In (emotion, v) d -> (v == share scale emotions emotion)%Q)
  /\ (total (values d) == scale)%Q.

(** The intensity a record carries, 0.5 when it carries none. *)
Definition intensity_or_default (r : EmotionHistory) : Q :=
  match eh_intensity r with
  | Some v => v
  | None => 0.5%Q
  end.

Definition in_category (members : list string) (r : EmotionHistory) : bool :=
  existsb (String.eqb (eh_emotion r)) members.

(** The average intensity over the records of a category, 0 when the
    category has no record. *)
Definition category_average (records : list EmotionHistory)
    (members : list string) : Q :=
  match filter (in_category members) records with
  | [] => 0%Q
  | matching => mean (map intensity_or_default matching)
  end.

(** The emotional-balance view as section 4.5 describes it. *)
Definition balance_view (records : list EmotionHistory) : list (string * Q) :=
  [ ("Positive", category_average records ["joy"; "love"; "surprise"]);
    ("Negative", category_average records ["sadness"; "anger"; "fear"]);
    ("Neutral", category_average records ["neutral"]) ].

(** No record carries an intensity of exactly zero. *)
Definition no_zero_intensity (records : list EmotionHistory) : bool :=
  forallb (fun r => match eh_intensity r with
                    | Some v => negb (Qeq_bool v 0)
                    | None => true
                    end) records.

(** Two mappings with the same keys in the same order and equal numbers. *)
Definition same_view (a b : list (string * Q)) : Prop :=
  Forall2 (fun x y => fst x = fst y /\ (snd x == snd y)%Q) a b.

(** The summary of an empty record set. *)
Definition empty_summary : Analytics.summary :=
  {| Analytics.total_entries := 0;
     Analytics.most_common_emotion := "N/A";
     Analytics.average_sentiment := 0%Q;
     Analytics.days_tracked := 0 |}.

(** The steps of a trained-model classification that can raise. *)
Inductive stage : Type :=
| Vectorize      (* vectorizer.transform *)
| Predict        (* model.predict *)
| PredictProba   (* model.predict_proba *)
| MaxProba       (* max(probabilities) *)
| Decode         (* label_encoder.inverse_transform *)
| Ordinal.       (* int(prediction_encoded), with no decoder to call *)

(** The first step of [_predict_with_model] that raises on [text], if one
    does. *)
Definition raising_stage (self : EmotionDetector.t) (v : Vectorizer)
    (m : Model) (text : string) : option stage :=
  match transform v text with
  | Raise _ => Some Vectorize
  | Ok text_vector =>
      match predict m text_vector with
      | Raise _ => Some Predict
      | Ok prediction_encoded =>
          match predict_proba m text_vector with
          | Raise _ => Some PredictProba
          | Ok probabilities =>
              match max_seq probabilities with
              | Raise _ => Some MaxProba
              | Ok _ =>
                  match EmotionDetector.label_encoder self with
                  | Some {| inverse_transform := Some inverse |} =>
                      match inverse prediction_encoded with
                      | Raise _ => Some Decode
                      | Ok _ => None
                      end
                  | _ =>
                      match EmotionDetector.decode_by_index self
                              prediction_encoded with
                      | Raise _ => Some Ordinal
                      | Ok _ => None
                      end
                  end
              end
          end
      end
  end.

End Spec.

(** ** Sample artifacts

    Small stand-ins for unpickled scikit-learn objects, used to run the
    detectors on concrete inputs. *)
Module Samples.

(** A polarity analyzer that finds every text neutral. *)
Definition flat_polarity (text : string) : result Q := Ok 0%Q.

Definition vectorizer : Vectorizer :=
  {| transform := fun _ => Ok (Features []) |}.

(** A classifier that always predicts class 1 with probability 0.9. *)
Definition model : Model :=
  {| predict := fun _ => Ok (PyInt 1 "1");
     predict_proba := fun _ => Ok [0.1%Q; 0.9%Q] |}.

(** A label encoder fitted on a two-class sentiment corpus. *)
Definition binary_encoder : LabelEncoder :=
  {| inverse_transform :=
       Some (fun p =>
               i <- to_int p ;;
               match nth_error ["negative"; "positive"] (Z.to_nat i) with
               | Some label => Ok label
               | None => Raise "ValueError"
               end);
     classes_ := Some ["negative"; "positive"] |}.

(** A label encoder that has never seen the class it is asked for. *)
Definition failing_encoder : LabelEncoder :=
  {| inverse_transform := Some (fun _ => Raise "ValueError");
     classes_ := None |}.

(** A user who logged joy, joy and sadness on three days. *)
Definition history : list EmotionHistory :=
  [ {| eh_user_id := 1; eh_emotion := "joy"; eh_confidence := 0.7%Q;
       eh_sentiment_score := Some 0.8%Q; eh_intensity := Some 0.9%Q;
       eh_source_type := Some "chat"; eh_source_id := Some 11%Z;
       eh_timestamp := 1000000%Z |};
    {| eh_user_id := 1; eh_emotion := "joy"; eh_confidence := 0.5%Q;
       eh_sentiment_score := Some 0.2%Q; eh_intensity := None;
       eh_source_type := Some "journal"; eh_source_id := Some 3%Z;
       eh_timestamp := 1090000%Z |};
    {| eh_user_id := 1; eh_emotion := "sadness"; eh_confidence := 0.5%Q;
       eh_sentiment_score := None; eh_intensity := Some 0.6%Q;
       eh_source_type := Some "chat"; eh_source_id := Some 12%Z;
       eh_timestamp := 1180000%Z |} ].

(** The same three messages as conversation rows, with a bot reply. *)
Definition conversations : list Conversation :=
  [ {| cv_user_id := 1; cv_message := "what a great day";
       cv_is_user_message := true; cv_emotion := Some "joy";
       cv_emotion_confidence := Some 0.6%Q; cv_sentiment_score := Some 0.8%Q;
       cv_timestamp := 1000000%Z |};
    {| cv_user_id := 1; cv_message := "Thank you for sharing with me.";
       cv_is_user_message := false; cv_emotion := None;
       cv_emotion_confidence := None; cv_sentiment_score := None;
       cv_timestamp := 1000001%Z |};
    {| cv_user_id := 1; cv_message := "so happy";
       cv_is_user_message := true; cv_emotion := Some "joy";
       cv_emotion_confidence := Some 0.6%Q; cv_sentiment_score := Some 0.2%Q;
       cv_timestamp := 1090000%Z |};
    {| cv_user_id := 1; cv_message := "feeling sad";
       cv_is_user_message := true; cv_emotion := Some "sadness";
       cv_emotion_confidence := Some 0.6%Q; cv_sentiment_score := None;
       cv_timestamp := 1180000%Z |} ].

(** The moment the sample queries are made, and their look-back. *)
Definition now : datetime := 1200000%Z.
Definition days : Z := 30%Z.

(** A vectorizer that raises on every text. *)
Definition failing_vectorizer : Vectorizer :=
  {| transform := fun _ => Raise "ValueError" |}.

(** A classifier whose prediction is the float NaN, of which [int]
    raises [ValueError]. *)
Definition nan_model : Model :=
  {| predict := fun _ => Ok {| is_number := true;
                               to_int := Raise "ValueError";
                               to_str := "nan" |};
     predict_proba := fun _ => Ok [0.1%Q; 0.9%Q] |}.

(** Any unpickled object that is neither a classifier nor a vectorizer. *)
Definition other_object : EmotionDetector.unpickled Model :=
  EmotionDetector.Invalid.

End Samples.

(** ** More Python primitives: sorting and grouping *)
Module Seq.

(** [sorted(xs, key=key)]: a stable sort, ascending in the key. *)
Fixpoint insert_by {A} (key : A -> Z) (x : A) (sorted : list A) : list A :=
  match sorted with
  | [] => [x]
  | y :: r =>
      if (key x <=? key y)%Z then x :: y :: r else y :: insert_by key x r
  end.

Fixpoint sorted_by {A} (key : A -> Z) (xs : list A) : list A :=
  match xs with
  | [] => []
  | x :: r => insert_by key x (sorted_by key r)
  end.

(** [if k not in d: d[k] = []] followed by [d[k].append(v)], and the
    same on a [defaultdict(list)]. *)
Fixpoint group_add {A} (k : Z) (v : A) (d : list (Z * list A))
  : list (Z * list A) :=
  match d with
  | [] => [(k, [v])]
  | (k', vs) :: r =>
      if (k =? k')%Z then (k', vs ++ [v]) :: r
      else (k', vs) :: group_add k v r
  end.

(** The dict a loop of such appends builds from (key, value) pairs. *)
Definition group_by {A} (pairs : list (Z * A)) : list (Z * list A) :=
  fold_left (fun d kv => group_add (fst kv) (snd kv) d) pairs [].

(** [d[k] += 1] on a [defaultdict(int)]. *)
Fixpoint tally_add (k : Z) (d : list (Z * nat)) : list (Z * nat) :=
  match d with
  | [] => [(k, 1)]
  | (k', n) :: r =>
      if (k =? k')%Z then (k', S n) :: r else (k', n) :: tally_add k r
  end.

(** [outer[e][k] += 1] on a [defaultdict] of such dicts. *)
Fixpoint nested_tally_add (e : string) (k : Z)
    (d : list (string * list (Z * nat))) : list (string * list (Z * nat)) :=
  match d with
  | [] => [(e, [(k, 1)])]
  | (e', inner) :: r =>
      if (e =? e')%string then (e', tally_add k inner) :: r
      else (e', inner) :: nested_tally_add e k r
  end.

End Seq.

(** ** attached_assets/analytics.py: frequency and time series

    The date string [strftime('%Y-%m-%d')] of a timestamp is represented
    by its day number; the strings of two dates compare as their day
    numbers do. *)
Module AnalyticsSeries.

Definition get_emotion_frequency (db : list EmotionHistory)
    (user_id : Z) (now : datetime) (days : Z) : list (string * nat) :=
  let emotions := Analytics.query db user_id (cutoff_date now days) in
  match emotions with
  | [] => []
  | _ => Counter (map eh_emotion emotions)
  end.

Record mood_point : Type := {
  mp_date : Z;
  mp_intensity : Q;
  mp_count : nat
}.

Definition get_daily_mood_data (db : list EmotionHistory)
    (user_id : Z) (now : datetime) (days : Z) : result (list mood_point) :=
  since <- utcnow_minus now days ;;
  let emotions := Analytics.query db user_id since in
  match emotions with
  | [] => Ok []
  | _ =>
      let daily_data :=
        Seq.group_by
          (map (fun emotion =>
                  (date (eh_timestamp emotion),
                   Analytics.or_half (eh_intensity emotion)))
             emotions) in
      result <-
        for_each
          (fun entry =>
             let intensities := snd entry in
             avg_intensity <- truediv (Py.sum intensities) (Py.len intensities) ;;
             Ok {| mp_date := fst entry;
                   mp_intensity := Py.round avg_intensity 2;
                   mp_count := List.length intensities |})
          daily_data ;;
      Ok (Seq.sorted_by mp_date result)
  end.

(** The rows of the query of [get_sentiment_trends], which also asks for
    [sentiment_score IS NOT NULL], as (date, sentiment_score). *)
Fixpoint dated_sentiments (emotions : list EmotionHistory) : list (Z * Q) :=
  match emotions with
  | [] => []
  | e :: r =>
      match eh_sentiment_score e with
      | Some score => (date (eh_timestamp e), score) :: dated_sentiments r
      | None => dated_sentiments r
      end
  end.

Record sentiment_point : Type := {
  sp_date : Z;
  sp_sentiment : Q
}.

Definition get_sentiment_trends (db : list EmotionHistory)
    (user_id : Z) (now : datetime) (days : Z) : result (list sentiment_point) :=
  since <- utcnow_minus now days ;;
  let emotions := dated_sentiments (Analytics.query db user_id since) in
  match emotions with
  | [] => Ok []
  | _ =>
      let daily_sentiment := Seq.group_by emotions in
      result <-
        for_each
          (fun entry =>
             let scores := snd entry in
             avg_sentiment <- truediv (Py.sum scores) (Py.len scores) ;;
             Ok {| sp_date := fst entry;
                   sp_sentiment := Py.round avg_sentiment 3 |})
          daily_sentiment ;;
      Ok (Seq.sorted_by sp_date result)
  end.

End AnalyticsSeries.

(** ** routes.py: frequency and time series *)
Module RoutesSeries.

Definition emotion_frequency (db : list Conversation)
    (user_id : Z) (now : datetime) (days : Z) : list (string * nat) :=
  Counter (Routes.emotions_of
             (Routes.user_messages db user_id (cutoff_date now days))).

(** The rows of the query of [emotion_trends]: (emotion, date) of the
    messages whose emotion is not [None]. *)
Fixpoint dated_emotions (cs : list Conversation) : list (string * Z) :=
  match cs with
  | [] => []
  | c :: r =>
      match cv_emotion c with
      | Some e => (e, date (cv_timestamp c)) :: dated_emotions r
      | None => dated_emotions r
      end
  end.

(** One point of a Chart.js series. *)
Record point (Y : Type) : Type := {
  x : Z;
  y : Y
}.
Arguments x {Y} p.
Arguments y {Y} p.

(** Keys of a dict are distinct, so [sorted(d.items())] orders the
    items by their key alone. *)
Definition emotion_trends (db : list Conversation)
    (user_id : Z) (now : datetime) (days : Z)
  : list (string * list (point nat)) :=
  let conversations :=
    dated_emotions (Routes.user_messages db user_id (cutoff_date now days)) in
  let daily_emotions :=
    fold_left (fun d row => Seq.nested_tally_add (fst row) (snd row) d)
      conversations [] in
  map (fun entry =>
         (fst entry,
          map (fun item => {| x := fst item; y := snd item |})
            (Seq.sorted_by fst (snd entry))))
    daily_emotions.

(** The rows of the query of [sentiment_trends], as (date, sentiment). *)
Fixpoint dated_sentiments (cs : list Conversation) : list (Z * Q) :=
  match cs with
  | [] => []
  | c :: r =>
      match cv_sentiment_score c with
      | Some s => (date (cv_timestamp c), s) :: dated_sentiments r
      | None => dated_sentiments r
      end
  end.

Definition sentiment_trends (db : list Conversation)
    (user_id : Z) (now : datetime) (days : Z) : result (list (point Q)) :=
  since <- utcnow_minus now days ;;
  let sentiments := dated_sentiments (Routes.user_messages db user_id since) in
  let daily_sentiments := Seq.group_by sentiments in
  for_each
    (fun item =>
       let scores := snd item in
       average <- truediv (Py.sum scores) (Py.len scores) ;;
       Ok {| x := fst item; y := average |})
    (Seq.sorted_by fst daily_sentiments).

(** [emotion_values.get(emotion.lower(), 0)] *)
Definition emotion_value (emotion : string) : Q :=
  let table :=
    [ ("joy", 1%Q); ("love", 0.8%Q); ("surprise", 0.6%Q); ("neutral", 0%Q);
      ("fear", (-0.4)%Q); ("sadness", (-0.6)%Q); ("anger", (-0.8)%Q) ] in
  match find (fun entry => (fst entry =? lower emotion)%string) table with
  | Some entry => snd entry
  | None => 0%Q
  end.

(** The mood value of one message: the emotion's value, averaged with
    the sentiment when there is one and it is not zero. *)
Definition mood_value (emotion : string) (sentiment : option Q) : result Q :=
  let mood_value := emotion_value emotion in
  match sentiment with
  | Some s =>
      if Qeq_bool s 0 then Ok mood_value else truediv (mood_value + s)%Q 2%Q
  | None => Ok mood_value
  end.

(** The rows of the query of [daily_mood] whose emotion is not [None]. *)
Definition with_emotion (cs : list Conversation) : list Conversation :=
  filter (fun c => match cv_emotion c with Some _ => true | None => false end)
    cs.

Definition daily_mood (db : list Conversation)
    (user_id : Z) (now : datetime) (days : Z) : result (list (Z * Q)) :=
  since <- utcnow_minus now days ;;
  let conversations := with_emotion (Routes.user_messages db user_id since) in
  moods <-
    for_each
      (fun c =>
         value <- mood_value (match cv_emotion c with
                              | Some e => e
                              | None => ""
                              end)
                    (cv_sentiment_score c) ;;
         Ok (date (cv_timestamp c), value))
      conversations ;;
  let daily_moods := Seq.group_by moods in
  for_each
    (fun entry =>
       let moods := snd entry in
       avg_mood <- truediv (Py.sum moods) (Py.len moods) ;;
       Ok (fst entry, avg_mood))
    daily_moods.

(** [analytics_summary] from its first statement on: the cutoff date is
    computed, which can overflow, and [Routes.analytics_summary] is what
    the handler does from the query on. *)
Definition analytics_summary (db : list Conversation)
    (user_id : Z) (now : datetime) (days : Z) : result Analytics.summary :=
  since <- utcnow_minus now days ;;
  Routes.analytics_summary db user_id now days.

End RoutesSeries.

(** ** Vocabulary of the further properties *)
Module Props.

(** [emotion] is a most frequent element of [emotions]. *)
Definition is_mode (emotions : list string) (emotion : string) : Prop :=
  In emotion emotions
  /\ forall other,
       count_occ string_dec emotions other
       <= count_occ string_dec emotions emotion.

(** A string without any whitespace character. *)
Fixpoint spaceless (s : string) : bool :=
  match s with
  | EmptyString => true
  | String c s' => (negb (isspace c) && spaceless s')%bool
  end.

(** Every number of the list lies between [lo] and [hi]. *)
Definition all_within (lo hi : Q) (xs : list Q) : Prop :=
  Forall (fun v => (lo <= v <= hi)%Q) xs.

(** The values a dict of lists groups under [k], none when it has no
    entry. *)
Definition group_of {A} (d : list (Z * list A)) (k : Z) : list A :=
  match find (fun entry => (fst entry =? k)%Z) d with
  | Some entry => snd entry
  | None => []
  end.

(** The values of the pairs whose key is [k], in their order. *)
Definition values_at {A} (pairs : list (Z * A)) (k : Z) : list A :=
  map snd (filter (fun p => (fst p =? k)%Z) pairs).

(** The look-back [days] is one Python can subtract from [now]: it fits
    a timedelta and the cutoff date is a date of the years 1 to 9999. *)
Definition representable (now : datetime) (days : Z) : bool :=
  ((Z.abs days <=? max_timedelta_days)%Z
   && (datetime_min <=? cutoff_date now days)%Z
   && (cutoff_date now days <=? datetime_max)%Z)%bool.

(** What the detector can use of an attribute after [load_models]:
    nothing when no file was unpickled or the object failed the
    validation. *)
Definition usable {A} (loaded : option (EmotionDetector.unpickled A))
  : option A :=
  match loaded with
  | Some object => EmotionDetector.validated object
  | None => None
  end.

(** A polarity analyzer that keeps to the range of TextBlob's polarity. *)
Definition polarity_in_range (textblob_polarity : string -> result Q) : Prop :=
  forall text q, textblob_polarity text = Ok q -> (-1 <= q <= 1)%Q.

End Props.

(** ** Vocabulary of the trend properties *)
Module TrendProps.

(** The count a [defaultdict(int)] holds for [k], zero without entry. *)
Definition tally_of (d : list (Z * nat)) (k : Z) : nat :=
  match find (fun entry => (fst entry =? k)%Z) d with
  | Some entry => snd entry
  | None => 0
  end.

(** The inner dict held for [e], empty without entry. *)
Definition inner_of (d : list (string * list (Z * nat))) (e : string)
  : list (Z * nat) :=
  match find (fun entry => (fst entry =? e)%string) d with
  | Some entry => snd entry
  | None => []
  end.

(** The number of rows with emotion [e] on date [k]. *)
Definition rows_at (rows : list (string * Z)) (e : string) (k : Z) : nat :=
  List.length
    (filter (fun row => ((fst row =? e)%string && (snd row =? k)%Z)%bool) rows).

End TrendProps.

(** ** attached_assets/analytics.py: emotion trends *)
Module AnalyticsTrends.

(** [trend_data[date_str][emotion_type] += 1], with both entries created
    when they are missing. *)
Fixpoint trend_add (k : Z) (e : string) (d : list (Z * list (string * nat)))
  : list (Z * list (string * nat)) :=
  match d with
  | [] => [(k, [(e, 1)])]
  | (k', inner) :: r =>
      if (k =? k')%Z then (k', counter_add e inner) :: r
      else (k', inner) :: trend_add k e r
  end.

(** [trend_data[date]] for a date that is a key of [trend_data]. *)
Definition day_of (d : list (Z * list (string * nat))) (k : Z)
  : list (string * nat) :=
  match find (fun entry => (fst entry =? k)%Z) d with
  | Some entry => snd entry
  | None => []
  end.

Section WithSetOrder.

(** The order in which Python iterates the set built from the given
    elements: some arrangement of the distinct ones. *)
Variable set_order : list string -> list string.

Definition get_emotion_trends (db : list EmotionHistory)
    (user_id : Z) (now : datetime) (days : Z)
  : list (string * list (RoutesSeries.point nat)) :=
  let emotions := Analytics.query db user_id (cutoff_date now days) in
  match emotions with
  | [] => []
  | _ =>
      let trend_data :=
        fold_left
          (fun d emotion =>
             trend_add (date (eh_timestamp emotion)) (eh_emotion emotion) d)
          emotions [] in
      let dates := Seq.sorted_by (fun k => k) (map fst trend_data) in
      let all_emotions :=
        set_order (concat (map (fun entry => map fst (snd entry)) trend_data)) in
      map (fun emotion =>
             (emotion,
              map (fun date =>
                     {| RoutesSeries.x := date;
                        RoutesSeries.y := count_in (day_of trend_data date) emotion |})
                dates))
        all_emotions
  end.

End WithSetOrder.

(** The number of records with emotion [e] on date [k]. *)
Definition records_at (records : list EmotionHistory) (e : string) (k : Z)
  : nat :=
  List.length
    (filter (fun r => ((date (eh_timestamp r) =? k)%Z
                       && (eh_emotion r =? e)%string)%bool) records).

(** [order] arranges the distinct elements of every list. *)
Definition arranges (order : list string -> list string) : Prop :=
  forall l, NoDup (order l) /\ forall e, In e (order l) <-> In e l.

End AnalyticsTrends.

(** ** The replies of the chat handlers

    [random.choice] draws from the generator; the draws a call makes are
    given to it as numbers. *)
Module Replies.

(** [random.choice(xs)] on the draw [pick]. *)
Definition choice {A} (pick : nat) (xs : list A) : result A :=
  match nth_error xs (pick mod List.length xs) with
  | Some item => Ok item
  | None => Raise "IndexError"
  end.

(** [d[k]] *)
Definition subscript {V} (d : list (string * V)) (k : string) : result V :=
  match find (fun entry => (fst entry =? k)%string) d with
  | Some entry => Ok (snd entry)
  | None => Raise "KeyError"
  end.

(** [d.get(k, default)] *)
Definition get {V} (d : list (string * V)) (k : string) (default : V) : V :=
  match find (fun entry => (fst entry =? k)%string) d with
  | Some entry => snd entry
  | None => default
  end.

(** *** attached_assets/routes.py *)
Module V1.

Definition responses : list (string * list string) :=
  [
    ("joy",
      [ "I'm so glad to hear you're feeling joyful! What's bringing you happiness today?";
        "That's wonderful! It sounds like you're in a great mood. Would you like to share what's making you feel so positive?";
        "Your joy is contagious! It's beautiful to see you feeling so uplifted." ]);
    ("sadness",
      [ "I hear that you're feeling sad, and I want you to know that it's okay to feel this way. Would you like to talk about what's troubling you?";
        "I'm sorry you're going through a difficult time. Remember that sadness is a natural emotion, and it's important to acknowledge it.";
        "It sounds like you're experiencing some sadness. I'm here to listen if you'd like to share more about what you're feeling." ]);
    ("anger",
      [ "I can sense your frustration. Anger can be a powerful emotion. Would you like to explore what's triggering these feelings?";
        "It sounds like something has really upset you. Sometimes it helps to talk through what's making you feel this way.";
        "I understand you're feeling angry. Let's work through this together. What's causing these intense feelings?" ]);
    ("fear",
      [ "I can hear the worry in your words. Fear and anxiety can be overwhelming. What's causing you to feel this way?";
        "It's brave of you to share your fears. Remember that you're not alone in this. Would you like to talk about what's making you feel anxious?";
        "I understand you're feeling scared or anxious. These feelings are valid, and I'm here to support you through this." ]);
    ("surprise",
      [ "It sounds like something unexpected happened! How are you processing this surprise?";
        "Life can certainly throw us curveballs. How are you feeling about this unexpected situation?";
        "That sounds surprising! Sometimes unexpected events can bring up a mix of emotions." ]);
    ("love",
      [ "It's beautiful to hear the love and care in your words. Love is such a powerful and healing emotion.";
        "The warmth and affection you're expressing is touching. Love can be such a source of strength and joy.";
        "I can feel the love in what you're sharing. It's wonderful that you're experiencing these deep, caring feelings." ]);
    ("neutral",
      [ "Thank you for sharing with me. How are you feeling overall today?";
        "I'm here to listen and support you. Is there anything specific on your mind that you'd like to discuss?";
        "How has your day been? I'm here if you need someone to talk to about anything you're experiencing." ]) ].

Definition suggestions : list (string * string) :=
  [
    ("sadness",
      " Would you like to try some journaling or explore some resources that might help?");
    ("anger",
      " Sometimes deep breathing or physical activity can help process these intense emotions.");
    ("fear",
      " Remember that you have the strength to face your fears, and there are techniques that can help manage anxiety.");
    ("joy",
      " Consider writing down what's making you happy so you can reflect on it later!");
    ("love",
      " These positive feelings are precious - they remind us of what's truly important in life.") ].

Definition generate_bot_response (pick : nat) (emotion : string)
    (confidence sentiment_score : Q) : result string :=
  neutral_responses <- subscript responses "neutral" ;;
  let emotion_responses := get responses emotion neutral_responses in
  base_response <- choice pick emotion_responses ;;
  let base_response :=
    if Qltb 0.8%Q confidence then
      if Qltb sentiment_score (-0.3)%Q then
        (base_response ++ " I want you to know that what you're feeling is completely valid, and you don't have to go through this alone.")%string
      else if Qltb 0.3%Q sentiment_score then
        (base_response ++ " It's wonderful to see you feeling so positive!")%string
      else base_response
    else base_response in
  let suggestion :=
    get suggestions emotion
      " Is there anything specific I can help you with today?" in
  Ok (base_response ++ suggestion)%string.

End V1.

(** *** routes.py *)
Module V2.

Definition responses : list (string * list string) :=
  [
    ("joy",
      [ "I'm so glad to hear you're feeling positive! That's wonderful. What's bringing you this joy today?";
        "It's beautiful to see your happiness shine through! Would you like to share more about what's making you feel so good?";
        "Your positive energy is contagious! How can we help you maintain this wonderful feeling?" ]);
    ("sadness",
      [ "I can sense you're going through a difficult time. I'm here to listen and support you. Would you like to talk about what's troubling you?";
        "It's okay to feel sad sometimes. Your feelings are valid, and I'm here with you. How can I best support you right now?";
        "I'm sorry you're feeling down. Remember that it's brave to reach out and share your feelings. What would help you feel a little better today?" ]);
    ("anger",
      [ "I can hear the frustration in your words. It's natural to feel angry sometimes. Would you like to talk about what's bothering you?";
        "Strong emotions like anger can be overwhelming. Let's work through this together. What triggered these feelings?";
        "I understand you're feeling upset. Taking a moment to breathe can help. What's causing this anger, and how can we address it?" ]);
    ("fear",
      [ "I can sense you're feeling anxious or scared. That must be really difficult. You're safe here, and we can work through this together.";
        "Fear can be overwhelming, but you're not alone. I'm here to help you process these feelings. What's making you feel afraid?";
        "It takes courage to acknowledge fear. You're being brave by sharing this with me. How can I help you feel more secure?" ]);
    ("surprise",
      [ "It sounds like something unexpected happened! How are you processing this surprise?";
        "Life can certainly throw us curveballs! How are you feeling about this unexpected turn of events?";
        "Surprises can be overwhelming. Take your time to process what happened. How can I support you through this?" ]);
    ("love",
      [ "It's wonderful to hear about the love and connection in your life! These feelings are so important for our wellbeing.";
        "Love is such a beautiful emotion. It's lovely that you're experiencing these positive feelings. Tell me more about what's bringing you this joy.";
        "The love you're expressing is heartwarming. How does it feel to experience such positive emotions?" ]);
    ("neutral",
      [ "Thank you for sharing with me. I'm here to listen and support you in whatever way you need.";
        "I appreciate you opening up to me. How are you feeling right now, and what would be most helpful for you?";
        "I'm glad you're here and willing to share your thoughts. What's on your mind today?" ]) ].

Definition supportive_phrases : list string :=
  [ "I want you to know that your feelings are completely valid. ";
    "It's important that you're expressing these difficult emotions. ";
    "Remember, you don't have to go through this alone. " ].

Definition encouraging_phrases : list string :=
  [ "It's wonderful to hear such positivity from you! ";
    "Your positive outlook is inspiring. ";
    "I love hearing about the good things in your life. " ].

(** [pick1] and [pick2] are the first and the second draw of the call. *)
Definition generate_bot_response (pick1 pick2 : nat) (emotion : string)
    (sentiment : Q) (message : string) : result string :=
  neutral_responses <- subscript responses "neutral" ;;
  let emotion_responses := get responses emotion neutral_responses in
  if Qltb sentiment (-0.3)%Q then
    prefix <- choice pick1 supportive_phrases ;;
    response <- choice pick2 emotion_responses ;;
    Ok (prefix ++ response)%string
  else if Qltb 0.3%Q sentiment then
    prefix <- choice pick1 encouraging_phrases ;;
    response <- choice pick2 emotion_responses ;;
    Ok (prefix ++ response)%string
  else choice pick1 emotion_responses.

End V2.

End Replies.

(** ** attached_assets/upload_pkl.py: matching uploaded files *)
Module UploadPkl.

(** [s.replace(old, new)] for a non-empty [old]: the occurrences are
    replaced from the left and do not overlap; [skip] counts the
    characters of an occurrence still to pass. *)
Fixpoint replace_from (old new s : string) (skip : nat) : string :=
  match s with
  | EmptyString => EmptyString
  | String c s' =>
      match skip with
      | S n => replace_from old new s' n
      | O =>
          if String.prefix old s
          then (new ++ replace_from old new s' (String.length old - 1))%string
          else String c (replace_from old new s' 0)
      end
  end.

Definition replace (old new s : string) : string := replace_from old new s 0.

(** [s.split(sep)] for a separator of one character. *)
Fixpoint split (sep : ascii) (s : string) : list string :=
  match s with
  | EmptyString => [EmptyString]
  | String c s' =>
      if Ascii.eqb c sep then EmptyString :: split sep s'
      else match split sep s' with
           | part :: parts => String c part :: parts
           | [] => [String c EmptyString]
           end
  end.

(** [s.endswith(suffix)] *)
Fixpoint endswith (s suffix : string) : bool :=
  ((s =? suffix)%string
   || match s with
      | EmptyString => false
      | String _ s' => endswith s' suffix
      end)%bool.

(** The keys of [model_files], in the order the dict declares them. *)
Definition model_files : list string :=
  ["tfidf_vectorizer.pkl"; "tfidf_logreg_emotion.pkl"; "label_encoder.pkl"].

(** [any(keyword in file.lower() for keyword in
    expected_name.replace('.pkl', '').split('_'))] *)
Definition matches (file expected_name : string) : bool :=
  existsb (fun keyword => contains keyword (lower file))
    (split "_"%char (replace ".pkl" "" expected_name)).

(** The expected name a file of the directory listing is matched to:
    none unless its name ends in [.pkl], else the first one that
    matches. *)
Definition matched_name (file : string) : option string :=
  if endswith file ".pkl" then find (matches file) model_files else None.

End UploadPkl.

(* ================================================================== *)
(** * Part II: properties *)
(* ================================================================== *)

(** ** Strings *)
Section StringFacts.

Lemma lstrip_blank (s : string) : Spec.blank s = true -> lstrip s = "".
Proof.
  induction s as [|c s IH]; simpl; [reflexivity|].
  intros H. apply andb_true_iff in H as [Hc Hs].
  rewrite Hc. auto.
Qed.

Lemma strip_blank (s : string) : Spec.blank s = true -> strip s = "".
Proof.
  intros H. unfold strip. now rewrite lstrip_blank.
Qed.

Lemma rstrip_empty_blank (s : string) : rstrip s = "" -> Spec.blank s = true.
Proof.
  induction s as [|c s IH]; simpl; [reflexivity|].
  destruct (rstrip s) eqn:E; [|discriminate].
  destruct (isspace c); [|discriminate].
  intros _. now rewrite IH.
Qed.

Lemma strip_empty_blank (s : string) : strip s = "" -> Spec.blank s = true.
Proof.
  unfold strip. induction s as [|c s IH]; simpl; [reflexivity|].
  destruct (isspace c) eqn:Hc; simpl.
  - auto.
  - rewrite Hc. destruct (rstrip s); intros E; discriminate E.
Qed.

(** [not text or not text.strip()] holds exactly of the blank texts. *)
Lemma blank_test (s : string) :
  (str_falsy s || str_falsy (strip s))%bool = Spec.blank s.
Proof.
  unfold str_falsy.
  destruct (Spec.blank s) eqn:Hb.
  - rewrite (strip_blank s Hb). simpl. apply orb_true_r.
  - apply orb_false_iff. split.
    + destruct s; [discriminate Hb | reflexivity].
    + apply String.eqb_neq. intros E.
      apply strip_empty_blank in E. congruence.
Qed.

End StringFacts.

(** ** Numbers *)
Section NumberFacts.

Lemma Qltb_lt (a b : Q) : Qltb a b = true <-> (a < b)%Q.
Proof.
  unfold Qltb. rewrite negb_true_iff.
  split; intros H.
  - apply Qnot_le_lt. intros Hle.
    apply Qle_bool_iff in Hle. congruence.
  - destruct (Qle_bool b a) eqn:E; [|reflexivity].
    apply Qle_bool_iff in E. exfalso. apply (Qlt_not_le _ _ H E).
Qed.

Lemma Qltb_ge (a b : Q) : Qltb a b = false <-> (b <= a)%Q.
Proof.
  unfold Qltb. rewrite negb_false_iff. apply Qle_bool_iff.
Qed.

Lemma min2_spec (a b : Q) :
  ((b < a)%Q /\ min2 a b = b) \/ ((a <= b)%Q /\ min2 a b = a).
Proof.
  unfold min2. destruct (Qltb b a) eqn:E.
  - left. split; [now apply Qltb_lt | reflexivity].
  - right. split; [now apply Qltb_ge | reflexivity].
Qed.

Lemma max2_spec (a b : Q) :
  ((a < b)%Q /\ max2 a b = b) \/ ((b <= a)%Q /\ max2 a b = a).
Proof.
  unfold max2. destruct (Qltb a b) eqn:E.
  - left. split; [now apply Qltb_lt | reflexivity].
  - right. split; [now apply Qltb_ge | reflexivity].
Qed.

Lemma min2_Qmin (a b : Q) : (min2 a b == Qmin a b)%Q.
Proof.
  destruct (min2_spec a b) as [[H ->]|[H ->]].
  - symmetry. apply Q.min_r. now apply Qlt_le_weak.
  - symmetry. now apply Q.min_l.
Qed.

Lemma max2_Qmax (a b : Q) : (max2 a b == Qmax a b)%Q.
Proof.
  destruct (max2_spec a b) as [[H ->]|[H ->]].
  - symmetry. apply Q.max_r. now apply Qlt_le_weak.
  - symmetry. now apply Q.max_l.
Qed.

End NumberFacts.

(** ** Detection: blank text and intensity *)
Section DetectionFacts.

Variable textblob_polarity : string -> result Q.

Lemma detect_emotion_blank (self : EmotionDetector.t) (text : string) :
  Spec.blank text = true ->
  EmotionDetector.detect_emotion textblob_polarity self text
  = Ok ("neutral", 0.5%Q, 0.0%Q).
Proof.
  intros H. unfold EmotionDetector.detect_emotion.
  now rewrite blank_test, H.
Qed.

Lemma detect_emotion_not_blank (self : EmotionDetector.t) (text : string) :
  Spec.blank text = false ->
  EmotionDetector.detect_emotion textblob_polarity self text
  = try_except
      (match EmotionDetector.model self, EmotionDetector.vectorizer self with
       | Some m, Some v =>
           EmotionDetector._predict_with_model textblob_polarity self v m text
       | _, _ => EmotionDetector._fallback_detection textblob_polarity text
       end)
      (fun _ => Ok ("neutral", 0.5%Q, 0.0%Q)).
Proof.
  intros H. unfold EmotionDetector.detect_emotion.
  now rewrite blank_test, H.
Qed.

(** C2: for every empty or whitespace-only text, detection returns the
    fixed neutral reading, emotion neutral, confidence 0.5, sentiment
    0.0, and the intensity derived from it is 0.5. *)
Theorem blank_text_neutral_reading (self : EmotionDetector.t) (text : string) :
  Spec.blank text = true ->
  EmotionDetector.detect_emotion textblob_polarity self text
  = Ok ("neutral", 0.5%Q, 0.0%Q)
  /\ EmotionDetector.detect_with_intensity textblob_polarity self text
     = Ok ("neutral", 0.5%Q, 0.0%Q, 0.5%Q).
Proof.
  intros H. split.
  - now apply detect_emotion_blank.
  - unfold EmotionDetector.detect_with_intensity.
    rewrite (detect_emotion_blank self text H). reflexivity.
Qed.

End DetectionFacts.

(** The whitespace-only text of three spaces, with a polarity analyzer
    that would raise if it were consulted. *)
Lemma blank_text_neutral_reading_witness :
  Spec.blank "   " = true
  /\ EmotionDetector.detect_with_intensity (fun _ => Raise "LookupError")
       (EmotionDetector.load_models None None None) "   "
     = Ok ("neutral", 0.5%Q, 0.0%Q, 0.5%Q).
Proof.
  split; [reflexivity|].
  apply (blank_text_neutral_reading (fun _ => Raise "LookupError")
           (EmotionDetector.load_models None None None) "   ").
  reflexivity.
Defined.

Section IntensityFacts.

Local Open Scope Q_scope.

Lemma in_list_joy_love (emotion : string) :
  EmotionDetector.in_list emotion ["joy"; "love"]%string
  = ((emotion =? "joy") || (emotion =? "love"))%string%bool.
Proof.
  unfold EmotionDetector.in_list. simpl. now rewrite orb_false_r.
Qed.

Lemma in_list_negative (emotion : string) :
  EmotionDetector.in_list emotion ["sadness"; "anger"; "fear"]%string
  = ((emotion =? "sadness") || (emotion =? "anger")
     || (emotion =? "fear"))%string%bool.
Proof.
  unfold EmotionDetector.in_list. simpl.
  now rewrite orb_false_r, orb_assoc.
Qed.

(** The program's two-argument clamp is the specification's. *)
Lemma clamp_agrees (x : Q) : max2 0.0 (min2 1.0 x) == Spec.clamp01 x.
Proof.
  unfold Spec.clamp01.
  destruct (min2_spec 1.0 x) as [[H1 ->]|[H1 ->]];
    destruct (Q.min_spec 1 x) as [[H2 E2]|[H2 E2]];
    match goal with
    | |- max2 ?a ?b == _ =>
        destruct (max2_spec a b) as [[H3 ->]|[H3 ->]]
    end;
    destruct (Q.max_spec 0 (Qmin 1 x)) as [[H4 E4]|[H4 E4]];
    rewrite E4; rewrite ?E2 in *; lra.
Qed.

Lemma clamp01_bounds (x : Q) : 0 <= Spec.clamp01 x <= 1.
Proof.
  unfold Spec.clamp01.
  destruct (Q.min_spec 1 x) as [[H2 E2]|[H2 E2]];
    destruct (Q.max_spec 0 (Qmin 1 x)) as [[H4 E4]|[H4 E4]];
    rewrite E4; rewrite ?E2 in *; lra.
Qed.

Lemma calculate_intensity_refines (emotion : string) (confidence sentiment : Q) :
  EmotionDetector.calculate_intensity emotion confidence sentiment
  == Spec.intensity emotion confidence sentiment.
Proof.
  unfold EmotionDetector.calculate_intensity, Spec.intensity.
  rewrite in_list_joy_love, in_list_negative.
  apply clamp_agrees.
Qed.

(** C3: for every emotion label, confidence in [0,1] and sentiment in
    [-1,1], the derived intensity is confidence * (1 + sentiment * 0.5)
    for joy and love, confidence * (1 - sentiment * 0.5) for sadness,
    anger and fear, and confidence otherwise, clamped to [0,1]; the
    returned intensity lies in [0,1]. *)
Theorem calculate_intensity_correct (emotion : string)
    (confidence sentiment : Q) :
  0 <= confidence <= 1 ->
  -1 <= sentiment <= 1 ->
  EmotionDetector.calculate_intensity emotion confidence sentiment
  == Spec.intensity emotion confidence sentiment
  /\ 0 <= EmotionDetector.calculate_intensity emotion confidence sentiment <= 1.
Proof.
  intros _ _.
  pose proof (calculate_intensity_refines emotion confidence sentiment) as E.
  split; [exact E|].
  rewrite E. apply clamp01_bounds.
Qed.

End IntensityFacts.

(** ** The keyword fallback classifiers *)
Section MaxBy.

Context {A : Type} (key : A -> nat).

(** [max_by] returns the first element with the largest key. *)
Lemma max_by_first_maximal (rest : list A) : forall best : A,
  exists before after,
    best :: rest = before ++ max_by key best rest :: after
    /\ Forall (fun x => key x < key (max_by key best rest)) before
    /\ Forall (fun x => key x <= key (max_by key best rest)) after.
Proof.
  induction rest as [|x r IH]; intros best; simpl.
  - exists [], []. repeat split; constructor.
  - destruct (key best <? key x) eqn:E.
    + apply Nat.ltb_lt in E.
      destruct (IH x) as (b & a & Heq & Hb & Ha).
      exists (best :: b), a. split; [simpl; congruence|].
      split; [|exact Ha].
      constructor; [|exact Hb].
      destruct b as [|y b'].
      * simpl in Heq. injection Heq as Hx _. rewrite <- Hx. exact E.
      * simpl in Heq. injection Heq as Hx _. subst y.
        inversion Hb; subst. lia.
    + apply Nat.ltb_ge in E.
      destruct (IH best) as (b & a & Heq & Hb & Ha).
      destruct b as [|y b'].
      * simpl in Heq. injection Heq as Hw Hr.
        exists [], (x :: a). split; [simpl; congruence|].
        split; [constructor|].
        constructor; [rewrite <- Hw; exact E | exact Ha].
      * simpl in Heq. injection Heq as Hy Hr. subst y.
        exists (best :: x :: b'), a.
        split; [simpl; congruence|].
        split; [|exact Ha].
        inversion Hb; subst.
        constructor; [assumption|].
        constructor; [lia | assumption].
Qed.

End MaxBy.

Section FilterFacts.

Context {A : Type} (p : A -> bool).

(** A split of [filter p l] comes from a split of [l]. *)
Lemma filter_eq_app_cons (l : list A) : forall before w after,
  filter p l = before ++ w :: after ->
  exists before' after',
    l = before' ++ w :: after'
    /\ filter p before' = before
    /\ filter p after' = after
    /\ p w = true.
Proof.
  induction l as [|x l IH]; intros before w after H; simpl in H.
  - destruct before; discriminate.
  - destruct (p x) eqn:Hx.
    + destruct before as [|y b].
      * simpl in H. injection H as E Hr. subst w.
        exists [], l. simpl. auto.
      * simpl in H. injection H as E Hr. subst y.
        destruct (IH _ _ _ Hr) as (b' & a' & -> & Hb & Ha & Hw).
        exists (x :: b'), a'. simpl. rewrite Hx, Hb. auto.
    + destruct (IH _ _ _ H) as (b' & a' & -> & Hb & Ha & Hw).
      exists (x :: b'), a'. simpl. rewrite Hx. auto.
Qed.

Lemma filter_nil_iff (l : list A) :
  filter p l = [] <-> existsb p l = false.
Proof.
  induction l as [|x l IH]; simpl; [tauto|].
  destruct (p x); simpl; [split; discriminate | exact IH].
Qed.

End FilterFacts.

Lemma existsb_map_comp {A B : Type} (f : A -> B) (p : B -> bool) (l : list A) :
  existsb p (map f l) = existsb (fun x => p (f x)) l.
Proof.
  induction l as [|x l IH]; simpl; [reflexivity|]. now rewrite IH.
Qed.

Section FallbackFacts.

Variable table : list (string * list string).
Variable text : string.

Lemma emotion_scores_nil :
  emotion_scores table text = [] <-> Spec.any_hit table text = false.
Proof.
  unfold emotion_scores, Spec.any_hit.
  rewrite filter_nil_iff, existsb_map_comp. reflexivity.
Qed.

(** The entry the scoring loop and [max] settle on. *)
Lemma winner_first_maximal (first : string * nat) (rest : list (string * nat)) :
  emotion_scores table text = first :: rest ->
  exists before keywords after,
    table = before ++ (fst (max_by snd first rest), keywords) :: after
    /\ snd (max_by snd first rest) = keyword_score keywords text
    /\ Forall (fun entry => keyword_score (snd entry) text
                            < keyword_score keywords text) before
    /\ Forall (fun entry => keyword_score (snd entry) text
                            <= keyword_score keywords text) after.
Proof.
  intros Hs.
  destruct (max_by_first_maximal snd rest first) as (b & a & Heq & Hb & Ha).
  set (w := max_by snd first rest) in *.
  rewrite <- Hs in Heq. unfold emotion_scores in Heq.
  apply filter_eq_app_cons in Heq
    as (b' & a' & Hmap & Hfb & Hfa & Hpos).
  apply Nat.ltb_lt in Hpos.
  apply map_eq_app in Hmap as (tb & tr & -> & Hmb & Hmr).
  apply map_eq_cons in Hmr as (e & ta & -> & He & Hma).
  exists tb, (snd e), ta.
  assert (Hw : snd w = keyword_score (snd e) text)
    by (rewrite <- He; reflexivity).
  assert (Hf : fst w = fst e) by (rewrite <- He; reflexivity).
  split; [rewrite Hf; now destruct e|].
  split; [exact Hw|].
  rewrite <- Hw. split.
  - apply Forall_forall. intros x Hx.
    destruct (0 <? keyword_score (snd x) text) eqn:Ex.
    + rewrite Forall_forall in Hb.
      apply (Hb (fst x, keyword_score (snd x) text)).
      rewrite <- Hfb, <- Hmb. apply filter_In. split; [|exact Ex].
      apply in_map_iff. now exists x.
    + apply Nat.ltb_ge in Ex. lia.
  - apply Forall_forall. intros x Hx.
    destruct (0 <? keyword_score (snd x) text) eqn:Ex.
    + rewrite Forall_forall in Ha.
      apply (Ha (fst x, keyword_score (snd x) text)).
      rewrite <- Hfa, <- Hma. apply filter_In. split; [|exact Ex].
      apply in_map_iff. now exists x.
    + apply Nat.ltb_ge in Ex. lia.
Qed.

End FallbackFacts.

(** *** Blank text holds no keyword *)
Section BlankFacts.

Lemma isspace_lower_char (c : ascii) : isspace c = true -> lower_char c = c.
Proof.
  destruct c as [[] [] [] [] [] [] [] []]; vm_compute; congruence.
Qed.

Lemma blank_lower (s : string) : Spec.blank s = true -> lower s = s.
Proof.
  induction s as [|c s IH]; simpl; [reflexivity|].
  intros H. apply andb_true_iff in H as [Hc Hs].
  now rewrite (isspace_lower_char c Hc), IH.
Qed.

Lemma contains_blank (s : string) (a : ascii) (k : string) :
  Spec.blank s = true -> isspace a = false ->
  contains (String a k) s = false.
Proof.
  intros Hs Ha. induction s as [|c s IH]; [reflexivity|].
  simpl in Hs. apply andb_true_iff in Hs as [Hc Hs'].
  simpl. destruct (Ascii.ascii_dec a c) as [->|Hne]; [congruence|].
  simpl. now apply IH.
Qed.

Lemma keyword_score_blank (keywords : list string) (s : string) :
  Forall Spec.solid keywords -> Spec.blank s = true ->
  keyword_score keywords s = 0.
Proof.
  intros Hk Hs. unfold keyword_score.
  induction Hk as [|kw l Hkw _ IH]; [reflexivity|].
  simpl. destruct kw as [|a k]; [contradiction|].
  now rewrite (contains_blank s a k Hs Hkw).
Qed.

Lemma any_hit_blank (table : list (string * list string)) (s : string) :
  Forall (fun entry => Forall Spec.solid (snd entry)) table ->
  Spec.blank s = true ->
  Spec.any_hit table s = false.
Proof.
  intros Ht Hs. unfold Spec.any_hit.
  induction Ht as [|e l He _ IH]; [reflexivity|].
  simpl. now rewrite (keyword_score_blank _ s He Hs), IH.
Qed.

Lemma ml_keywords_solid :
  Forall (fun entry => Forall Spec.solid (snd entry)) MlUtils.emotion_keywords.
Proof.
  unfold MlUtils.emotion_keywords.
  repeat (constructor; simpl; try reflexivity).
Qed.

Lemma ml_hit_not_blank (text : string) :
  Spec.any_hit MlUtils.emotion_keywords (lower text) = true ->
  Spec.blank text = false.
Proof.
  intros H. destruct (Spec.blank text) eqn:Hb; [|reflexivity].
  rewrite (blank_lower text Hb) in H.
  rewrite (any_hit_blank _ text ml_keywords_solid Hb) in H. discriminate.
Qed.

End BlankFacts.

(** *** What each fallback returns *)
Section FallbackResults.

Local Abbreviation ed_table := EmotionDetector.emotion_keywords.
Local Abbreviation ml_table := MlUtils.emotion_keywords.

Lemma ed_fallback_miss (text : string) :
  Spec.any_hit ed_table (lower text) = false ->
  EmotionDetector.fallback_label text = ("neutral", 0.5%Q).
Proof.
  intros H. unfold EmotionDetector.fallback_label.
  apply emotion_scores_nil in H. now rewrite H.
Qed.

Lemma ed_fallback_hit (text : string) :
  Spec.any_hit ed_table (lower text) = true ->
  exists winner before keywords after,
    EmotionDetector.fallback_label text
    = (winner, EmotionDetector.confidence_of_score
                 (keyword_score keywords (lower text)))
    /\ ed_table = before ++ (winner, keywords) :: after
    /\ Forall (fun entry => keyword_score (snd entry) (lower text)
                            < keyword_score keywords (lower text)) before
    /\ Forall (fun entry => keyword_score (snd entry) (lower text)
                            <= keyword_score keywords (lower text)) after.
Proof.
  intros H. unfold EmotionDetector.fallback_label.
  destruct (emotion_scores ed_table (lower text)) as [|first rest] eqn:Es.
  - apply emotion_scores_nil in Es. congruence.
  - destruct (winner_first_maximal _ _ _ _ Es)
      as (b & kws & a & Ht & Hw & Hb & Ha).
    exists (fst (max_by snd first rest)), b, kws, a.
    rewrite Hw. auto.
Qed.

Lemma ml_fallback_miss (text : string) :
  Spec.any_hit ml_table (lower text) = false ->
  MlUtils._fallback_emotion_detection text = ("neutral", 0.5%Q).
Proof.
  intros H. unfold MlUtils._fallback_emotion_detection.
  destruct (str_falsy (strip text)); [reflexivity|].
  apply emotion_scores_nil in H. now rewrite H.
Qed.

Lemma ml_not_blank_strip (text : string) :
  Spec.blank text = false -> str_falsy (strip text) = false.
Proof.
  intros Hb. pose proof (blank_test text) as E. rewrite Hb in E.
  now apply orb_false_iff in E as [_ E].
Qed.

Lemma ml_fallback_hit (text : string) :
  Spec.any_hit ml_table (lower text) = true ->
  exists winner before keywords after,
    MlUtils._fallback_emotion_detection text
    = (winner, MlUtils.confidence_of_score
                 (keyword_score keywords (lower text)))
    /\ ml_table = before ++ (winner, keywords) :: after
    /\ Forall (fun entry => keyword_score (snd entry) (lower text)
                            < keyword_score keywords (lower text)) before
    /\ Forall (fun entry => keyword_score (snd entry) (lower text)
                            <= keyword_score keywords (lower text)) after.
Proof.
  intros H. unfold MlUtils._fallback_emotion_detection.
  rewrite (ml_not_blank_strip text (ml_hit_not_blank text H)).
  destruct (emotion_scores ml_table (lower text)) as [|first rest] eqn:Es.
  - apply emotion_scores_nil in Es. congruence.
  - destruct (winner_first_maximal _ _ _ _ Es)
      as (b & kws & a & Ht & Hw & Hb & Ha).
    exists (fst (max_by snd first rest)), b, kws, a.
    rewrite Hw. auto.
Qed.

(** [_fallback_detection] adds the sentiment score and never raises. *)
Lemma fallback_detection_returns (textblob_polarity : string -> result Q)
    (text : string) :
  exists sentiment,
    EmotionDetector._fallback_detection textblob_polarity text
    = Ok (fst (EmotionDetector.fallback_label text),
          snd (EmotionDetector.fallback_label text), sentiment).
Proof.
  unfold EmotionDetector._fallback_detection,
    EmotionDetector._get_sentiment_score.
  destruct (EmotionDetector.fallback_label text) as [e c].
  destruct (textblob_polarity text) as [q|x]; simpl; eauto.
Qed.

End FallbackResults.

(** *** Confidence as a function of the score *)
Section ConfidenceFacts.

Local Open Scope Q_scope.

Lemma inject_nat_le (n m : nat) :
  (n <= m)%nat -> inject_Z (Z.of_nat n) <= inject_Z (Z.of_nat m).
Proof.
  intros H. rewrite <- Zle_Qle. lia.
Qed.

Lemma ed_confidence_monotone (n m : nat) :
  (n <= m)%nat ->
  EmotionDetector.confidence_of_score n <= EmotionDetector.confidence_of_score m.
Proof.
  intros H. apply inject_nat_le in H.
  unfold EmotionDetector.confidence_of_score.
  destruct (min2_spec 0.8 (inject_Z (Z.of_nat n) * 0.2 + 0.3)) as [[? ->]|[? ->]];
    destruct (min2_spec 0.8 (inject_Z (Z.of_nat m) * 0.2 + 0.3)) as [[? ->]|[? ->]];
    lra.
Qed.

Lemma ed_confidence_below_one (n : nat) :
  EmotionDetector.confidence_of_score n < 1.
Proof.
  unfold EmotionDetector.confidence_of_score.
  destruct (min2_spec 0.8 (inject_Z (Z.of_nat n) * 0.2 + 0.3)) as [[? ->]|[? ->]];
    lra.
Qed.

Lemma ml_confidence_monotone (n m : nat) :
  (n <= m)%nat ->
  MlUtils.confidence_of_score n <= MlUtils.confidence_of_score m.
Proof.
  intros H. apply inject_nat_le in H.
  unfold MlUtils.confidence_of_score.
  destruct (min2_spec 0.9 (inject_Z (Z.of_nat n) * 0.3 + 0.3)) as [[? ->]|[? ->]];
    destruct (min2_spec 0.9 (inject_Z (Z.of_nat m) * 0.3 + 0.3)) as [[? ->]|[? ->]];
    lra.
Qed.

Lemma ml_confidence_below_one (n : nat) :
  MlUtils.confidence_of_score n < 1.
Proof.
  unfold MlUtils.confidence_of_score.
  destruct (min2_spec 0.9 (inject_Z (Z.of_nat n) * 0.3 + 0.3)) as [[? ->]|[? ->]];
    lra.
Qed.

End ConfidenceFacts.

(** *** Tie-break and confidence of the fallback classifiers *)
Section FallbackClaims.

Variable textblob_polarity : string -> result Q.

(** C5: on every text with a keyword hit, and so on every text where
    two or more emotions reach the same largest score, each keyword
    fallback returns the first emotion, in the order its keyword table
    declares them, that reaches the largest score: all emotions before it
    score strictly less and none after it scores more. *)
Theorem fallback_first_maximal_wins (text : string) :
  (Spec.any_hit EmotionDetector.emotion_keywords (lower text) = true ->
   exists emotion confidence sentiment,
     EmotionDetector._fallback_detection textblob_polarity text
     = Ok (emotion, confidence, sentiment)
     /\ Spec.first_maximal EmotionDetector.emotion_keywords (lower text) emotion)
  /\ (Spec.any_hit MlUtils.emotion_keywords (lower text) = true ->
      Spec.first_maximal MlUtils.emotion_keywords (lower text)
        (fst (MlUtils._fallback_emotion_detection text))).
Proof.
  split; intros H.
  - destruct (ed_fallback_hit text H) as (w & b & kws & a & Hr & Ht & Hb & Ha).
    destruct (fallback_detection_returns textblob_polarity text) as [s Hs].
    rewrite Hr in Hs. simpl in Hs.
    exists w, (EmotionDetector.confidence_of_score (keyword_score kws (lower text))), s.
    split; [exact Hs|]. exists b, kws, a. auto.
  - destruct (ml_fallback_hit text H) as (w & b & kws & a & Hr & Ht & Hb & Ha).
    rewrite Hr. simpl. exists b, kws, a. auto.
Qed.

(** C6: when no keyword of any emotion occurs in the lowercased text a
    keyword fallback returns exactly (neutral, 0.5); otherwise its
    confidence is that of the winning emotion's keyword-hit count, under a
    function of the count that is non-decreasing and stays strictly below
    1.0. *)
Theorem fallback_confidence_policy (text : string) :
  (Spec.any_hit EmotionDetector.emotion_keywords (lower text) = false ->
   exists sentiment,
     EmotionDetector._fallback_detection textblob_polarity text
     = Ok ("neutral", 0.5%Q, sentiment))
  /\ (Spec.any_hit EmotionDetector.emotion_keywords (lower text) = true ->
      exists emotion keywords sentiment,
        In (emotion, keywords) EmotionDetector.emotion_keywords
        /\ EmotionDetector._fallback_detection textblob_polarity text
           = Ok (emotion,
                 EmotionDetector.confidence_of_score
                   (keyword_score keywords (lower text)),
                 sentiment))
  /\ (forall n m : nat, n <= m ->
      (EmotionDetector.confidence_of_score n
       <= EmotionDetector.confidence_of_score m)%Q)
  /\ (forall n : nat, (EmotionDetector.confidence_of_score n < 1)%Q)
  /\ (Spec.any_hit MlUtils.emotion_keywords (lower text) = false ->
      MlUtils._fallback_emotion_detection text = ("neutral", 0.5%Q))
  /\ (Spec.any_hit MlUtils.emotion_keywords (lower text) = true ->
      exists emotion keywords,
        In (emotion, keywords) MlUtils.emotion_keywords
        /\ MlUtils._fallback_emotion_detection text
           = (emotion,
              MlUtils.confidence_of_score (keyword_score keywords (lower text))))
  /\ (forall n m : nat, n <= m ->
      (MlUtils.confidence_of_score n <= MlUtils.confidence_of_score m)%Q)
  /\ (forall n : nat, (MlUtils.confidence_of_score n < 1)%Q).
Proof.
  repeat split.
  - intros H.
    destruct (fallback_detection_returns textblob_polarity text) as [s Hs].
    rewrite (ed_fallback_miss text H) in Hs. now exists s.
  - intros H.
    destruct (ed_fallback_hit text H) as (w & b & kws & a & Hr & Ht & _).
    destruct (fallback_detection_returns textblob_polarity text) as [s Hs].
    rewrite Hr in Hs. exists w, kws, s. split; [|exact Hs].
    rewrite Ht. apply in_or_app. right. now left.
  - apply ed_confidence_monotone.
  - apply ed_confidence_below_one.
  - apply ml_fallback_miss.
  - intros H.
    destruct (ml_fallback_hit text H) as (w & b & kws & a & Hr & Ht & _).
    exists w, kws. split; [|exact Hr].
    rewrite Ht. apply in_or_app. right. now left.
  - apply ml_confidence_monotone.
  - apply ml_confidence_below_one.
Qed.

End FallbackClaims.

(** Joy at confidence 0.8 under sentiment 1: the raw value 1.2 is clamped. *)
Lemma calculate_intensity_correct_witness :
  (EmotionDetector.calculate_intensity "joy" 0.8 1
   == Spec.intensity "joy" 0.8 1)%Q
  /\ (0 <= EmotionDetector.calculate_intensity "joy" 0.8 1 <= 1)%Q.
Proof.
  apply (calculate_intensity_correct "joy" 0.8%Q 1%Q); split; discriminate.
Defined.

(** "happy sad" scores joy and sadness at 1 each; joy is declared first. *)
Lemma fallback_first_maximal_wins_witness :
  (exists emotion confidence sentiment,
     EmotionDetector._fallback_detection (fun _ => Ok 0%Q) "happy sad"
     = Ok (emotion, confidence, sentiment)
     /\ Spec.first_maximal EmotionDetector.emotion_keywords
          (lower "happy sad") emotion)
  /\ Spec.first_maximal MlUtils.emotion_keywords (lower "happy sad")
       (fst (MlUtils._fallback_emotion_detection "happy sad")).
Proof.
  split.
  - apply (proj1 (fallback_first_maximal_wins (fun _ => Ok 0%Q) "happy sad")).
    reflexivity.
  - apply (proj2 (fallback_first_maximal_wins (fun _ => Ok 0%Q) "happy sad")).
    reflexivity.
Defined.

(** A text without keywords, and the specification's sample sentence. *)
Lemma fallback_confidence_policy_witness :
  (exists sentiment,
     EmotionDetector._fallback_detection (fun _ => Ok 0%Q)
       "nothing particular happened"
     = Ok ("neutral", 0.5%Q, sentiment))
  /\ (exists emotion keywords,
        In (emotion, keywords) MlUtils.emotion_keywords
        /\ MlUtils._fallback_emotion_detection "I am so happy and excited today"
           = (emotion,
              MlUtils.confidence_of_score
                (keyword_score keywords (lower "I am so happy and excited today"))))
  /\ (EmotionDetector.confidence_of_score 1
      <= EmotionDetector.confidence_of_score 2)%Q.
Proof.
  split; [|split].
  - apply (proj1 (fallback_confidence_policy (fun _ => Ok 0%Q)
                    "nothing particular happened")).
    reflexivity.
  - apply (proj1 (proj2 (proj2 (proj2 (proj2 (proj2
             (fallback_confidence_policy (fun _ => Ok 0%Q)
                "I am so happy and excited today"))))))).
    reflexivity.
  - apply (proj1 (proj2 (proj2
             (fallback_confidence_policy (fun _ => Ok 0%Q) "")))).
    repeat constructor.
Defined.

(** *** A text whose only keyword is "love" *)
Section OnlyHit.

Variable table : list (string * list string).
Variable text keyword : string.
Hypothesis only : Spec.only_hit table text keyword = true.

Lemma only_hit_contains (keywords : list string) (k : string) :
  In keywords (map snd table) -> In k keywords ->
  contains k text = (k =? keyword)%string.
Proof.
  intros Hkws Hk.
  unfold Spec.only_hit in only. rewrite forallb_forall in only.
  apply eqb_prop, only. unfold Spec.all_keywords.
  apply in_concat. now exists keywords.
Qed.

Lemma only_hit_keyword_score (keywords : list string) :
  In keywords (map snd table) ->
  keyword_score keywords text
  = List.length (filter (fun k => (k =? keyword)%string) keywords).
Proof.
  intros Hkws. unfold keyword_score. f_equal.
  apply filter_ext_in. intros k Hk. now apply only_hit_contains with keywords.
Qed.

Lemma only_hit_emotion_scores :
  emotion_scores table text
  = filter (fun entry => 0 <? snd entry)
      (map (fun entry =>
              (fst entry,
               List.length (filter (fun k => (k =? keyword)%string) (snd entry))))
         table).
Proof.
  unfold emotion_scores. f_equal.
  apply map_ext_in. intros e He. f_equal.
  apply only_hit_keyword_score. now apply in_map.
Qed.

End OnlyHit.

(** C10: in the fallback classifier of ml_utils the string "love" is a
    keyword of both joy and love, so on every text whose only keyword hit
    is "love" joy and love both score 1 and, joy coming first in the
    table, the text is classified as (joy, 0.6), never as love. *)
Theorem ml_only_love_is_joy (text : string) :
  Spec.only_hit MlUtils.emotion_keywords (lower text) "love" = true ->
  Spec.score_of MlUtils.emotion_keywords "joy" (lower text) = 1
  /\ Spec.score_of MlUtils.emotion_keywords "love" (lower text) = 1
  /\ fst (MlUtils._fallback_emotion_detection text) = "joy"
  /\ (snd (MlUtils._fallback_emotion_detection text) == 0.6)%Q
  /\ fst (MlUtils._fallback_emotion_detection text) <> "love".
Proof.
  intros H.
  pose proof (only_hit_emotion_scores _ _ _ H) as Es.
  assert (Hit : Spec.any_hit MlUtils.emotion_keywords (lower text) = true).
  { destruct (Spec.any_hit MlUtils.emotion_keywords (lower text)) eqn:E;
      [reflexivity|].
    apply emotion_scores_nil in E. rewrite E in Es. discriminate Es. }
  assert (Hr : MlUtils._fallback_emotion_detection text
               = ("joy", MlUtils.confidence_of_score 1)).
  { unfold MlUtils._fallback_emotion_detection.
    rewrite (ml_not_blank_strip text (ml_hit_not_blank text Hit)), Es.
    reflexivity. }
  split; [|split].
  - unfold Spec.score_of. cbn -[keyword_score lower].
    rewrite (only_hit_keyword_score _ _ _ H); [reflexivity|].
    simpl. tauto.
  - unfold Spec.score_of. cbn -[keyword_score lower].
    rewrite (only_hit_keyword_score _ _ _ H); [reflexivity|].
    simpl. tauto.
  - rewrite Hr. simpl. split; [reflexivity|].
    split; [reflexivity | discriminate].
Qed.

Lemma ml_only_love_is_joy_witness :
  Spec.score_of MlUtils.emotion_keywords "joy" (lower "I love you") = 1
  /\ Spec.score_of MlUtils.emotion_keywords "love" (lower "I love you") = 1
  /\ fst (MlUtils._fallback_emotion_detection "I love you") = "joy"
  /\ (snd (MlUtils._fallback_emotion_detection "I love you") == 0.6)%Q
  /\ fst (MlUtils._fallback_emotion_detection "I love you") <> "love".
Proof.
  apply (ml_only_love_is_joy "I love you"). reflexivity.
Defined.

(** ** The label set and failure handling of detection *)
Section LabelFacts.

Lemma in_table_closed (table : list (string * list string))
    (before after : list (string * list string)) (winner : string)
    (keywords : list string) :
  table = before ++ (winner, keywords) :: after ->
  incl (map fst table) Spec.closed_labels ->
  In winner Spec.closed_labels.
Proof.
  intros Ht Hincl. apply Hincl. rewrite Ht, map_app.
  apply in_or_app. right. now left.
Qed.

Lemma ed_fallback_label_closed (text : string) :
  In (fst (EmotionDetector.fallback_label text)) Spec.closed_labels.
Proof.
  destruct (Spec.any_hit EmotionDetector.emotion_keywords (lower text)) eqn:H.
  - destruct (ed_fallback_hit text H) as (w & b & kws & a & Hr & Ht & _).
    rewrite Hr. simpl. apply (in_table_closed _ _ _ _ _ Ht).
    apply incl_refl.
  - rewrite (ed_fallback_miss text H). simpl. tauto.
Qed.

Lemma ml_fallback_label_closed (text : string) :
  In (fst (MlUtils._fallback_emotion_detection text)) Spec.closed_labels.
Proof.
  destruct (Spec.any_hit MlUtils.emotion_keywords (lower text)) eqn:H.
  - destruct (ml_fallback_hit text H) as (w & b & kws & a & Hr & Ht & _).
    rewrite Hr. simpl. apply (in_table_closed _ _ _ _ _ Ht).
    intros x Hx. simpl in Hx. simpl. tauto.
  - rewrite (ml_fallback_miss text H). simpl. tauto.
Qed.

End LabelFacts.

(** Closes a goal on the label of a result that came from the fallback of
    ml_utils. *)
Ltac from_ml_fallback H :=
  left; injection H as H;
  match type of H with
  | MlUtils._fallback_emotion_detection ?t = _ =>
      let Hin := fresh "Hin" in
      pose proof (ml_fallback_label_closed t) as Hin;
      rewrite H in Hin; exact Hin
  end.

Section DetectorClaims.

Variable textblob_polarity : string -> result Q.

Local Abbreviation detect_emotion :=
  (EmotionDetector.detect_emotion textblob_polarity).
Local Abbreviation _fallback_detection :=
  (EmotionDetector._fallback_detection textblob_polarity).
Local Abbreviation _predict_with_model :=
  (EmotionDetector._predict_with_model textblob_polarity).
Local Abbreviation _predict_with_model_body :=
  (EmotionDetector._predict_with_model_body textblob_polarity).

Lemma fallback_detection_closed (text : string) :
  exists emotion confidence sentiment,
    _fallback_detection text = Ok (emotion, confidence, sentiment)
    /\ In emotion Spec.closed_labels.
Proof.
  destruct (fallback_detection_returns textblob_polarity text) as [s Hs].
  eexists _, _, s. split; [exact Hs|]. apply ed_fallback_label_closed.
Qed.

(** With both artifacts loaded, a non-blank text goes through
    [_predict_with_model]. *)
Lemma detect_emotion_loaded (self : EmotionDetector.t) (v : Vectorizer)
    (m : Model) (text : string) :
  EmotionDetector.model self = Some m ->
  EmotionDetector.vectorizer self = Some v ->
  Spec.blank text = false ->
  detect_emotion self text
  = match _predict_with_model_body self v m text with
    | Ok reading => Ok reading
    | Raise _ => _fallback_detection text
    end.
Proof.
  intros Hm Hv Hb.
  rewrite (detect_emotion_not_blank textblob_polarity self text Hb), Hm, Hv.
  unfold EmotionDetector._predict_with_model, try_except.
  destruct (_predict_with_model_body self v m text) as [r|e]; [reflexivity|].
  destruct (fallback_detection_returns textblob_polarity text) as [s Hs].
  now rewrite Hs.
Qed.

(** Without a model or without a vectorizer, a non-blank text goes to
    the keyword fallback. *)
Lemma detect_emotion_unloaded (self : EmotionDetector.t) (text : string) :
  EmotionDetector.model self = None \/ EmotionDetector.vectorizer self = None ->
  Spec.blank text = false ->
  detect_emotion self text = _fallback_detection text.
Proof.
  intros H Hb.
  rewrite (detect_emotion_not_blank textblob_polarity self text Hb).
  destruct (fallback_detection_returns textblob_polarity text) as [s Hs].
  destruct H as [H|H]; rewrite H.
  - now rewrite Hs.
  - destruct (EmotionDetector.model self); now rewrite Hs.
Qed.

(** C1, as the code has it: the label [detect_emotion] or
    [predict_emotion] returns is one of the seven closed labels unless it
    is the label a successful trained-model classification decoded, which
    is returned as it is. *)
Theorem label_closed_unless_model_decoded (text : string) :
  (forall self emotion confidence sentiment,
      detect_emotion self text = Ok (emotion, confidence, sentiment) ->
      In emotion Spec.closed_labels
      \/ exists v m,
          EmotionDetector.model self = Some m
          /\ EmotionDetector.vectorizer self = Some v
          /\ _predict_with_model_body self v m text
             = Ok (emotion, confidence, sentiment))
  /\ (forall self emotion confidence,
        MlUtils.predict_emotion self text = Ok (emotion, confidence) ->
        In emotion Spec.closed_labels
        \/ exists v m le,
            MlUtils.vectorizer self = Some v
            /\ MlUtils.model self = Some m
            /\ MlUtils.label_encoder self = Some le
            /\ MlUtils.model_prediction v m le (lower (strip text))
               = Ok (emotion, confidence)).
Proof.
  split.
  - intros self e c s H.
    destruct (Spec.blank text) eqn:Hb.
    + rewrite (detect_emotion_blank textblob_polarity self text Hb) in H.
      injection H as <- _ _. left. simpl. tauto.
    + destruct (fallback_detection_closed text) as (e' & c' & s' & Hf & Hin).
      destruct (EmotionDetector.model self) as [m|] eqn:Hm;
        [destruct (EmotionDetector.vectorizer self) as [v|] eqn:Hv|].
      * rewrite (detect_emotion_loaded self v m text Hm Hv Hb) in H.
        destruct (_predict_with_model_body self v m text) as [r|x] eqn:Hbody.
        -- right. exists v, m. rewrite <- H. auto.
        -- left. rewrite Hf in H. now injection H as <- _ _.
      * rewrite (detect_emotion_unloaded self text (or_intror Hv) Hb), Hf in H.
        left. now injection H as <- _ _.
      * rewrite (detect_emotion_unloaded self text (or_introl Hm) Hb), Hf in H.
        left. now injection H as <- _ _.
  - intros self e c H. unfold MlUtils.predict_emotion in H.
    destruct (negb (MlUtils.is_loaded self) || str_falsy (strip text))%bool.
    + from_ml_fallback H.
    + destruct (MlUtils.vectorizer self) as [v|] eqn:Hv;
        [destruct (MlUtils.model self) as [m|] eqn:Hm;
         [destruct (MlUtils.label_encoder self) as [le|] eqn:Hle|]|];
        simpl in H.
      * destruct (MlUtils.model_prediction v m le (lower (strip text)))
          as [r|x] eqn:Hbody; simpl in H.
        -- right. exists v, m, le. rewrite <- H. auto.
        -- from_ml_fallback H.
      * from_ml_fallback H.
      * from_ml_fallback H.
      * from_ml_fallback H.
Qed.

End DetectorClaims.

(** A detector loaded with a two-class label encoder returns that
    encoder's class, which is none of the seven labels; so does the
    detector of ml_utils. *)
Lemma detected_label_outside_closed_set :
  EmotionDetector.detect_emotion Samples.flat_polarity
    (EmotionDetector.load_models (Some Samples.model) (Some Samples.vectorizer)
       (Some Samples.binary_encoder))
    "what a day"
  = Ok ("positive", 0.9%Q, 0%Q)
  /\ MlUtils.predict_emotion
       (MlUtils.load_models (Some Samples.model) (Some Samples.vectorizer)
          (Some Samples.binary_encoder))
       "what a day"
     = Ok ("positive", 0.9%Q)
  /\ ~ In "positive" Spec.closed_labels.
Proof.
  split; [reflexivity|]. split; [reflexivity|].
  simpl. intuition discriminate.
Qed.

(** Without artifacts "I am sad" is labelled by the keyword fallback. *)
Lemma label_closed_unless_model_decoded_witness :
  In "sadness" Spec.closed_labels
  \/ exists v m,
      EmotionDetector.model (EmotionDetector.load_models None None None) = Some m
      /\ EmotionDetector.vectorizer (EmotionDetector.load_models None None None)
         = Some v
      /\ EmotionDetector._predict_with_model_body Samples.flat_polarity
           (EmotionDetector.load_models None None None) v m "I am sad"
         = Ok ("sadness", EmotionDetector.confidence_of_score 1, 0%Q).
Proof.
  apply (proj1 (label_closed_unless_model_decoded Samples.flat_polarity "I am sad")
           (EmotionDetector.load_models None None None)).
  reflexivity.
Defined.

Section FailureClaims.

Variable textblob_polarity : string -> result Q.

Local Abbreviation detect_emotion :=
  (EmotionDetector.detect_emotion textblob_polarity).
Local Abbreviation _fallback_detection :=
  (EmotionDetector._fallback_detection textblob_polarity).
Local Abbreviation _predict_with_model_body :=
  (EmotionDetector._predict_with_model_body textblob_polarity).

Lemma detect_emotion_returns (self : EmotionDetector.t) (text : string) :
  exists reading, detect_emotion self text = Ok reading.
Proof.
  destruct (Spec.blank text) eqn:Hb.
  - rewrite (detect_emotion_blank textblob_polarity self text Hb). eauto.
  - destruct (fallback_detection_returns textblob_polarity text) as [s Hs].
    destruct (EmotionDetector.model self) as [m|] eqn:Hm;
      [destruct (EmotionDetector.vectorizer self) as [v|] eqn:Hv|].
    + rewrite (detect_emotion_loaded textblob_polarity self v m text Hm Hv Hb).
      destruct (_predict_with_model_body self v m text); eauto.
    + rewrite (detect_emotion_unloaded textblob_polarity self text
                 (or_intror Hv) Hb). eauto.
    + rewrite (detect_emotion_unloaded textblob_polarity self text
                 (or_introl Hm) Hb). eauto.
Qed.

(** A failure of any step but the label decoder makes the body of
    [_predict_with_model] raise. *)
Lemma body_raises_before_decode (self : EmotionDetector.t) (v : Vectorizer)
    (m : Model) (text : string) (st : Spec.stage) :
  Spec.raising_stage self v m text = Some st ->
  st <> Spec.Decode ->
  exists e, _predict_with_model_body self v m text = Raise e.
Proof.
  unfold Spec.raising_stage, EmotionDetector._predict_with_model_body.
  intros H Hst.
  destruct (transform v text) as [X|e]; simpl; [|eauto].
  destruct (predict m X) as [pe|e]; simpl; [|eauto].
  destruct (predict_proba m X) as [probs|e]; simpl; [|eauto].
  destruct (max_seq probs) as [conf|e]; simpl; [|eauto].
  destruct (EmotionDetector.label_encoder self) as [[[inverse|] cs]|].
  - destruct (inverse pe); [discriminate H|].
    injection H as <-. contradiction.
  - destruct (EmotionDetector.decode_by_index self pe) as [l|e];
      [discriminate H | simpl; eauto].
  - destruct (EmotionDetector.decode_by_index self pe) as [l|e];
      [discriminate H | simpl; eauto].
Qed.

(** The ordinal decoding raises exactly when the prediction is a number
    of which [int] raises. *)
Lemma decode_by_index_raises (self : EmotionDetector.t)
    (prediction_encoded : pyval) (e : exn) :
  EmotionDetector.decode_by_index self prediction_encoded = Raise e
  <-> is_number prediction_encoded = true
      /\ to_int prediction_encoded = Raise e.
Proof.
  unfold EmotionDetector.decode_by_index.
  destruct (is_number prediction_encoded).
  - destruct (to_int prediction_encoded) as [i|e']; simpl.
    + split; [|intros [_ H]; discriminate H].
      destruct (_ && _)%bool; intros H; discriminate H.
    + split; [intros H; injection H as ->; auto|].
      intros [_ H]. injection H as ->. reflexivity.
  - split; [intros H; discriminate H | intros [H _]; discriminate H].
Qed.

(** C4, as the code has it: [detect_emotion] always returns a reading.
    When the vectorizer, the classifier or [int] of the prediction in
    the ordinal decoding raises, the call returns what the keyword
    fallback returns.  When the label decoder raises, the prediction is
    decoded through the ordinal table instead: if that succeeds the call
    keeps the classifier's prediction, so decoded, with the classifier's
    confidence; if it raises as well, which it does exactly when the
    prediction is a number of which [int] raises, the call returns what
    the keyword fallback returns. *)
Theorem detect_emotion_failure_handling (self : EmotionDetector.t)
    (text : string) :
  (exists reading, detect_emotion self text = Ok reading)
  /\ (forall v m st,
        EmotionDetector.model self = Some m ->
        EmotionDetector.vectorizer self = Some v ->
        Spec.blank text = false ->
        Spec.raising_stage self v m text = Some st ->
        st <> Spec.Decode ->
        detect_emotion self text = _fallback_detection text)
  /\ (forall v m text_vector prediction_encoded probabilities confidence,
        EmotionDetector.model self = Some m ->
        EmotionDetector.vectorizer self = Some v ->
        Spec.blank text = false ->
        Spec.raising_stage self v m text = Some Spec.Decode ->
        transform v text = Ok text_vector ->
        predict m text_vector = Ok prediction_encoded ->
        predict_proba m text_vector = Ok probabilities ->
        max_seq probabilities = Ok confidence ->
        (forall label,
            EmotionDetector.decode_by_index self prediction_encoded = Ok label ->
            exists sentiment,
              detect_emotion self text = Ok (label, confidence, sentiment))
        /\ (forall e,
              is_number prediction_encoded = true ->
              to_int prediction_encoded = Raise e ->
              detect_emotion self text = _fallback_detection text)
        /\ ((exists label,
               EmotionDetector.decode_by_index self prediction_encoded
               = Ok label)
            \/ (exists e,
                  is_number prediction_encoded = true
                  /\ to_int prediction_encoded = Raise e))).
Proof.
  split; [apply detect_emotion_returns|]. split.
  - intros v m st Hm Hv Hb Hst Hne.
    rewrite (detect_emotion_loaded textblob_polarity self v m text Hm Hv Hb).
    destruct (body_raises_before_decode self v m text st Hst Hne) as [e ->].
    reflexivity.
  - intros v m X pe probs conf Hm Hv Hb Hst HX Hpe Hprobs Hconf.
    rewrite (detect_emotion_loaded textblob_polarity self v m text Hm Hv Hb).
    unfold Spec.raising_stage in Hst.
    unfold EmotionDetector._predict_with_model_body.
    rewrite HX in *. simpl. rewrite Hpe in *. simpl.
    rewrite Hprobs in *. simpl. rewrite Hconf in *. simpl.
    destruct (EmotionDetector.label_encoder self) as [[[inverse|] cs]|].
    2,3: destruct (EmotionDetector.decode_by_index self pe);
      discriminate Hst.
    destruct (inverse pe) as [l|e0]; [discriminate Hst|]. simpl.
    split; [|split].
    + intros label Hlabel. rewrite Hlabel. simpl.
      unfold EmotionDetector._get_sentiment_score.
      destruct (textblob_polarity text); simpl; eauto.
    + intros e Hnum Hint.
      assert (Hraise : EmotionDetector.decode_by_index self pe = Raise e)
        by (apply (proj2 (decode_by_index_raises self pe e)); auto).
      rewrite Hraise. reflexivity.
    + destruct (EmotionDetector.decode_by_index self pe) as [label|e] eqn:Hd;
        [left; eauto | right].
      exists e. exact (proj1 (decode_by_index_raises self pe e) Hd).
Qed.

End FailureClaims.

(** The label decoder raises on "I am happy": the call keeps the
    classifier's class 1, "sadness" at confidence 0.9, where the keyword
    fallback returns joy. *)
Lemma decoder_failure_not_degraded :
  Spec.raising_stage
    (EmotionDetector.load_models (Some Samples.model) (Some Samples.vectorizer)
       (Some Samples.failing_encoder))
    Samples.vectorizer Samples.model "I am happy"
  = Some Spec.Decode
  /\ EmotionDetector.detect_emotion Samples.flat_polarity
       (EmotionDetector.load_models (Some Samples.model)
          (Some Samples.vectorizer) (Some Samples.failing_encoder))
       "I am happy"
     = Ok ("sadness", 0.9%Q, 0%Q)
  /\ EmotionDetector._fallback_detection Samples.flat_polarity "I am happy"
     = Ok ("joy", EmotionDetector.confidence_of_score 1, 0%Q)
  /\ EmotionDetector.detect_emotion Samples.flat_polarity
       (EmotionDetector.load_models (Some Samples.model)
          (Some Samples.vectorizer) (Some Samples.failing_encoder))
       "I am happy"
     <> EmotionDetector._fallback_detection Samples.flat_polarity "I am happy".
Proof.
  repeat split; try reflexivity. discriminate.
Qed.

(** The label decoder raises on "I am happy" and the classifier predicted
    NaN, which the ordinal decoding cannot take either: the call returns
    what the keyword fallback returns. *)
Example decoder_and_ordinal_failure_degrades :
  Spec.raising_stage
    (EmotionDetector.load_models (Some Samples.nan_model)
       (Some Samples.vectorizer) (Some Samples.failing_encoder))
    Samples.vectorizer Samples.nan_model "I am happy"
  = Some Spec.Decode
  /\ EmotionDetector.detect_emotion Samples.flat_polarity
       (EmotionDetector.load_models (Some Samples.nan_model)
          (Some Samples.vectorizer) (Some Samples.failing_encoder))
       "I am happy"
     = EmotionDetector._fallback_detection Samples.flat_polarity "I am happy".
Proof.
  split; reflexivity.
Qed.

(** The classifier predicted NaN and there is no label decoder: [int] of
    the prediction raises in the ordinal decoding and the call returns
    what the keyword fallback returns. *)
Example ordinal_failure_degrades :
  Spec.raising_stage
    (EmotionDetector.load_models (Some Samples.nan_model)
       (Some Samples.vectorizer) None)
    Samples.vectorizer Samples.nan_model "I am happy"
  = Some Spec.Ordinal
  /\ EmotionDetector.detect_emotion Samples.flat_polarity
       (EmotionDetector.load_models (Some Samples.nan_model)
          (Some Samples.vectorizer) None)
       "I am happy"
     = EmotionDetector._fallback_detection Samples.flat_polarity "I am happy".
Proof.
  split; reflexivity.
Qed.

(** The vectorizer raises on "I am happy": the call returns what the
    keyword fallback returns. *)
Lemma detect_emotion_failure_handling_witness :
  EmotionDetector.detect_emotion Samples.flat_polarity
    (EmotionDetector.load_models (Some Samples.model)
       (Some Samples.failing_vectorizer) None)
    "I am happy"
  = EmotionDetector._fallback_detection Samples.flat_polarity "I am happy".
Proof.
  apply (proj1 (proj2 (detect_emotion_failure_handling Samples.flat_polarity
                         (EmotionDetector.load_models (Some Samples.model)
                            (Some Samples.failing_vectorizer) None)
                         "I am happy"))
           Samples.failing_vectorizer Samples.model Spec.Vectorize);
    try reflexivity.
  discriminate.
Defined.

(** ** Counting and summing *)
Section SumFacts.

Local Open Scope Q_scope.

Lemma fold_left_Qplus (xs : list Q) : forall a : Q,
  fold_left Qplus xs a == a + fold_left Qplus xs 0.
Proof.
  induction xs as [|x xs IH]; intros a; simpl.
  - ring.
  - rewrite (IH (a + x)), (IH (0 + x)). ring.
Qed.

(** Python's left-to-right [sum] is the sum of the list. *)
Lemma sum_total (xs : list Q) : Py.sum xs == Spec.total xs.
Proof.
  unfold Py.sum. induction xs as [|x xs IH]; simpl.
  - reflexivity.
  - rewrite (fold_left_Qplus xs (0 + x)), IH. ring.
Qed.

Lemma total_inject (ns : list nat) :
  Spec.total (map (fun n => inject_Z (Z.of_nat n)) ns)
  == inject_Z (Z.of_nat (list_sum ns)).
Proof.
  induction ns as [|n ns IH]; simpl.
  - reflexivity.
  - rewrite IH, Nat2Z.inj_add, inject_Z_plus. reflexivity.
Qed.

(** The scaled shares of the parts of a whole add up to the scale. *)
Lemma total_shares (scale whole : Q) (ns : list nat) :
  Spec.total (map (fun n => inject_Z (Z.of_nat n) / whole * scale) ns)
  == inject_Z (Z.of_nat (list_sum ns)) / whole * scale.
Proof.
  induction ns as [|n ns IH]; simpl.
  - unfold Qdiv. ring.
  - rewrite IH, Nat2Z.inj_add, inject_Z_plus. unfold Qdiv. ring.
Qed.

Lemma inject_nat_nonzero (n : nat) : (0 < n)%nat -> ~ inject_Z (Z.of_nat n) == 0.
Proof.
  intros H E. unfold Qeq in E. simpl in E. lia.
Qed.

End SumFacts.

Section CounterFacts.

Lemma count_in_counter_add (c : list (string * nat)) (k k' : string) :
  count_in (counter_add k c) k'
  = if (k' =? k)%string then S (count_in c k) else count_in c k'.
Proof.
  unfold count_in. induction c as [|[k0 n] c IH]; simpl.
  - destruct (String.eqb_spec k k'), (String.eqb_spec k' k);
      simpl; congruence.
  - destruct (String.eqb_spec k k0); simpl.
    + subst k0. rewrite String.eqb_refl.
      destruct (String.eqb_spec k k'), (String.eqb_spec k' k);
        simpl; congruence.
    + destruct (String.eqb_spec k0 k'), (String.eqb_spec k' k);
        simpl; try congruence.
      destruct (String.eqb_spec k0 k); [congruence|].
      rewrite IH. destruct (String.eqb_spec k' k); congruence.
Qed.

Lemma keys_counter_add (c : list (string * nat)) (k k' : string) :
  In k' (map fst (counter_add k c)) <-> k' = k \/ In k' (map fst c).
Proof.
  induction c as [|[k0 n] c IH]; simpl.
  - intuition.
  - destruct (k =? k0)%string eqn:E; simpl.
    + apply String.eqb_eq in E. subst k0. intuition.
    + rewrite IH. intuition.
Qed.

Lemma nodup_counter_add (c : list (string * nat)) (k : string) :
  NoDup (map fst c) -> NoDup (map fst (counter_add k c)).
Proof.
  induction c as [|[k0 n] c IH]; simpl; intros H.
  - constructor; [intros []|constructor].
  - inversion H as [|? ? Hnin Hnd]; subst.
    destruct (k =? k0)%string eqn:E; simpl.
    + constructor; assumption.
    + constructor; [|auto].
      rewrite keys_counter_add. intros [->|Hin]; [|contradiction].
      now rewrite String.eqb_refl in E.
Qed.

Lemma list_sum_counter_add (c : list (string * nat)) (k : string) :
  list_sum (map snd (counter_add k c)) = S (list_sum (map snd c)).
Proof.
  induction c as [|[k0 n] c IH]; simpl; [reflexivity|].
  destruct (k =? k0)%string; simpl; [reflexivity|]. rewrite IH. lia.
Qed.

Lemma positive_counter_add (c : list (string * nat)) (k : string) :
  Forall (fun entry => 0 < snd entry) c ->
  Forall (fun entry => 0 < snd entry) (counter_add k c).
Proof.
  induction c as [|[k0 n] c IH]; simpl; intros H.
  - repeat constructor.
  - inversion H; subst.
    destruct (k =? k0)%string; constructor; simpl in *; auto; lia.
Qed.

Lemma count_in_entry (c : list (string * nat)) (k : string) (n : nat) :
  NoDup (map fst c) -> In (k, n) c -> count_in c k = n.
Proof.
  unfold count_in. induction c as [|[k0 n0] c IH]; simpl; intros Hnd Hin.
  - contradiction.
  - inversion Hnd as [|? ? Hnin Hnd']; subst.
    destruct Hin as [E|Hin].
    + injection E as -> ->. now rewrite String.eqb_refl.
    + destruct (k0 =? k)%string eqn:E.
      * apply String.eqb_eq in E. subst k0.
        exfalso. apply Hnin. apply in_map_iff. now exists (k, n).
      * auto.
Qed.

(** The state of the counter after counting [xs] into [c]. *)
Lemma counter_fold (xs : list string) : forall c : list (string * nat),
  let c' := fold_left (fun c k => counter_add k c) xs c in
  (NoDup (map fst c) -> NoDup (map fst c'))
  /\ (forall k, In k (map fst c') <-> In k (map fst c) \/ In k xs)
  /\ (forall k, count_in c' k = count_in c k + count_occ string_dec xs k)
  /\ list_sum (map snd c') = list_sum (map snd c) + List.length xs.
Proof.
  induction xs as [|x xs IH]; intros c; simpl.
  - repeat split; intros; try tauto; lia.
  - destruct (IH (counter_add x c)) as (Hnd & Hkeys & Hcount & Hsum).
    repeat split.
    + intros H. apply Hnd. now apply nodup_counter_add.
    + rewrite Hkeys, keys_counter_add. intuition.
    + rewrite Hkeys, keys_counter_add. intuition.
    + intros k. rewrite Hcount, count_in_counter_add.
      destruct (string_dec x k) as [->|Hne].
      * rewrite String.eqb_refl. lia.
      * destruct (k =? x)%string eqn:E; [|lia].
        apply String.eqb_eq in E. congruence.
    + rewrite Hsum, list_sum_counter_add. lia.
Qed.

Lemma Counter_nodup (xs : list string) : NoDup (map fst (Counter xs)).
Proof.
  apply (proj1 (counter_fold xs [])). constructor.
Qed.

Lemma Counter_keys (xs : list string) (k : string) :
  In k (map fst (Counter xs)) <-> In k xs.
Proof.
  unfold Counter. rewrite (proj1 (proj2 (counter_fold xs []))). simpl. tauto.
Qed.

Lemma Counter_entry (xs : list string) (k : string) (n : nat) :
  In (k, n) (Counter xs) -> n = count_occ string_dec xs k.
Proof.
  intros H. rewrite <- (count_in_entry _ _ _ (Counter_nodup xs) H).
  unfold Counter. now rewrite (proj1 (proj2 (proj2 (counter_fold xs [])))).
Qed.

Lemma Counter_sum (xs : list string) :
  list_sum (map snd (Counter xs)) = List.length xs.
Proof.
  unfold Counter. now rewrite (proj2 (proj2 (proj2 (counter_fold xs [])))).
Qed.

End CounterFacts.

(** ** Shares of the emotions that occur *)
Section ShareFacts.

Local Open Scope Q_scope.

Lemma truediv_nonzero (a b : Q) : ~ b == 0 -> truediv a b = Ok (a / b).
Proof.
  intros H. unfold truediv.
  destruct (Qeq_bool b 0) eqn:E; [|reflexivity].
  apply Qeq_bool_iff in E. contradiction.
Qed.

Lemma total_of_length (xs : list string) :
  Analytics.total_of (Counter xs) == inject_Z (Z.of_nat (List.length xs)).
Proof.
  unfold Analytics.total_of, values.
  now rewrite sum_total, total_inject, Counter_sum.
Qed.

Lemma total_of_nonzero (xs : list string) :
  xs <> [] -> ~ Analytics.total_of (Counter xs) == 0.
Proof.
  intros H. rewrite total_of_length. apply inject_nat_nonzero.
  destruct xs; [contradiction | simpl; lia].
Qed.

Lemma total_ext {A : Type} (f g : A -> Q) (l : list A) :
  (forall x, f x == g x) -> Spec.total (map f l) == Spec.total (map g l).
Proof.
  intros H. induction l as [|x l IH]; simpl; [reflexivity|].
  now rewrite IH, H.
Qed.

Variable scale : Q.

(** What an endpoint makes of one share. *)
Variable scaled : Q -> Q.
Hypothesis scaled_spec : forall x, scaled x == x * scale.

(** The comprehension over the counter never divides by zero. *)
Lemma shares_for_each (counts : list (string * nat)) (whole : Q) :
  ~ whole == 0 ->
  for_each
    (fun entry =>
       share <- truediv (inject_Z (Z.of_nat (snd entry))) whole ;;
       Ok (fst entry, scaled share))
    counts
  = Ok (map (fun entry =>
               (fst entry, scaled (inject_Z (Z.of_nat (snd entry)) / whole)))
          counts).
Proof.
  intros H. induction counts as [|e counts IH]; simpl; [reflexivity|].
  rewrite (truediv_nonzero _ _ H). simpl. now rewrite IH.
Qed.

Lemma shares_of_counter (xs : list string) :
  xs <> [] ->
  Spec.shares_of scale xs
    (map (fun entry =>
            (fst entry,
             scaled (inject_Z (Z.of_nat (snd entry))
                     / Analytics.total_of (Counter xs))))
       (Counter xs)).
Proof.
  intros Hne.
  pose proof (total_of_length xs) as HT.
  assert (Hlen : ~ inject_Z (Z.of_nat (List.length xs)) == 0).
  { apply inject_nat_nonzero. destruct xs; [contradiction | simpl; lia]. }
  unfold Spec.shares_of. rewrite map_map. simpl.
  split; [apply Counter_nodup|].
  split; [apply Counter_keys|].
  split.
  - intros e v Hin. apply in_map_iff in Hin as ([e' n] & E & Hin).
    simpl in E. injection E as -> <-.
    rewrite scaled_spec, HT. unfold Spec.share.
    now rewrite (Counter_entry xs e n Hin).
  - unfold values. rewrite map_map. simpl.
    rewrite (total_ext _
               (fun entry => inject_Z (Z.of_nat (snd entry))
                             / Analytics.total_of (Counter xs) * scale));
      [|intros x; apply scaled_spec].
    rewrite <- (map_map snd
                  (fun n => inject_Z (Z.of_nat n)
                            / Analytics.total_of (Counter xs) * scale)).
    rewrite total_shares, Counter_sum, HT. field. exact Hlen.
Qed.

End ShareFacts.

Section DistributionClaims.

Local Open Scope Q_scope.

Lemma percentages_shares (xs : list string) :
  xs <> [] ->
  exists d, Analytics.percentages (Counter xs) = Ok d
            /\ Spec.shares_of 100 xs d.
Proof.
  intros Hne. unfold Analytics.percentages.
  rewrite (shares_for_each (fun x => x * 100) _ _ (total_of_nonzero xs Hne)).
  eexists. split; [reflexivity|].
  apply (shares_of_counter 100 (fun x => x * 100)); [reflexivity | exact Hne].
Qed.

(** C7: over a non-empty set of filtered records the emotion
    distribution maps exactly the emotions that occur to
    (count / total) * 100 and the percentages add up to 100; over an
    empty filtered set it is the empty mapping.  Both the analytics
    engine and the endpoint of routes.py compute it, and neither raises. *)
Theorem emotion_distribution_correct (db : list EmotionHistory)
    (conversations : list Conversation) (user_id : Z) (now : datetime)
    (days : Z) :
  let records := Analytics.query db user_id (cutoff_date now days) in
  let messages :=
    Routes.emotions_of
      (Routes.user_messages conversations user_id (cutoff_date now days)) in
  (records = [] ->
   Analytics.get_emotion_distribution db user_id now days = Ok [])
  /\ (records <> [] ->
      exists d,
        Analytics.get_emotion_distribution db user_id now days = Ok d
        /\ Spec.shares_of 100 (map eh_emotion records) d)
  /\ (messages = [] ->
      Routes.emotion_distribution conversations user_id now days = Ok [])
  /\ (messages <> [] ->
      exists d,
        Routes.emotion_distribution conversations user_id now days = Ok d
        /\ Spec.shares_of 100 messages d).
Proof.
  intros records messages.
  unfold Analytics.get_emotion_distribution, Routes.emotion_distribution.
  fold records. fold messages.
  repeat split.
  - intros ->. reflexivity.
  - intros Hne. destruct records as [|r rs] eqn:E; [contradiction|].
    apply percentages_shares. discriminate.
  - intros ->. reflexivity.
  - intros Hne. destruct messages as [|m ms] eqn:E; [contradiction|].
    apply percentages_shares. discriminate.
Qed.

End DistributionClaims.

(** The three sample records are joy, joy and sadness. *)
Lemma emotion_distribution_correct_witness :
  exists d,
    Analytics.get_emotion_distribution Samples.history 1 Samples.now Samples.days
    = Ok d
    /\ Spec.shares_of 100
         (map eh_emotion
            (Analytics.query Samples.history 1
               (cutoff_date Samples.now Samples.days)))
         d.
Proof.
  apply (proj1 (proj2 (emotion_distribution_correct Samples.history
                         Samples.conversations 1 Samples.now Samples.days))).
  discriminate.
Defined.

(** The specification's example: [joy, joy, sadness] yields two thirds
    and one third of 100. *)
Example emotion_distribution_sample :
  Analytics.get_emotion_distribution Samples.history 1 Samples.now Samples.days
  = Ok [("joy", (200 # 3)%Q); ("sadness", (100 # 3)%Q)]
  /\ Routes.emotion_distribution Samples.conversations 1 Samples.now Samples.days
     = Ok [("joy", (200 # 3)%Q); ("sadness", (100 # 3)%Q)].
Proof.
  split; reflexivity.
Qed.

(** ** Emotional balance *)
Section BalanceClaims.

Local Open Scope Q_scope.

Lemma or_half_stored (r : EmotionHistory) :
  match eh_intensity r with
  | Some v => negb (Qeq_bool v 0)
  | None => true
  end = true ->
  Analytics.or_half (eh_intensity r) = Spec.intensity_or_default r.
Proof.
  unfold Analytics.or_half, Spec.intensity_or_default.
  destruct (eh_intensity r) as [v|]; [|reflexivity].
  intros H. apply negb_true_iff in H. now rewrite H.
Qed.

Lemma category_scores_stored (records : list EmotionHistory)
    (members : list string) :
  Spec.no_zero_intensity records = true ->
  Analytics.category_scores_of records members
  = map Spec.intensity_or_default (filter (Spec.in_category members) records).
Proof.
  intros H. unfold Analytics.category_scores_of.
  apply map_ext_in. intros r Hr. apply or_half_stored.
  apply filter_In in Hr as [Hr _].
  unfold Spec.no_zero_intensity in H. rewrite forallb_forall in H.
  now apply H.
Qed.

(** The score of one category: no division by zero, and the average. *)
Lemma category_score_average (records : list EmotionHistory)
    (members : list string) :
  Spec.no_zero_intensity records = true ->
  exists q,
    match Analytics.category_scores_of records members with
    | [] => Ok 0
    | _ => truediv (Py.sum (Analytics.category_scores_of records members))
             (Py.len (Analytics.category_scores_of records members))
    end = Ok q
    /\ q == Spec.category_average records members.
Proof.
  intros H. rewrite (category_scores_stored records members H).
  unfold Spec.category_average.
  destruct (filter (Spec.in_category members) records) as [|r rs]; simpl map.
  - exists 0. split; reflexivity.
  - set (scores := Spec.intensity_or_default r
                   :: map Spec.intensity_or_default rs).
    assert (Hlen : ~ Py.len scores == 0).
    { unfold Py.len. apply inject_nat_nonzero. simpl. lia. }
    rewrite (truediv_nonzero _ _ Hlen).
    eexists. split; [reflexivity|].
    unfold Spec.mean. rewrite sum_total. reflexivity.
Qed.

(** C8, as the code has it: over a non-empty set of filtered records the
    emotional-balance view of the analytics engine gives, for Positive,
    Negative and Neutral in this order, the average intensity of the
    records of the category, a record without intensity counting 0.5, and
    0 for a category without records; over an empty filtered set it is
    the empty mapping.  The endpoint of routes.py returns instead the
    share count / total of each emotion that occurs. *)
Theorem emotional_balance_correct (db : list EmotionHistory)
    (conversations : list Conversation) (user_id : Z) (now : datetime)
    (days : Z) :
  let records := Analytics.query db user_id (cutoff_date now days) in
  let messages :=
    Routes.emotions_of
      (Routes.user_messages conversations user_id (cutoff_date now days)) in
  (records = [] ->
   Analytics.get_emotional_balance db user_id now days = Ok [])
  /\ (records <> [] ->
      Spec.no_zero_intensity records = true ->
      exists view,
        Analytics.get_emotional_balance db user_id now days = Ok view
        /\ Spec.same_view view (Spec.balance_view records))
  /\ (messages = [] ->
      Routes.emotional_balance conversations user_id now days = Ok [])
  /\ (messages <> [] ->
      exists d,
        Routes.emotional_balance conversations user_id now days = Ok d
        /\ Spec.shares_of 1 messages d).
Proof.
  intros records messages.
  unfold Analytics.get_emotional_balance, Routes.emotional_balance.
  fold records. fold messages.
  repeat split.
  - intros ->. reflexivity.
  - intros Hne Hz. destruct records as [|r rs] eqn:E; [contradiction|].
    rewrite <- E in *. clear E Hne.
    unfold Analytics.emotion_categories, Spec.balance_view. simpl for_each.
    destruct (category_score_average records ["joy"; "love"; "surprise"]%string Hz)
      as (p & -> & Hp).
    destruct (category_score_average records ["sadness"; "anger"; "fear"]%string Hz)
      as (n & -> & Hn).
    destruct (category_score_average records ["neutral"]%string Hz)
      as (z & -> & Hzq).
    simpl. eexists. split; [reflexivity|].
    repeat constructor; simpl; assumption.
  - intros ->. reflexivity.
  - intros Hne. destruct messages as [|m ms] eqn:E; [contradiction|].
    rewrite <- E in *.
    rewrite (shares_for_each (fun x => x) _ _ (total_of_nonzero messages Hne)).
    eexists. split; [reflexivity|].
    apply (shares_of_counter 1 (fun x => x)); [intros x; ring | exact Hne].
Qed.

End BalanceClaims.

(** User 2 has no record: the described view has three zero entries,
    the engine returns the empty mapping; and on the sample messages the
    endpoint of routes.py returns one share per emotion rather than one
    average per category. *)
Lemma emotional_balance_not_three_categories :
  Analytics.query Samples.history 2 (cutoff_date Samples.now Samples.days) = []
  /\ Spec.balance_view
       (Analytics.query Samples.history 2 (cutoff_date Samples.now Samples.days))
     = [("Positive", 0%Q); ("Negative", 0%Q); ("Neutral", 0%Q)]
  /\ Analytics.get_emotional_balance Samples.history 2 Samples.now Samples.days
     = Ok []
  /\ Routes.emotional_balance Samples.conversations 1 Samples.now Samples.days
     = Ok [("joy", (2 # 3)%Q); ("sadness", (1 # 3)%Q)].
Proof.
  repeat split.
Qed.

(** The sample records of user 1: two of joy, one without intensity, and
    one of sadness. *)
Lemma emotional_balance_correct_witness :
  exists view,
    Analytics.get_emotional_balance Samples.history 1 Samples.now Samples.days
    = Ok view
    /\ Spec.same_view view
         (Spec.balance_view
            (Analytics.query Samples.history 1
               (cutoff_date Samples.now Samples.days))).
Proof.
  apply (proj1 (proj2 (emotional_balance_correct Samples.history
                         Samples.conversations 1 Samples.now Samples.days))).
  - discriminate.
  - reflexivity.
Defined.

(** ** Summary statistics *)
Section SummaryClaims.

(** C9, as the code has it: when the filtered record set is empty the
    summary of the analytics engine is exactly total 0, most common
    emotion "N/A", average sentiment 0, days tracked 0; the endpoint of
    routes.py returns the same with most common emotion "neutral";
    neither raises. *)
Theorem summary_of_empty_set (db : list EmotionHistory)
    (conversations : list Conversation) (user_id : Z) (now : datetime)
    (days : Z) :
  (Analytics.query db user_id (cutoff_date now days) = [] ->
   Analytics.get_summary_stats db user_id now days = Ok Spec.empty_summary)
  /\ (Routes.user_messages conversations user_id (cutoff_date now days) = [] ->
      Routes.analytics_summary conversations user_id now days
      = Ok {| Analytics.total_entries := 0;
              Analytics.most_common_emotion := "neutral";
              Analytics.average_sentiment := 0.0%Q;
              Analytics.days_tracked := 0 |}).
Proof.
  split; intros H.
  - unfold Analytics.get_summary_stats. now rewrite H.
  - unfold Routes.analytics_summary. now rewrite H.
Qed.

End SummaryClaims.

(** User 2 has sent no message: the endpoint of routes.py reports
    "neutral" as the most common emotion, not "N/A". *)
Lemma summary_endpoint_reports_neutral :
  Routes.user_messages Samples.conversations 2
    (cutoff_date Samples.now Samples.days) = []
  /\ Routes.analytics_summary Samples.conversations 2 Samples.now Samples.days
     = Ok {| Analytics.total_entries := 0;
             Analytics.most_common_emotion := "neutral";
             Analytics.average_sentiment := 0.0%Q;
             Analytics.days_tracked := 0 |}
  /\ Routes.analytics_summary Samples.conversations 2 Samples.now Samples.days
     <> Ok Spec.empty_summary.
Proof.
  repeat split. discriminate.
Qed.

Lemma summary_of_empty_set_witness :
  Analytics.get_summary_stats Samples.history 2 Samples.now Samples.days
  = Ok Spec.empty_summary.
Proof.
  apply (proj1 (summary_of_empty_set Samples.history Samples.conversations 2
                  Samples.now Samples.days)).
  reflexivity.
Defined.

(** ** Sample runs of the keyword fallbacks *)
Section SampleRuns.

(** "happy" and "excited" are two keywords of joy. *)
Example fallback_happy_excited :
  fst (EmotionDetector.fallback_label "I am so happy and excited today") = "joy"
  /\ (snd (EmotionDetector.fallback_label "I am so happy and excited today")
      == 0.7)%Q
  /\ fst (MlUtils._fallback_emotion_detection "I am so happy and excited today")
     = "joy"
  /\ (snd (MlUtils._fallback_emotion_detection "I am so happy and excited today")
      == 0.9)%Q.
Proof.
  repeat split.
Qed.

Example fallback_no_keyword :
  EmotionDetector.fallback_label "nothing particular happened"
  = ("neutral", 0.5%Q)
  /\ MlUtils._fallback_emotion_detection "nothing particular happened"
     = ("neutral", 0.5%Q).
Proof.
  split; reflexivity.
Qed.

(** Matching is by substring and ignores case: "SADLY" holds "sad". *)
Example fallback_substring :
  fst (EmotionDetector.fallback_label "SADLY, no") = "sadness".
Proof.
  reflexivity.
Qed.

(** The order of the text does not matter, the order of the table does. *)
Example fallback_tie_order :
  fst (EmotionDetector.fallback_label "sad but happy") = "joy"
  /\ fst (EmotionDetector.fallback_label "angry and scared") = "anger".
Proof.
  split; reflexivity.
Qed.

End SampleRuns.

(* ================================================================== *)
(** * Part III: further properties of the code *)
(* ================================================================== *)

(** ** Emotion frequency *)
Section FrequencyFacts.

Lemma Counter_positive (xs : list string) :
  Forall (fun entry => 0 < snd entry) (Counter xs).
Proof.
  unfold Counter.
  assert (H : forall c, Forall (fun entry : string * nat => 0 < snd entry) c ->
            Forall (fun entry => 0 < snd entry)
              (fold_left (fun c k => counter_add k c) xs c)).
  { induction xs as [|x xs IH]; intros c Hc; simpl; [exact Hc|].
    apply IH. now apply positive_counter_add. }
  apply H. constructor.
Qed.

(** An emotion that occurs has its entry in the counter. *)
Lemma Counter_has_entry (xs : list string) (k : string) :
  In k xs -> In (k, count_occ string_dec xs k) (Counter xs).
Proof.
  intros H. apply Counter_keys in H. apply in_map_iff in H as ([k' n] & E & Hin).
  simpl in E. subst k'. now rewrite <- (Counter_entry xs k n Hin).
Qed.

Lemma Counter_entries (xs : list string) (k : string) (n : nat) :
  In (k, n) (Counter xs) <-> In k xs /\ n = count_occ string_dec xs k.
Proof.
  split.
  - intros H. split; [|now apply Counter_entry].
    apply Counter_keys. apply in_map_iff. now exists (k, n).
  - intros [Hin ->]. now apply Counter_has_entry.
Qed.

(** The raw frequency view, of the analytics engine and of the endpoint
    of routes.py alike, holds exactly one entry per emotion that occurs
    among the filtered records, its value is the number of records with
    that emotion, and the values add up to the number of records. *)
Theorem emotion_frequency_counts (db : list EmotionHistory)
    (conversations : list Conversation) (user_id : Z) (now : datetime)
    (days : Z) :
  let records := map eh_emotion
                   (Analytics.query db user_id (cutoff_date now days)) in
  let messages :=
    Routes.emotions_of
      (Routes.user_messages conversations user_id (cutoff_date now days)) in
  let engine := AnalyticsSeries.get_emotion_frequency db user_id now days in
  let endpoint := RoutesSeries.emotion_frequency conversations user_id now days in
  (NoDup (map fst engine)
   /\ (forall emotion n,
         In (emotion, n) engine
         <-> In emotion records /\ n = count_occ string_dec records emotion)
   /\ list_sum (map snd engine) = List.length records)
  /\ (NoDup (map fst endpoint)
      /\ (forall emotion n,
            In (emotion, n) endpoint
            <-> In emotion messages /\ n = count_occ string_dec messages emotion)
      /\ list_sum (map snd endpoint) = List.length messages).
Proof.
  intros records messages engine endpoint.
  assert (E : engine = Counter records).
  { unfold engine, AnalyticsSeries.get_emotion_frequency, records.
    now destruct (Analytics.query db user_id (cutoff_date now days)). }
  rewrite E. unfold endpoint, RoutesSeries.emotion_frequency. fold messages.
  split; (split; [apply Counter_nodup|]);
    (split; [intros emotion n; apply Counter_entries | apply Counter_sum]).
Qed.

End FrequencyFacts.

(** ** Averages and rounding *)
Section AverageFacts.

Local Open Scope Q_scope.

Lemma total_within (lo hi : Q) (xs : list Q) :
  Props.all_within lo hi xs ->
  lo * inject_Z (Z.of_nat (List.length xs)) <= Spec.total xs
  /\ Spec.total xs <= hi * inject_Z (Z.of_nat (List.length xs)).
Proof.
  induction 1 as [|v xs [Hlo Hhi] _ [IHlo IHhi]].
  - simpl. change (inject_Z 0) with 0. split; lra.
  - cbn [List.length Spec.total fold_right].
    rewrite Nat2Z.inj_succ, <- Z.add_1_r, inject_Z_plus.
    unfold Spec.total in *. change (inject_Z 1) with 1. split; lra.
Qed.

(** The mean of numbers of a range lies in the range. *)
Lemma mean_within (lo hi : Q) (xs : list Q) :
  xs <> [] -> Props.all_within lo hi xs ->
  lo <= Spec.total xs / inject_Z (Z.of_nat (List.length xs)) <= hi.
Proof.
  intros Hne H. destruct (total_within lo hi xs H) as [Hlo Hhi].
  assert (Hn : 0 < inject_Z (Z.of_nat (List.length xs))).
  { rewrite <- (Zlt_Qlt 0). destruct xs; [contradiction | simpl; lia]. }
  split.
  - now apply Qle_shift_div_l.
  - now apply Qle_shift_div_r.
Qed.

(** Python's [sum(xs) / len(xs)] of a non-empty list does not raise and
    is the mean. *)
Lemma average_returns (xs : list Q) :
  xs <> [] ->
  exists avg,
    truediv (Py.sum xs) (Py.len xs) = Ok avg
    /\ avg == Spec.total xs / inject_Z (Z.of_nat (List.length xs)).
Proof.
  intros Hne.
  assert (Hlen : ~ Py.len xs == 0).
  { unfold Py.len. apply inject_nat_nonzero.
    destruct xs; [contradiction | simpl; lia]. }
  rewrite (truediv_nonzero _ _ Hlen). eexists. split; [reflexivity|].
  unfold Py.len. now rewrite sum_total.
Qed.

Lemma average_within (lo hi : Q) (xs : list Q) :
  xs <> [] -> Props.all_within lo hi xs ->
  exists avg,
    truediv (Py.sum xs) (Py.len xs) = Ok avg /\ lo <= avg <= hi.
Proof.
  intros Hne H. destruct (average_returns xs Hne) as (avg & E & Havg).
  exists avg. split; [exact E|]. rewrite Havg. now apply mean_within.
Qed.

(** Rounding to an integer stays between integer bounds. *)
Lemma round_half_even_between (a b : Z) (v : Q) :
  inject_Z a <= v <= inject_Z b ->
  (a <= Py.round_half_even v <= b)%Z.
Proof.
  intros [Ha Hb].
  assert (Hfa : (a <= Qfloor v)%Z).
  { rewrite <- (Qfloor_Z a). now apply Qfloor_resp_le. }
  assert (Hfb : (Qfloor v <= b)%Z).
  { rewrite <- (Qfloor_Z b). now apply Qfloor_resp_le. }
  pose proof (Qfloor_le v) as Hfl.
  assert (Hup : inject_Z (Qfloor v) < v -> (Qfloor v + 1 <= b)%Z).
  { intros Hlt. assert (Hq : inject_Z (Qfloor v) < inject_Z b) by lra.
    rewrite <- Zlt_Qlt in Hq. lia. }
  unfold Py.round_half_even.
  destruct (Qltb (v - inject_Z (Qfloor v)) 0.5) eqn:E1; [lia|].
  apply Qltb_ge in E1.
  destruct (Qltb 0.5 (v - inject_Z (Qfloor v))) eqn:E2.
  - split; [lia|]. apply Hup. lra.
  - destruct (Z.even (Qfloor v)); [lia|].
    split; [lia|]. apply Hup. lra.
Qed.

(** [round(v, 3)] of a number between -1 and 1 lies between -1 and 1. *)
Lemma round3_unit_interval (v : Q) :
  -1 <= v <= 1 -> -1 <= Py.round v 3 <= 1.
Proof.
  intros H. unfold Py.round.
  change (inject_Z (10 ^ Z.of_nat 3)) with 1000.
  destruct (round_half_even_between (-1000) 1000 (v * 1000)) as [Hlo Hhi].
  { change (inject_Z (-1000)) with (-1000). change (inject_Z 1000) with 1000.
    lra. }
  rewrite Zle_Qle in Hlo, Hhi.
  change (inject_Z (-1000)) with (-1000) in Hlo.
  change (inject_Z 1000) with 1000 in Hhi.
  set (r := inject_Z (Py.round_half_even (v * 1000))) in *.
  split.
  - apply Qle_shift_div_l; [reflexivity | lra].
  - apply Qle_shift_div_r; [reflexivity | lra].
Qed.

End AverageFacts.

(** ** Summary statistics over records *)
(** ** The cutoff date *)
Section CutoffFacts.

Lemma utcnow_minus_representable (now : datetime) (days : Z) :
  Props.representable now days = true ->
  utcnow_minus now days = Ok (cutoff_date now days).
Proof.
  unfold Props.representable, utcnow_minus, timedelta, minus, cutoff_date.
  intros H. apply andb_prop in H as [H H3]. apply andb_prop in H as [H1 H2].
  rewrite H1. cbn [bind]. cbv zeta. now rewrite H2, H3.
Qed.

Lemma utcnow_minus_overflow (now : datetime) (days : Z) :
  Props.representable now days = false ->
  utcnow_minus now days = Raise "OverflowError".
Proof.
  unfold Props.representable, utcnow_minus, timedelta, minus, cutoff_date.
  intros H.
  destruct (Z.abs days <=? max_timedelta_days)%Z; [|reflexivity].
  cbn [bind]. cbv zeta. simpl andb in H.
  destruct (_ && _)%bool; [discriminate H | reflexivity].
Qed.

End CutoffFacts.

Section SummaryFacts.

(** [most_common(1)] of a counter of a non-empty list is a mode. *)
Lemma most_common1_mode (xs : list string) :
  xs <> [] ->
  exists top,
    Counter xs <> []
    /\ item0 (most_common1 (Counter xs)) = Ok top
    /\ Props.is_mode xs (fst top).
Proof.
  intros Hne.
  destruct (Counter xs) as [|first rest] eqn:Ec.
  - destruct xs as [|x xs]; [contradiction|].
    assert (Hin : In x (map fst (Counter (x :: xs))))
      by (apply Counter_keys; now left).
    rewrite Ec in Hin. contradiction.
  - exists (max_by snd first rest). split; [discriminate|].
    split; [reflexivity|].
    destruct (max_by_first_maximal snd rest first) as (b & a & Heq & Hb & Ha).
    set (top := max_by snd first rest) in *.
    assert (Htop : In top (Counter xs)).
    { rewrite Ec, Heq. apply in_or_app. right. now left. }
    destruct top as [e n] eqn:Et. simpl.
    apply Counter_entries in Htop as [Hin Hn].
    split; [exact Hin|]. intros other. rewrite <- Hn.
    destruct (in_dec string_dec other xs) as [Ho|Ho].
    + apply Counter_has_entry in Ho. rewrite Ec, Heq in Ho.
      apply in_app_or in Ho as [Ho|[Ho|Ho]].
      * rewrite Forall_forall in Hb. apply Hb in Ho. simpl in Ho. lia.
      * injection Ho as _ Ho. lia.
      * rewrite Forall_forall in Ha. apply Ha in Ho. simpl in Ho. exact Ho.
    + rewrite (proj1 (count_occ_not_In string_dec xs other) Ho). lia.
Qed.

Lemma distinct_length (zs : list Z) :
  List.length (distinct zs) <= List.length zs
  /\ (zs <> [] -> 1 <= List.length (distinct zs)).
Proof.
  unfold distinct. split.
  - apply NoDup_incl_length; [apply NoDup_nodup|].
    intros z Hz. now apply nodup_In in Hz.
  - intros Hne. destruct zs as [|z zs]; [contradiction|].
    assert (Hin : In z (nodup Z.eq_dec (z :: zs)))
      by (apply nodup_In; now left).
    destruct (nodup Z.eq_dec (z :: zs)); [contradiction | simpl; lia].
Qed.

Lemma rounded_average_within (xs : list Q) :
  Props.all_within (-1) 1 xs ->
  exists avg,
    match xs with
    | [] => Ok 0%Q
    | _ => truediv (Py.sum xs) (Py.len xs)
    end = Ok avg
    /\ (-1 <= avg <= 1)%Q.
Proof.
  intros H. destruct xs as [|v xs].
  - exists 0%Q. split; [reflexivity | split; discriminate].
  - apply average_within; [discriminate | exact H].
Qed.

Lemma average_or_zero_returns (xs : list Q) (zero : Q) :
  exists avg,
    match xs with
    | [] => Ok zero
    | _ => truediv (Py.sum xs) (Py.len xs)
    end = Ok avg.
Proof.
  destruct xs as [|v xs]; [eauto|].
  destruct (average_returns (v :: xs)) as (avg & E & _); [discriminate|].
  eauto.
Qed.

(** Over a non-empty set of filtered records [get_summary_stats] does
    not raise; it reports the number of records, a most frequent emotion
    among them, and a number of tracked days between 1 and the number of
    records; the reported average is 0 when no record has a sentiment
    score, and when the stored scores lie between -1 and 1, so does the
    reported average. *)
Theorem summary_stats_of_records (db : list EmotionHistory) (user_id : Z)
    (now : datetime) (days : Z) :
  let records := Analytics.query db user_id (cutoff_date now days) in
  records <> [] ->
  exists s,
    Analytics.get_summary_stats db user_id now days = Ok s
    /\ Analytics.total_entries s = List.length records
    /\ Props.is_mode (map eh_emotion records) (Analytics.most_common_emotion s)
    /\ 1 <= Analytics.days_tracked s <= Analytics.total_entries s
    /\ (Analytics.not_none (map eh_sentiment_score records) = [] ->
        (Analytics.average_sentiment s == 0)%Q)
    /\ (Props.all_within (-1) 1
          (Analytics.not_none (map eh_sentiment_score records)) ->
        (-1 <= Analytics.average_sentiment s <= 1)%Q).
Proof.
  intros records Hne. unfold Analytics.get_summary_stats. fold records.
  destruct records as [|r rs] eqn:E; [contradiction|]. rewrite <- E in *.
  assert (Hem : map eh_emotion records <> [])
    by (rewrite E; discriminate).
  destruct (most_common1_mode _ Hem) as (top & Hc & Htop & Hmode).
  destruct (Counter (map eh_emotion records)) as [|c0 cs] eqn:Ec;
    [contradiction|]. rewrite <- Ec in *.
  rewrite Htop. cbn [bind].
  destruct (average_or_zero_returns
              (Analytics.not_none (map eh_sentiment_score records)) 0%Q)
    as (avg & Havg).
  rewrite Havg. cbn [bind].
  eexists. split; [reflexivity|]. cbn.
  split; [reflexivity|]. split; [exact Hmode|].
  destruct (distinct_length (map (fun e => date (eh_timestamp e)) records))
    as [Hle Hge].
  rewrite length_map in Hle.
  split; [split; [apply Hge; rewrite E; discriminate | exact Hle]|].
  split.
  { intros Hnone. rewrite Hnone in Havg. injection Havg as <-. reflexivity. }
  intros Hin. apply round3_unit_interval.
  destruct (rounded_average_within _ Hin) as (avg' & Havg' & Hb).
  rewrite Havg in Havg'. injection Havg' as <-. exact Hb.
Qed.

(** The summary endpoint of routes.py raises [OverflowError] when the
    look-back cannot be subtracted from the current time, and only then.
    Otherwise it reports the number of the user's messages in the
    window, "neutral" when none of them has an emotion and otherwise a
    most frequent emotion, a number of tracked days that does not exceed
    the number of messages, and an average sentiment that is 0 when no
    message has a score and lies between -1 and 1 when the stored scores
    do. *)
Theorem analytics_summary_of_messages (db : list Conversation) (user_id : Z)
    (now : datetime) (days : Z) :
  let conversations :=
    Routes.user_messages db user_id (cutoff_date now days) in
  let emotions := Routes.truthy_emotions conversations in
  (Props.representable now days = false ->
   RoutesSeries.analytics_summary db user_id now days = Raise "OverflowError")
  /\ (Props.representable now days = true ->
      exists s,
        RoutesSeries.analytics_summary db user_id now days = Ok s
        /\ Analytics.total_entries s = List.length conversations
        /\ (emotions = [] -> Analytics.most_common_emotion s = "neutral")
        /\ (emotions <> [] ->
            Props.is_mode emotions (Analytics.most_common_emotion s))
        /\ Analytics.days_tracked s <= Analytics.total_entries s
        /\ (Analytics.not_none (map cv_sentiment_score conversations) = [] ->
            (Analytics.average_sentiment s == 0)%Q)
        /\ (Props.all_within (-1) 1
              (Analytics.not_none (map cv_sentiment_score conversations)) ->
            (-1 <= Analytics.average_sentiment s <= 1)%Q)).
Proof.
  intros conversations emotions. unfold RoutesSeries.analytics_summary.
  split; intros Hdays.
  { now rewrite (utcnow_minus_overflow now days Hdays). }
  rewrite (utcnow_minus_representable now days Hdays). cbn [bind].
  clear Hdays. unfold Routes.analytics_summary.
  fold conversations. fold emotions.
  destruct (average_or_zero_returns
              (Analytics.not_none (map cv_sentiment_score conversations)) 0.0%Q)
    as (avg & Havg).
  assert (Hdays :
            List.length (distinct (map (fun c => date (cv_timestamp c))
                                     conversations))
            <= List.length conversations).
  { destruct (distinct_length (map (fun c => date (cv_timestamp c))
                                 conversations)) as [Hle _].
    now rewrite length_map in Hle. }
  assert (Hzero :
            Analytics.not_none (map cv_sentiment_score conversations) = [] ->
            (avg == 0)%Q).
  { intros Hnone. rewrite Hnone in Havg. injection Havg as <-. reflexivity. }
  assert (Hrange :
            Props.all_within (-1) 1
              (Analytics.not_none (map cv_sentiment_score conversations)) ->
            (-1 <= avg <= 1)%Q).
  { intros Hin.
    destruct (Analytics.not_none (map cv_sentiment_score conversations))
      as [|v vs] eqn:Ev.
    - injection Havg as <-. split; discriminate.
    - destruct (average_within (-1) 1 (v :: vs)) as (avg' & Havg' & Hb);
        [discriminate | exact Hin|].
      rewrite Havg in Havg'. injection Havg' as <-. exact Hb. }
  destruct emotions as [|e es] eqn:E.
  - cbn [bind]. rewrite Havg. cbn [bind]. eexists.
    split; [reflexivity|]. cbn.
    split; [reflexivity|].
    split; [reflexivity|].
    split; [intros Hne; contradiction|].
    split; [exact Hdays|]. split; [exact Hzero | exact Hrange].
  - assert (Hne : e :: es <> []) by discriminate.
    destruct (most_common1_mode _ Hne) as (top & _ & Htop & Hmode).
    rewrite Htop. cbn [bind]. rewrite Havg. cbn [bind].
    eexists.
    split; [reflexivity|]. cbn.
    split; [reflexivity|].
    split; [intros Hnil; contradiction|].
    split; [intros _; exact Hmode|].
    split; [exact Hdays|]. split; [exact Hzero | exact Hrange].
Qed.

End SummaryFacts.

(** A look-back of a million days from the sample moment leaves the
    years 1 to 9999; one of thirty days gives the summary of the three
    sample messages. *)
Lemma analytics_summary_of_messages_witness :
  RoutesSeries.analytics_summary Samples.conversations 1 Samples.now 1000000
  = Raise "OverflowError"
  /\ exists s,
       RoutesSeries.analytics_summary Samples.conversations 1 Samples.now
         Samples.days = Ok s
       /\ Analytics.total_entries s = 3
       /\ Analytics.days_tracked s <= Analytics.total_entries s.
Proof.
  split.
  - apply (proj1 (analytics_summary_of_messages Samples.conversations 1
                    Samples.now 1000000)).
    reflexivity.
  - destruct (proj2 (analytics_summary_of_messages Samples.conversations 1
                       Samples.now Samples.days) eq_refl)
      as (s & Hs & Ht & _ & _ & Hd & _).
    exists s. split; [exact Hs|]. split; [exact Ht | exact Hd].
Defined.

(** The three sample records of user 1. *)
Lemma summary_stats_of_records_witness :
  exists s,
    Analytics.get_summary_stats Samples.history 1 Samples.now Samples.days = Ok s
    /\ Analytics.total_entries s
       = List.length (Analytics.query Samples.history 1
                        (cutoff_date Samples.now Samples.days))
    /\ Props.is_mode
         (map eh_emotion
            (Analytics.query Samples.history 1
               (cutoff_date Samples.now Samples.days)))
         (Analytics.most_common_emotion s)
    /\ 1 <= Analytics.days_tracked s <= Analytics.total_entries s
    /\ (Analytics.not_none
          (map eh_sentiment_score
             (Analytics.query Samples.history 1
                (cutoff_date Samples.now Samples.days))) = [] ->
        (Analytics.average_sentiment s == 0)%Q)
    /\ (Props.all_within (-1) 1
          (Analytics.not_none
             (map eh_sentiment_score
                (Analytics.query Samples.history 1
                   (cutoff_date Samples.now Samples.days)))) ->
        (-1 <= Analytics.average_sentiment s <= 1)%Q).
Proof.
  apply (summary_stats_of_records Samples.history 1 Samples.now Samples.days).
  discriminate.
Defined.

(** ** Range of the fallback confidence and of the derived intensity *)
Section RangeFacts.

Local Open Scope Q_scope.

(** The winner of a text with a keyword hit has a positive score. *)
Lemma winner_score_positive (table : list (string * list string))
    (text : string) (before after : list (string * list string))
    (winner : string) (keywords : list string) :
  Spec.any_hit table text = true ->
  table = before ++ (winner, keywords) :: after ->
  Forall (fun entry => (keyword_score (snd entry) text
                        < keyword_score keywords text)%nat) before ->
  Forall (fun entry => (keyword_score (snd entry) text
                        <= keyword_score keywords text)%nat) after ->
  (1 <= keyword_score keywords text)%nat.
Proof.
  intros Hit Ht Hb Ha. unfold Spec.any_hit in Hit.
  apply existsb_exists in Hit as (entry & Hin & Hpos).
  apply Nat.ltb_lt in Hpos. rewrite Ht in Hin.
  rewrite Forall_forall in Hb, Ha.
  apply in_app_or in Hin as [Hin|[Hin|Hin]].
  - apply Hb in Hin. lia.
  - subst entry. simpl in Hpos. lia.
  - apply Ha in Hin. lia.
Qed.

Lemma ed_confidence_range (n : nat) :
  (1 <= n)%nat -> 0.5 <= EmotionDetector.confidence_of_score n <= 0.8.
Proof.
  intros H. apply inject_nat_le in H. change (inject_Z (Z.of_nat 1)) with 1 in H.
  unfold EmotionDetector.confidence_of_score.
  destruct (min2_spec 0.8 (inject_Z (Z.of_nat n) * 0.2 + 0.3)) as [[? ->]|[? ->]];
    lra.
Qed.

Lemma ml_confidence_range (n : nat) :
  (1 <= n)%nat -> 0.6 <= MlUtils.confidence_of_score n <= 0.9.
Proof.
  intros H. apply inject_nat_le in H. change (inject_Z (Z.of_nat 1)) with 1 in H.
  unfold MlUtils.confidence_of_score.
  destruct (min2_spec 0.9 (inject_Z (Z.of_nat n) * 0.3 + 0.3)) as [[? ->]|[? ->]];
    lra.
Qed.

Lemma ed_fallback_confidence_bounds (text : string) :
  0.5 <= snd (EmotionDetector.fallback_label text) <= 0.8.
Proof.
  destruct (Spec.any_hit EmotionDetector.emotion_keywords (lower text)) eqn:H.
  - destruct (ed_fallback_hit text H) as (w & b & kws & a & Hr & Ht & Hb & Ha).
    rewrite Hr. simpl. apply ed_confidence_range.
    now apply (winner_score_positive _ _ b a w kws H).
  - rewrite (ed_fallback_miss text H). simpl. lra.
Qed.

(** Whatever the text, the keyword fallback of emotion_detector.py
    reports a confidence between 0.5 and 0.8 and the one of ml_utils.py a
    confidence between 0.5 and 0.9: a keyword match never reports less
    certainty than no match at all. *)
Theorem fallback_confidence_range (text : string) :
  0.5 <= snd (EmotionDetector.fallback_label text) <= 0.8
  /\ 0.5 <= snd (MlUtils._fallback_emotion_detection text) <= 0.9.
Proof.
  split; [apply ed_fallback_confidence_bounds|].
  destruct (Spec.any_hit MlUtils.emotion_keywords (lower text)) eqn:H.
  - destruct (ml_fallback_hit text H) as (w & b & kws & a & Hr & Ht & Hb & Ha).
    rewrite Hr. simpl.
    pose proof (ml_confidence_range (keyword_score kws (lower text))
                  (winner_score_positive _ _ b a w kws H Ht Hb Ha)).
    lra.
  - rewrite (ml_fallback_miss text H). simpl. lra.
Qed.

(** What [calculate_intensity] makes of a confidence in [0,1] and a
    sentiment in [-1,1]: at least half the confidence, at most one. *)
Lemma calculate_intensity_lower (emotion : string) (confidence sentiment : Q) :
  0 <= confidence <= 1 -> -1 <= sentiment <= 1 ->
  confidence * 0.5
  <= EmotionDetector.calculate_intensity emotion confidence sentiment <= 1.
Proof.
  intros Hc Hs. unfold EmotionDetector.calculate_intensity.
  destruct (EmotionDetector.in_list emotion ["joy"; "love"]%string);
    [|destruct (EmotionDetector.in_list emotion
                  ["sadness"; "anger"; "fear"]%string)];
    match goal with
    | |- _ <= max2 0.0 (min2 1.0 ?v) <= _ =>
        destruct (min2_spec 1.0 v) as [[? ->]|[? ->]]
    end;
    match goal with
    | |- _ <= max2 0.0 ?w <= _ =>
        destruct (max2_spec 0.0 w) as [[? ->]|[? ->]]
    end; nra.
Qed.

End RangeFacts.

Section FallbackReadings.

Local Open Scope Q_scope.

Variable textblob_polarity : string -> result Q.
Hypothesis polarity_range : Props.polarity_in_range textblob_polarity.

Lemma sentiment_score_range (text : string) :
  exists s,
    EmotionDetector._get_sentiment_score textblob_polarity text = Ok s
    /\ -1 <= s <= 1.
Proof.
  unfold EmotionDetector._get_sentiment_score, try_except.
  destruct (textblob_polarity text) as [q|e] eqn:E.
  - exists q. split; [reflexivity|]. now apply (polarity_range text).
  - exists 0.0. split; [reflexivity | split; discriminate].
Qed.

(** A reading made without a trained model satisfies the ranges of the
    data model: when the polarity analyzer keeps to [-1,1] and the model
    or the vectorizer is missing, [detect_emotion] followed by
    [calculate_intensity] returns one of the seven labels, a confidence
    between 0.5 and 0.8, a sentiment between -1 and 1 and an intensity
    between 0.25 and 1, so never the zero that the analytics would take
    for a missing intensity. *)
Theorem fallback_reading_in_range (self : EmotionDetector.t) (text : string) :
  EmotionDetector.model self = None \/ EmotionDetector.vectorizer self = None ->
  exists emotion confidence sentiment intensity,
    EmotionDetector.detect_with_intensity textblob_polarity self text
    = Ok (emotion, confidence, sentiment, intensity)
    /\ In emotion Spec.closed_labels
    /\ 0.5 <= confidence <= 0.8
    /\ -1 <= sentiment <= 1
    /\ 0.25 <= intensity <= 1
    /\ Analytics.or_half (Some intensity) = intensity.
Proof.
  intros Hno. unfold EmotionDetector.detect_with_intensity.
  assert (Hgoal : forall e c s,
            In e Spec.closed_labels -> 0.5 <= c <= 0.8 -> -1 <= s <= 1 ->
            exists emotion confidence sentiment intensity,
              Ok (e, c, s, EmotionDetector.calculate_intensity e c s)
              = Ok (emotion, confidence, sentiment, intensity)
              /\ In emotion Spec.closed_labels
              /\ 0.5 <= confidence <= 0.8
              /\ -1 <= sentiment <= 1
              /\ 0.25 <= intensity <= 1
              /\ Analytics.or_half (Some intensity) = intensity).
  { intros e c s He Hc Hs.
    exists e, c, s, (EmotionDetector.calculate_intensity e c s).
    assert (Hi : c * 0.5 <= EmotionDetector.calculate_intensity e c s <= 1)
      by (apply calculate_intensity_lower; lra).
    repeat split; try assumption; try lra.
    unfold Analytics.or_half.
    destruct (Qeq_bool (EmotionDetector.calculate_intensity e c s) 0) eqn:E;
      [|reflexivity].
    apply Qeq_bool_iff in E. lra. }
  destruct (Spec.blank text) eqn:Hb.
  - rewrite (detect_emotion_blank textblob_polarity self text Hb). cbn [bind].
    apply Hgoal; [simpl; tauto | lra | lra].
  - rewrite (detect_emotion_unloaded textblob_polarity self text Hno Hb).
    unfold EmotionDetector._fallback_detection.
    pose proof (ed_fallback_label_closed text) as Hl.
    pose proof (ed_fallback_confidence_bounds text) as Hc.
    destruct (EmotionDetector.fallback_label text) as [e c]. simpl in Hl, Hc.
    destruct (sentiment_score_range text) as (s & -> & Hs). cbn [bind].
    now apply Hgoal.
Qed.

End FallbackReadings.

(** No artifact at all, and the flat analyzer: "I am so sad". *)
Lemma fallback_reading_in_range_witness :
  exists emotion confidence sentiment intensity,
    EmotionDetector.detect_with_intensity Samples.flat_polarity
      (EmotionDetector.load_models None None None) "I am so sad"
    = Ok (emotion, confidence, sentiment, intensity)
    /\ In emotion Spec.closed_labels
    /\ (0.5 <= confidence <= 0.8)%Q
    /\ (-1 <= sentiment <= 1)%Q
    /\ (0.25 <= intensity <= 1)%Q
    /\ Analytics.or_half (Some intensity) = intensity.
Proof.
  apply (fallback_reading_in_range Samples.flat_polarity).
  - intros text q E. injection E as <-. split; discriminate.
  - left. reflexivity.
Defined.

Section IntensityOrder.

Local Open Scope Q_scope.

Lemma clamp_monotone (v w : Q) :
  v <= w -> max2 0.0 (min2 1.0 v) <= max2 0.0 (min2 1.0 w).
Proof.
  intros H.
  destruct (min2_spec 1.0 v) as [[? Ev]|[? Ev]],
    (min2_spec 1.0 w) as [[? Ew]|[? Ew]];
    rewrite Ev, ?Ew;
    match goal with
    | |- max2 0.0 ?a <= max2 0.0 ?b =>
        destruct (max2_spec 0.0 a) as [[? Ea]|[? Ea]],
          (max2_spec 0.0 b) as [[? Eb]|[? Eb]];
        rewrite Ea, ?Eb
    end; lra.
Qed.

(** For a confidence that is not negative the intensity follows the
    sentiment: it does not decrease with it for joy and love, does not
    increase with it for sadness, anger and fear, and does not depend on
    it for any other label. *)
Theorem intensity_follows_sentiment (emotion : string)
    (confidence s1 s2 : Q) :
  0 <= confidence -> s1 <= s2 ->
  (emotion = "joy" \/ emotion = "love" ->
   EmotionDetector.calculate_intensity emotion confidence s1
   <= EmotionDetector.calculate_intensity emotion confidence s2)
  /\ (emotion = "sadness" \/ emotion = "anger" \/ emotion = "fear" ->
      EmotionDetector.calculate_intensity emotion confidence s2
      <= EmotionDetector.calculate_intensity emotion confidence s1)
  /\ (~ In emotion ["joy"; "love"; "sadness"; "anger"; "fear"]%string ->
      EmotionDetector.calculate_intensity emotion confidence s1
      = EmotionDetector.calculate_intensity emotion confidence s2).
Proof.
  intros Hc Hs. unfold EmotionDetector.calculate_intensity.
  rewrite in_list_joy_love, in_list_negative.
  split; [|split].
  - intros [->| ->]; simpl; apply clamp_monotone; nra.
  - intros [->|[->| ->]]; simpl; apply clamp_monotone; nra.
  - intros Hout. simpl in Hout.
    destruct (String.eqb_spec emotion "joy") as [->|];
      [exfalso; apply Hout; auto 10|].
    destruct (String.eqb_spec emotion "love") as [->|];
      [exfalso; apply Hout; auto 10|].
    destruct (String.eqb_spec emotion "sadness") as [->|];
      [exfalso; apply Hout; auto 10|].
    destruct (String.eqb_spec emotion "anger") as [->|];
      [exfalso; apply Hout; auto 10|].
    destruct (String.eqb_spec emotion "fear") as [->|];
      [exfalso; apply Hout; auto 10|].
    reflexivity.
Qed.

End IntensityOrder.

(** Joy at confidence 0.6: a sentiment of 0.5 gives more than one of -0.5. *)
Lemma intensity_follows_sentiment_witness :
  (EmotionDetector.calculate_intensity "joy" 0.6 (-0.5)
   <= EmotionDetector.calculate_intensity "joy" 0.6 0.5)%Q.
Proof.
  apply (proj1 (intensity_follows_sentiment "joy" 0.6%Q (-0.5)%Q 0.5%Q
                  ltac:(discriminate) ltac:(discriminate))).
  left. reflexivity.
Defined.

(** ** Case and surrounding whitespace *)
Section StripLowerFacts.

Lemma isspace_lower (c : ascii) : isspace (lower_char c) = isspace c.
Proof.
  destruct c as [[] [] [] [] [] [] [] []]; reflexivity.
Qed.

Lemma lower_char_idempotent (c : ascii) :
  lower_char (lower_char c) = lower_char c.
Proof.
  destruct c as [[] [] [] [] [] [] [] []]; reflexivity.
Qed.

Lemma lower_idempotent (s : string) : lower (lower s) = lower s.
Proof.
  induction s as [|c s IH]; simpl; [reflexivity|].
  now rewrite lower_char_idempotent, IH.
Qed.

Lemma lower_lstrip (s : string) : lower (lstrip s) = lstrip (lower s).
Proof.
  induction s as [|c s IH]; simpl; [reflexivity|].
  rewrite isspace_lower. destruct (isspace c); [exact IH | reflexivity].
Qed.

Lemma lower_rstrip (s : string) : lower (rstrip s) = rstrip (lower s).
Proof.
  induction s as [|c s IH]; simpl; [reflexivity|].
  rewrite <- IH, isspace_lower.
  destruct (rstrip s) as [|d r]; simpl; [|reflexivity].
  now destruct (isspace c).
Qed.

Lemma lower_strip (s : string) : lower (strip s) = strip (lower s).
Proof.
  unfold strip. now rewrite lower_rstrip, lower_lstrip.
Qed.

Lemma blank_lower_eq (s : string) : Spec.blank (lower s) = Spec.blank s.
Proof.
  induction s as [|c s IH]; simpl; [reflexivity|].
  now rewrite isspace_lower, IH.
Qed.

Lemma strip_falsy_blank (s : string) : str_falsy (strip s) = Spec.blank s.
Proof.
  unfold str_falsy. destruct (Spec.blank s) eqn:Hb.
  - now rewrite (strip_blank s Hb).
  - apply String.eqb_neq. intros E. apply strip_empty_blank in E. congruence.
Qed.

Lemma rstrip_cons (c : ascii) (s : string) :
  rstrip (String c s)
  = if (isspace c && (rstrip s =? "")%string)%bool
    then "" else String c (rstrip s).
Proof.
  simpl. destruct (rstrip s); destruct (isspace c); reflexivity.
Qed.

Lemma rstrip_blank (s : string) : Spec.blank s = true -> rstrip s = "".
Proof.
  induction s as [|c s IH]; simpl; [reflexivity|].
  intros H. apply andb_true_iff in H as [Hc Hs]. now rewrite (IH Hs), Hc.
Qed.

(** Stripping leaves a text that is blank exactly when the text was. *)
Lemma blank_strip (s : string) : Spec.blank (strip s) = Spec.blank s.
Proof.
  destruct (Spec.blank s) eqn:Hb.
  - now rewrite (strip_blank s Hb).
  - destruct (Spec.blank (strip s)) eqn:Hs; [|reflexivity].
    exfalso. unfold strip in Hs.
    assert (Hl : exists c r, lstrip s = String c r /\ isspace c = false).
    { clear Hs. induction s as [|c s IH]; [discriminate Hb|].
      simpl in *. destruct (isspace c) eqn:Hc; [|eauto].
      simpl in Hb. auto. }
    destruct Hl as (c & r & El & Hc). rewrite El, rstrip_cons, Hc in Hs.
    simpl in Hs. now rewrite Hc in Hs.
Qed.

Lemma prefix_empty (s : string) : String.prefix "" s = true.
Proof.
  now destruct s.
Qed.

Lemma contains_empty (s : string) : contains "" s = true.
Proof.
  destruct s; reflexivity.
Qed.

Lemma prefix_blank (k s : string) :
  Props.spaceless k = true -> Spec.blank s = true ->
  String.prefix k s = String.prefix k "".
Proof.
  intros Hk Hs. destruct k as [|a k]; [now rewrite !prefix_empty|].
  destruct s as [|c s]; [reflexivity|].
  simpl in *. apply andb_true_iff in Hk as [Ha _].
  apply andb_true_iff in Hs as [Hc _]. apply negb_true_iff in Ha.
  destruct (Ascii.ascii_dec a c) as [->|]; [congruence | reflexivity].
Qed.

Lemma prefix_rstrip (s : string) : forall k : string,
  Props.spaceless k = true ->
  String.prefix k (rstrip s) = String.prefix k s.
Proof.
  induction s as [|c s IH]; intros k Hk; [reflexivity|].
  destruct k as [|a k]; [now rewrite !prefix_empty|].
  pose proof Hk as Hk'. simpl in Hk'.
  apply andb_true_iff in Hk' as [Ha Hk']. apply negb_true_iff in Ha.
  rewrite rstrip_cons.
  destruct (isspace c && (rstrip s =? "")%string)%bool eqn:E.
  - apply andb_true_iff in E as [Hc _]. simpl.
    destruct (Ascii.ascii_dec a c) as [->|]; [congruence | reflexivity].
  - simpl. destruct (Ascii.ascii_dec a c); [|reflexivity]. now apply IH.
Qed.

Lemma contains_rstrip (k s : string) :
  Props.spaceless k = true -> contains k (rstrip s) = contains k s.
Proof.
  intros Hk. induction s as [|c s IH]; [reflexivity|].
  change (contains k (String c s))
    with (String.prefix k (String c s) || contains k s)%bool.
  rewrite <- (prefix_rstrip (String c s) k Hk), <- IH.
  rewrite rstrip_cons.
  destruct (isspace c && (rstrip s =? "")%string)%bool eqn:E.
  - apply andb_true_iff in E as [_ E]. apply String.eqb_eq in E.
    rewrite E. now destruct k.
  - reflexivity.
Qed.

Lemma contains_lstrip (k s : string) :
  Props.spaceless k = true -> contains k (lstrip s) = contains k s.
Proof.
  intros Hk. induction s as [|c s IH]; [reflexivity|].
  simpl lstrip. destruct (isspace c) eqn:Hc; [|reflexivity].
  rewrite IH.
  destruct k as [|a k]; [now rewrite !contains_empty|].
  simpl in Hk. apply andb_true_iff in Hk as [Ha _].
  apply negb_true_iff in Ha. simpl.
  destruct (Ascii.ascii_dec a c) as [->|]; [congruence | reflexivity].
Qed.

Lemma contains_strip (k s : string) :
  Props.spaceless k = true -> contains k (strip s) = contains k s.
Proof.
  intros Hk. unfold strip. now rewrite contains_rstrip, contains_lstrip.
Qed.

Variable table : list (string * list string).
Hypothesis table_spaceless :
  forallb (fun entry => forallb Props.spaceless (snd entry)) table = true.

Lemma emotion_scores_strip (s : string) :
  emotion_scores table (strip s) = emotion_scores table s.
Proof.
  unfold emotion_scores. f_equal. apply map_ext_in. intros e He. f_equal.
  unfold keyword_score. f_equal. apply filter_ext_in. intros k Hk.
  apply contains_strip.
  rewrite forallb_forall in table_spaceless.
  pose proof (table_spaceless e He) as Hks.
  rewrite forallb_forall in Hks. now apply Hks.
Qed.

End StripLowerFacts.

Section InsensitiveClassifiers.

Lemma ml_fallback_stripped_lowered (text : string) :
  MlUtils._fallback_emotion_detection (lower (strip text))
  = MlUtils._fallback_emotion_detection text.
Proof.
  unfold MlUtils._fallback_emotion_detection.
  rewrite !strip_falsy_blank, blank_lower_eq, blank_strip.
  now rewrite lower_idempotent, lower_strip,
    (emotion_scores_strip MlUtils.emotion_keywords eq_refl).
Qed.

(** Letter case and surrounding whitespace never change what a keyword
    fallback returns: the classifier of emotion_detector.py gives the
    same label and confidence for a text, for its lowercase form and for
    its stripped form, and the one of ml_utils.py for a text and for the
    stripped, lowercased text that [predict_emotion] hands it after a
    failure of the model. *)
Theorem fallback_ignores_case_and_margins (text : string) :
  EmotionDetector.fallback_label (lower text)
  = EmotionDetector.fallback_label text
  /\ EmotionDetector.fallback_label (strip text)
     = EmotionDetector.fallback_label text
  /\ MlUtils._fallback_emotion_detection (lower (strip text))
     = MlUtils._fallback_emotion_detection text.
Proof.
  split; [|split].
  - unfold EmotionDetector.fallback_label. now rewrite lower_idempotent.
  - unfold EmotionDetector.fallback_label.
    now rewrite lower_strip,
      (emotion_scores_strip EmotionDetector.emotion_keywords eq_refl).
  - apply ml_fallback_stripped_lowered.
Qed.

End InsensitiveClassifiers.

(** ** The detector of ml_utils.py *)
Section PredictEmotionFacts.

(** [predict_emotion] never raises, and unless the trained model
    produced the answer, the answer is what the keyword fallback returns
    on the text as it was given, whichever way the fallback was reached:
    detector not loaded, blank text, a missing component, or an exception
    anywhere in the model's prediction. *)
Theorem predict_emotion_fallback_or_model (self : MlUtils.t) (text : string) :
  MlUtils.predict_emotion self text
  = Ok (MlUtils._fallback_emotion_detection text)
  \/ exists v m le reading,
      MlUtils.is_loaded self = true
      /\ Spec.blank text = false
      /\ MlUtils.vectorizer self = Some v
      /\ MlUtils.model self = Some m
      /\ MlUtils.label_encoder self = Some le
      /\ MlUtils.model_prediction v m le (lower (strip text)) = Ok reading
      /\ MlUtils.predict_emotion self text = Ok reading.
Proof.
  unfold MlUtils.predict_emotion. rewrite strip_falsy_blank.
  destruct (MlUtils.is_loaded self) eqn:Hl; simpl; [|now left].
  destruct (Spec.blank text) eqn:Hb; [now left|].
  pose proof (ml_fallback_stripped_lowered text) as Hinv.
  rewrite Hinv.
  destruct (MlUtils.vectorizer self) as [v|]; [|now left].
  destruct (MlUtils.model self) as [m|]; [|now left].
  destruct (MlUtils.label_encoder self) as [le|]; [|now left].
  destruct (MlUtils.model_prediction v m le (lower (strip text)))
    as [r|e] eqn:E; simpl; [|now left].
  right. exists v, m, le, r. auto 10.
Qed.

(** A detector that lacks an artifact answers from its keyword
    fallback.  In ml_utils.py: every text, if any of the three files is
    missing.  In emotion_detector.py: every text that is not blank, if
    the model or the vectorizer is missing or fails the validation of
    [load_models]; the label of that reading is one of the seven, also
    when the classes of a loaded label encoder were adopted as the
    detector's labels.  When every unpickled object passes the
    validation, [load_models_from] is [load_models]. *)
Theorem missing_artifact_means_fallback
    (textblob_polarity : string -> result Q)
    (found_model : option Model) (found_vectorizer : option Vectorizer)
    (found_encoder : option LabelEncoder)
    (loaded_model : option (EmotionDetector.unpickled Model))
    (loaded_vectorizer : option (EmotionDetector.unpickled Vectorizer))
    (loaded_encoder : option LabelEncoder) (text : string) :
  (found_model = None \/ found_vectorizer = None \/ found_encoder = None ->
   MlUtils.predict_emotion
     (MlUtils.load_models found_model found_vectorizer found_encoder) text
   = Ok (MlUtils._fallback_emotion_detection text))
  /\ (Props.usable loaded_model = None \/ Props.usable loaded_vectorizer = None ->
      Spec.blank text = false ->
      EmotionDetector.detect_emotion textblob_polarity
        (EmotionDetector.load_models_from loaded_model loaded_vectorizer
           loaded_encoder) text
      = EmotionDetector._fallback_detection textblob_polarity text
      /\ exists emotion confidence sentiment,
           EmotionDetector.detect_emotion textblob_polarity
             (EmotionDetector.load_models_from loaded_model loaded_vectorizer
                loaded_encoder) text
           = Ok (emotion, confidence, sentiment)
           /\ In emotion Spec.closed_labels)
  /\ EmotionDetector.load_models_from
       (option_map EmotionDetector.Valid found_model)
       (option_map EmotionDetector.Valid found_vectorizer) found_encoder
     = EmotionDetector.load_models found_model found_vectorizer found_encoder.
Proof.
  split; [|split].
  - intros H.
    assert (Hl : MlUtils.is_loaded
                   (MlUtils.load_models found_model found_vectorizer
                      found_encoder) = false).
    { destruct H as [->|[->| ->]]; simpl;
        repeat match goal with
          | |- context [match ?o with Some _ => _ | None => _ end] =>
              destruct o
          end; reflexivity. }
    unfold MlUtils.predict_emotion. now rewrite Hl.
  - intros H Hb.
    set (self := EmotionDetector.load_models_from loaded_model
                   loaded_vectorizer loaded_encoder).
    assert (Hs : EmotionDetector.model self = None
                 \/ EmotionDetector.vectorizer self = None).
    { unfold self, EmotionDetector.load_models_from.
      destruct loaded_model as [m|]; [|now left].
      destruct loaded_vectorizer as [v|]; [|now left].
      simpl in *. exact H. }
    rewrite (detect_emotion_unloaded textblob_polarity self text Hs Hb).
    split; [reflexivity|].
    apply fallback_detection_closed.
  - destruct found_model, found_vectorizer; reflexivity.
Qed.

End PredictEmotionFacts.

(** A vectorizer and an encoder of two classes were unpickled, and for
    the model an object without [predict]: the encoder and its classes
    are kept, and the text is answered by the keyword fallback. *)
Lemma missing_artifact_means_fallback_witness :
  EmotionDetector.detect_emotion Samples.flat_polarity
    (EmotionDetector.load_models_from (Some Samples.other_object)
       (Some (EmotionDetector.Valid Samples.vectorizer))
       (Some Samples.binary_encoder))
    "I am so happy"
  = EmotionDetector._fallback_detection Samples.flat_polarity "I am so happy".
Proof.
  apply (proj1 (proj2 (missing_artifact_means_fallback Samples.flat_polarity
                         None None None
                         (Some Samples.other_object)
                         (Some (EmotionDetector.Valid Samples.vectorizer))
                         (Some Samples.binary_encoder)
                         "I am so happy")));
    [left|]; reflexivity.
Defined.

Example invalid_model_keeps_encoder :
  let self :=
    EmotionDetector.load_models_from (Some Samples.other_object)
      (Some (EmotionDetector.Valid Samples.vectorizer))
      (Some Samples.binary_encoder) in
  EmotionDetector.model self = None
  /\ EmotionDetector.vectorizer self = Some Samples.vectorizer
  /\ EmotionDetector.label_encoder self = Some Samples.binary_encoder
  /\ EmotionDetector.emotion_labels self = ["negative"; "positive"]%string.
Proof.
  repeat split.
Qed.

(** ** Sorting and grouping *)
Section SortedFacts.

Context {A : Type} (key : A -> Z).

Lemma insert_by_perm (v : A) (l : list A) :
  Permutation (Seq.insert_by key v l) (v :: l).
Proof.
  induction l as [|w l IH]; simpl; [reflexivity|].
  destruct (key v <=? key w)%Z; [reflexivity|].
  rewrite IH. apply perm_swap.
Qed.

Lemma sorted_by_perm (l : list A) : Permutation (Seq.sorted_by key l) l.
Proof.
  induction l as [|v l IH]; simpl; [reflexivity|].
  now rewrite insert_by_perm, IH.
Qed.

Lemma insert_by_sorted (v : A) (l : list A) :
  StronglySorted (fun a b => (key a <= key b)%Z) l ->
  StronglySorted (fun a b => (key a <= key b)%Z) (Seq.insert_by key v l).
Proof.
  induction 1 as [|w l Hs IH Hw]; simpl.
  - repeat constructor.
  - destruct (key v <=? key w)%Z eqn:E.
    + apply Z.leb_le in E. constructor; [now constructor|].
      constructor; [exact E|].
      rewrite Forall_forall in *. intros u Hu. specialize (Hw u Hu). lia.
    + apply Z.leb_gt in E. constructor; [exact IH|].
      rewrite Forall_forall in *. intros u Hu.
      apply (Permutation_in _ (insert_by_perm v l)) in Hu.
      destruct Hu as [<-|Hu]; [lia | now apply Hw].
Qed.

Lemma sorted_by_sorted (l : list A) :
  StronglySorted (fun a b => (key a <= key b)%Z) (Seq.sorted_by key l).
Proof.
  induction l as [|v l IH]; simpl; [constructor|].
  now apply insert_by_sorted.
Qed.

Lemma sorted_strictly (l : list A) :
  NoDup (map key l) ->
  StronglySorted (fun a b => (key a <= key b)%Z) l ->
  StronglySorted (fun a b => (key a < key b)%Z) l.
Proof.
  induction l as [|v l IH]; intros Hnd Hs; [constructor|].
  inversion Hnd as [|? ? Hnin Hnd']; subst.
  inversion Hs as [|? ? Hs' Hv]; subst.
  constructor; [now apply IH|].
  rewrite Forall_forall in *. intros u Hu. specialize (Hv u Hu).
  assert (key u <> key v).
  { intros E. apply Hnin. rewrite <- E. now apply in_map. }
  lia.
Qed.

(** Sorting items of distinct keys gives strictly ascending keys. *)
Lemma sorted_by_strict (l : list A) :
  NoDup (map key l) ->
  StronglySorted (fun a b => (key a < key b)%Z) (Seq.sorted_by key l).
Proof.
  intros Hnd. apply sorted_strictly; [|apply sorted_by_sorted].
  apply (Permutation_NoDup (l := map key l)); [|exact Hnd].
  apply Permutation_map. symmetry. apply sorted_by_perm.
Qed.

End SortedFacts.

Section GroupFacts.

Context {A : Type}.

Lemma group_of_add (d : list (Z * list A)) (k k' : Z) (v : A) :
  Props.group_of (Seq.group_add k v d) k'
  = if (k' =? k)%Z then Props.group_of d k ++ [v] else Props.group_of d k'.
Proof.
  unfold Props.group_of. induction d as [|[k0 vs] d IH]; simpl.
  - rewrite (Z.eqb_sym k k'). now destruct (k' =? k)%Z.
  - destruct (Z.eqb_spec k k0); simpl.
    + subst k0. rewrite Z.eqb_refl.
      rewrite (Z.eqb_sym k k'). now destruct (k' =? k)%Z.
    + destruct (Z.eqb_spec k0 k'), (Z.eqb_spec k' k), (Z.eqb_spec k0 k);
        try congruence; try reflexivity.
      all: rewrite IH; destruct (Z.eqb_spec k' k); congruence.
Qed.

Lemma keys_group_add (d : list (Z * list A)) (k k' : Z) (v : A) :
  In k' (map fst (Seq.group_add k v d)) <-> k' = k \/ In k' (map fst d).
Proof.
  induction d as [|[k0 vs] d IH]; simpl.
  - intuition.
  - destruct (Z.eqb_spec k k0); simpl.
    + subst k0. intuition.
    + rewrite IH. intuition.
Qed.

Lemma nodup_group_add (d : list (Z * list A)) (k : Z) (v : A) :
  NoDup (map fst d) -> NoDup (map fst (Seq.group_add k v d)).
Proof.
  induction d as [|[k0 vs] d IH]; simpl; intros H.
  - constructor; [intros []|constructor].
  - inversion H as [|? ? Hnin Hnd]; subst.
    destruct (Z.eqb_spec k k0); simpl.
    + constructor; assumption.
    + constructor; [|auto].
      rewrite keys_group_add. intros [->|Hin]; [congruence | contradiction].
Qed.

Lemma group_of_entry (d : list (Z * list A)) (k : Z) (vs : list A) :
  NoDup (map fst d) -> In (k, vs) d -> Props.group_of d k = vs.
Proof.
  unfold Props.group_of. induction d as [|[k0 vs0] d IH]; simpl; intros Hnd Hin.
  - contradiction.
  - inversion Hnd as [|? ? Hnin Hnd']; subst.
    destruct Hin as [E|Hin].
    + injection E as -> ->. now rewrite Z.eqb_refl.
    + destruct (Z.eqb_spec k0 k).
      * subst k0. exfalso. apply Hnin. apply in_map_iff. now exists (k, vs).
      * auto.
Qed.

Lemma group_fold (pairs : list (Z * A)) : forall d : list (Z * list A),
  let d' := fold_left (fun d kv => Seq.group_add (fst kv) (snd kv) d) pairs d in
  (NoDup (map fst d) -> NoDup (map fst d'))
  /\ (forall k, In k (map fst d') <-> In k (map fst d) \/ In k (map fst pairs))
  /\ (forall k, Props.group_of d' k = Props.group_of d k ++ Props.values_at pairs k).
Proof.
  induction pairs as [|[k0 v0] pairs IH]; intros d; simpl.
  - repeat split; intros; try tauto. unfold Props.values_at. simpl.
    now rewrite app_nil_r.
  - destruct (IH (Seq.group_add k0 v0 d)) as (Hnd & Hkeys & Hgroup).
    split; [|split].
    + intros H. apply Hnd. now apply nodup_group_add.
    + intros k. rewrite Hkeys, keys_group_add. intuition.
    + intros k. rewrite Hgroup, group_of_add. unfold Props.values_at. simpl.
      rewrite (Z.eqb_sym k0 k).
      destruct (k =? k0)%Z eqn:E; simpl.
      * apply Z.eqb_eq in E. subst k0. now rewrite <- app_assoc.
      * reflexivity.
Qed.

(** The dict of lists a loop of appends builds: one entry per key that
    occurs, holding the values of that key in their order. *)
Lemma group_by_spec (pairs : list (Z * A)) :
  NoDup (map fst (Seq.group_by pairs))
  /\ (forall k, In k (map fst (Seq.group_by pairs)) <-> In k (map fst pairs))
  /\ (forall k vs, In (k, vs) (Seq.group_by pairs) ->
                   vs = Props.values_at pairs k /\ vs <> []).
Proof.
  unfold Seq.group_by.
  destruct (group_fold pairs []) as (Hnd & Hkeys & Hgroup).
  assert (Hn : NoDup (map fst
                        (fold_left
                           (fun d kv => Seq.group_add (fst kv) (snd kv) d)
                           pairs [])))
    by (apply Hnd; constructor).
  assert (Hkeys' : forall k,
            In k (map fst
                    (fold_left
                       (fun d kv => Seq.group_add (fst kv) (snd kv) d)
                       pairs []))
            <-> In k (map fst pairs)).
  { intros k. rewrite Hkeys. simpl. tauto. }
  clear Hkeys. rename Hkeys' into Hkeys.
  split; [exact Hn|]. split; [exact Hkeys|].
  intros k vs Hin.
    assert (E : vs = Props.values_at pairs k).
    { rewrite <- (group_of_entry _ _ _ Hn Hin). now rewrite Hgroup. }
    split; [exact E|].
    assert (Hk : In k (map fst pairs)).
    { apply Hkeys. apply in_map_iff. now exists (k, vs). }
    rewrite E. unfold Props.values_at.
    apply in_map_iff in Hk as ([k1 v1] & E1 & Hp). simpl in E1. subst k1.
    assert (Hf : In (k, v1) (filter (fun p => (fst p =? k)%Z) pairs)).
    { apply filter_In. split; [exact Hp|]. simpl. apply Z.eqb_refl. }
    destruct (filter (fun p => (fst p =? k)%Z) pairs); [contradiction|].
    discriminate.
Qed.

End GroupFacts.

(** ** Daily series of the analytics engine *)
Section SeriesHelpers.

Local Open Scope Q_scope.

Lemma for_each_map {A B : Type} (body : A -> result B) (g : A -> B)
    (l : list A) :
  (forall a, In a l -> body a = Ok (g a)) ->
  for_each body l = Ok (map g l).
Proof.
  induction l as [|a l IH]; intros H; simpl; [reflexivity|].
  rewrite (H a (or_introl eq_refl)), IH; [reflexivity|].
  intros b Hb. apply H. now right.
Qed.

Lemma values_at_map {R A : Type} (kf : R -> Z) (vf : R -> A) (l : list R)
    (k : Z) :
  Props.values_at (map (fun r => (kf r, vf r)) l) k
  = map vf (filter (fun r => (kf r =? k)%Z) l).
Proof.
  unfold Props.values_at. induction l as [|r l IH]; simpl; [reflexivity|].
  destruct (kf r =? k)%Z; simpl; now rewrite IH.
Qed.

(** Rounding to any number of digits stays between integer bounds. *)
Lemma round_within (a b : Z) (v : Q) (ndigits : nat) :
  inject_Z a <= v <= inject_Z b ->
  inject_Z a <= Py.round v ndigits <= inject_Z b.
Proof.
  intros [Ha Hb]. unfold Py.round.
  set (p := (10 ^ Z.of_nat ndigits)%Z).
  assert (Hp : (0 < p)%Z) by (apply Z.pow_pos_nonneg; lia).
  assert (Hq : 0 < inject_Z p) by (now rewrite <- (Zlt_Qlt 0)).
  destruct (round_half_even_between (a * p) (b * p) (v * inject_Z p))
    as [Hlo Hhi].
  { rewrite !inject_Z_mult. split.
    - apply Qmult_le_compat_r; [exact Ha | now apply Qlt_le_weak].
    - apply Qmult_le_compat_r; [exact Hb | now apply Qlt_le_weak]. }
  rewrite Zle_Qle, inject_Z_mult in Hlo, Hhi.
  split.
  - now apply Qle_shift_div_l.
  - now apply Qle_shift_div_r.
Qed.

Lemma or_half_unit (x : option Q) :
  match x with Some v => 0 <= v <= 1 | None => True end ->
  0 <= Analytics.or_half x <= 1.
Proof.
  unfold Analytics.or_half. destruct x as [v|]; [|intros _; lra].
  intros H. destruct (Qeq_bool v 0); lra.
Qed.

End SeriesHelpers.

Section DailyMoodFacts.

Local Open Scope Q_scope.

(** The daily mood series of the analytics engine raises
    [OverflowError] when the look-back cannot be subtracted from the
    current time, and only then.  Otherwise it holds one point per
    calendar date on which the user has a record in the window, in
    strictly ascending order of date; the count of a point is the number
    of records of that date, at least one; and when the stored
    intensities lie between 0 and 1, so does the rounded average of every
    point. *)
Theorem daily_mood_series (db : list EmotionHistory) (user_id : Z)
    (now : datetime) (days : Z) :
  let records := Analytics.query db user_id (cutoff_date now days) in
  (Props.representable now days = false ->
   AnalyticsSeries.get_daily_mood_data db user_id now days
   = Raise "OverflowError")
  /\ (Props.representable now days = true ->
      exists points,
        AnalyticsSeries.get_daily_mood_data db user_id now days = Ok points
        /\ StronglySorted
             (fun a b =>
                (AnalyticsSeries.mp_date a < AnalyticsSeries.mp_date b)%Z)
             points
        /\ (forall d,
              In d (map AnalyticsSeries.mp_date points)
              <-> In d (map (fun r => date (eh_timestamp r)) records))
        /\ Forall
             (fun p =>
                AnalyticsSeries.mp_count p
                = List.length
                    (filter (fun r => (date (eh_timestamp r)
                                       =? AnalyticsSeries.mp_date p)%Z) records)
                /\ (1 <= AnalyticsSeries.mp_count p)%nat)
             points
        /\ (Forall (fun r => match eh_intensity r with
                             | Some v => 0 <= v <= 1
                             | None => True
                             end) records ->
            Forall (fun p => 0 <= AnalyticsSeries.mp_intensity p <= 1) points)).
Proof.
  intros records. unfold AnalyticsSeries.get_daily_mood_data.
  split; intros Hdays.
  { now rewrite (utcnow_minus_overflow now days Hdays). }
  rewrite (utcnow_minus_representable now days Hdays). cbn [bind].
  clear Hdays. fold records.
  destruct records as [|r0 rs] eqn:E.
  { exists []. split; [reflexivity|]. split; [constructor|].
    split; [simpl; tauto|]. split; [constructor|]. intros _. constructor. }
  rewrite <- E. clear E r0 rs.
  set (pairs := map (fun emotion =>
                       (date (eh_timestamp emotion),
                        Analytics.or_half (eh_intensity emotion))) records).
  destruct (group_by_spec pairs) as (Hnd & Hkeys & Hgroups).
  set (g := fun entry : Z * list Q =>
              {| AnalyticsSeries.mp_date := fst entry;
                 AnalyticsSeries.mp_intensity :=
                   Py.round (Py.sum (snd entry) / Py.len (snd entry)) 2;
                 AnalyticsSeries.mp_count := List.length (snd entry) |}).
  rewrite (for_each_map _ g).
  2:{ intros [k vs] Hin. destruct (Hgroups k vs Hin) as [_ Hne]. simpl.
      assert (Hlen : ~ Py.len vs == 0).
      { unfold Py.len. apply inject_nat_nonzero.
        destruct vs; [contradiction | simpl; lia]. }
      now rewrite (truediv_nonzero _ _ Hlen). }
  cbn [bind]. eexists. split; [reflexivity|].
  assert (Hdates : map AnalyticsSeries.mp_date (map g (Seq.group_by pairs))
                   = map fst (Seq.group_by pairs))
    by (rewrite map_map; reflexivity).
  assert (Hpairs : map fst pairs = map (fun r => date (eh_timestamp r)) records)
    by (unfold pairs; rewrite map_map; reflexivity).
  assert (Hperm := sorted_by_perm AnalyticsSeries.mp_date
                     (map g (Seq.group_by pairs))).
  assert (Hpoint : forall p,
            In p (Seq.sorted_by AnalyticsSeries.mp_date
                    (map g (Seq.group_by pairs))) ->
            exists k vs, In (k, vs) (Seq.group_by pairs) /\ p = g (k, vs)).
  { intros p Hp. apply (Permutation_in _ Hperm) in Hp.
    apply in_map_iff in Hp as ([k vs] & <- & Hin). eauto. }
  split; [|split; [|split]].
  - apply sorted_by_strict. now rewrite Hdates.
  - intros d. rewrite <- Hpairs, <- Hkeys, <- Hdates.
    split; apply Permutation_in; apply Permutation_map;
      [exact Hperm | symmetry; exact Hperm].
  - apply Forall_forall. intros p Hp.
    destruct (Hpoint p Hp) as (k & vs & Hin & ->).
    destruct (Hgroups k vs Hin) as [Hvs Hne]. simpl.
    split; [|destruct vs; [contradiction | simpl; lia]].
    rewrite Hvs. unfold pairs. rewrite values_at_map. apply length_map.
  - intros Hrange. apply Forall_forall. intros p Hp.
    destruct (Hpoint p Hp) as (k & vs & Hin & ->).
    destruct (Hgroups k vs Hin) as [Hvs Hne]. simpl.
    apply (round_within 0 1).
    assert (Hin01 : Props.all_within 0 1 vs).
    { rewrite Hvs. unfold pairs. rewrite values_at_map.
      apply Forall_forall. intros v Hv.
      apply in_map_iff in Hv as (r & <- & Hr).
      apply filter_In in Hr as [Hr _]. apply or_half_unit.
      rewrite Forall_forall in Hrange. now apply Hrange. }
    destruct (average_within 0 1 vs Hne Hin01) as (avg & Havg & Hb).
    assert (Hlen : ~ Py.len vs == 0).
    { unfold Py.len. apply inject_nat_nonzero.
      destruct vs; [contradiction | simpl; lia]. }
    rewrite (truediv_nonzero _ _ Hlen) in Havg. injection Havg as <-.
    exact Hb.
Qed.

End DailyMoodFacts.

(** The sample history, over a million days and over thirty. *)
Lemma daily_mood_series_witness :
  AnalyticsSeries.get_daily_mood_data Samples.history 1 Samples.now 1000000
  = Raise "OverflowError"
  /\ exists points,
       AnalyticsSeries.get_daily_mood_data Samples.history 1 Samples.now
         Samples.days = Ok points
       /\ StronglySorted
            (fun a b =>
               (AnalyticsSeries.mp_date a < AnalyticsSeries.mp_date b)%Z)
            points.
Proof.
  split.
  - apply (proj1 (daily_mood_series Samples.history 1 Samples.now 1000000)).
    reflexivity.
  - destruct (proj2 (daily_mood_series Samples.history 1 Samples.now
                       Samples.days) eq_refl)
      as (points & Hp & Hs & _).
    exists points. split; [exact Hp | exact Hs].
Defined.

(** ** Sentiment trends *)
Section SentimentTrendFacts.

Local Open Scope Q_scope.

Lemma analytics_dated_sentiments (rs : list EmotionHistory) :
  map snd (AnalyticsSeries.dated_sentiments rs)
  = Analytics.not_none (map eh_sentiment_score rs)
  /\ forall d,
       In d (map fst (AnalyticsSeries.dated_sentiments rs))
       <-> exists r, In r rs /\ eh_sentiment_score r <> None
                     /\ date (eh_timestamp r) = d.
Proof.
  induction rs as [|r rs [IHv IHd]]; simpl.
  - split; [reflexivity|]. intros d. split; [intros [] | intros (r & [] & _)].
  - destruct (eh_sentiment_score r) as [v|] eqn:Ev; simpl.
    + split; [now rewrite IHv|]. intros d. rewrite IHd. split.
      * intros [<-|(r' & Hr' & Hs & Hd)].
        -- exists r. rewrite Ev. repeat split; [now left | discriminate].
        -- exists r'. auto.
      * intros (r' & [<-|Hr'] & Hs & Hd); [now left|]. right. eauto.
    + split; [exact IHv|]. intros d. rewrite IHd. split.
      * intros (r' & Hr' & Hs & Hd). exists r'. auto.
      * intros (r' & [<-|Hr'] & Hs & Hd); [congruence|]. eauto.
Qed.

Lemma routes_dated_sentiments (cs : list Conversation) :
  map snd (RoutesSeries.dated_sentiments cs)
  = Analytics.not_none (map cv_sentiment_score cs)
  /\ forall d,
       In d (map fst (RoutesSeries.dated_sentiments cs))
       <-> exists c, In c cs /\ cv_sentiment_score c <> None
                     /\ date (cv_timestamp c) = d.
Proof.
  induction cs as [|c cs [IHv IHd]]; simpl.
  - split; [reflexivity|]. intros d. split; [intros [] | intros (c & [] & _)].
  - destruct (cv_sentiment_score c) as [v|] eqn:Ev; simpl.
    + split; [now rewrite IHv|]. intros d. rewrite IHd. split.
      * intros [<-|(c' & Hc' & Hs & Hd)].
        -- exists c. rewrite Ev. repeat split; [now left | discriminate].
        -- exists c'. auto.
      * intros (c' & [<-|Hc'] & Hs & Hd); [now left|]. right. eauto.
    + split; [exact IHv|]. intros d. rewrite IHd. split.
      * intros (c' & Hc' & Hs & Hd). exists c'. auto.
      * intros (c' & [<-|Hc'] & Hs & Hd); [congruence|]. eauto.
Qed.

(** The scores grouped under one date are scores of the pairs. *)
Lemma group_values_within (lo hi : Q) (pairs : list (Z * Q)) (k : Z)
    (vs : list Q) :
  Props.all_within lo hi (map snd pairs) ->
  In (k, vs) (Seq.group_by pairs) ->
  vs <> [] /\ Props.all_within lo hi vs.
Proof.
  intros Hin Hg. destruct (group_by_spec pairs) as (_ & _ & Hgroups).
  destruct (Hgroups k vs Hg) as [-> Hne]. split; [exact Hne|].
  unfold Props.values_at. apply Forall_forall. intros v Hv.
  apply in_map_iff in Hv as (p & <- & Hp). apply filter_In in Hp as [Hp _].
  unfold Props.all_within in Hin. rewrite Forall_forall in Hin.
  apply Hin. now apply in_map.
Qed.

Lemma group_average_returns (pairs : list (Z * Q)) (k : Z) (vs : list Q) :
  In (k, vs) (Seq.group_by pairs) ->
  truediv (Py.sum vs) (Py.len vs) = Ok (Py.sum vs / Py.len vs).
Proof.
  intros Hg. destruct (group_by_spec pairs) as (_ & _ & Hgroups).
  destruct (Hgroups k vs Hg) as [_ Hne].
  apply truediv_nonzero. unfold Py.len. apply inject_nat_nonzero.
  destruct vs; [contradiction | simpl; lia].
Qed.

Lemma group_average_within (lo hi : Q) (pairs : list (Z * Q)) (k : Z)
    (vs : list Q) :
  Props.all_within lo hi (map snd pairs) ->
  In (k, vs) (Seq.group_by pairs) ->
  lo <= Py.sum vs / Py.len vs <= hi.
Proof.
  intros Hin Hg. destruct (group_values_within lo hi pairs k vs Hin Hg)
    as [Hne Hvs].
  destruct (average_within lo hi vs Hne Hvs) as (avg & Havg & Hb).
  rewrite (group_average_returns pairs k vs Hg) in Havg.
  injection Havg as <-. exact Hb.
Qed.

(** The sentiment trend of the analytics engine and the endpoint of
    routes.py raise [OverflowError] when the look-back cannot be
    subtracted from the current time, and only then.  Otherwise the
    engine's trend holds one point per calendar date on which a record of
    the window carries a sentiment score, in strictly ascending order of
    date, and when the stored scores lie between -1 and 1 so does every
    rounded daily average; the endpoint has the same properties for its
    unrounded daily averages. *)
Theorem sentiment_trend_series (db : list EmotionHistory)
    (conversations : list Conversation) (user_id : Z) (now : datetime)
    (days : Z) :
  let records := Analytics.query db user_id (cutoff_date now days) in
  let messages :=
    Routes.user_messages conversations user_id (cutoff_date now days) in
  (Props.representable now days = false ->
   AnalyticsSeries.get_sentiment_trends db user_id now days
   = Raise "OverflowError"
   /\ RoutesSeries.sentiment_trends conversations user_id now days
      = Raise "OverflowError")
  /\ (Props.representable now days = true ->
      (exists points,
          AnalyticsSeries.get_sentiment_trends db user_id now days = Ok points
          /\ StronglySorted
               (fun a b =>
                  (AnalyticsSeries.sp_date a < AnalyticsSeries.sp_date b)%Z)
               points
          /\ (forall d,
                In d (map AnalyticsSeries.sp_date points)
                <-> exists r, In r records /\ eh_sentiment_score r <> None
                              /\ date (eh_timestamp r) = d)
          /\ (Props.all_within (-1) 1
                (Analytics.not_none (map eh_sentiment_score records)) ->
              Forall (fun p => -1 <= AnalyticsSeries.sp_sentiment p <= 1)
                points))
      /\ (exists points,
            RoutesSeries.sentiment_trends conversations user_id now days
            = Ok points
            /\ StronglySorted
                 (fun a b => (RoutesSeries.x a < RoutesSeries.x b)%Z) points
            /\ (forall d,
                  In d (map (@RoutesSeries.x Q) points)
                  <-> exists c, In c messages /\ cv_sentiment_score c <> None
                                /\ date (cv_timestamp c) = d)
            /\ (Props.all_within (-1) 1
                  (Analytics.not_none (map cv_sentiment_score messages)) ->
                Forall (fun p => -1 <= RoutesSeries.y p <= 1) points))).
Proof.
  intros records messages.
  unfold AnalyticsSeries.get_sentiment_trends, RoutesSeries.sentiment_trends.
  split; intros Hdays.
  { now rewrite (utcnow_minus_overflow now days Hdays). }
  rewrite (utcnow_minus_representable now days Hdays). cbn [bind].
  clear Hdays. split.
  - fold records.
    destruct (analytics_dated_sentiments records) as [Hvals Hdates].
    set (pairs := AnalyticsSeries.dated_sentiments records) in *.
    destruct pairs as [|p0 ps] eqn:E.
    { exists []. split; [reflexivity|]. split; [constructor|].
      split; [exact Hdates|]. intros _. constructor. }
    rewrite <- E in *. clear E p0 ps.
    destruct (group_by_spec pairs) as (Hnd & Hkeys & Hgroups).
    set (g := fun entry : Z * list Q =>
                {| AnalyticsSeries.sp_date := fst entry;
                   AnalyticsSeries.sp_sentiment :=
                     Py.round (Py.sum (snd entry) / Py.len (snd entry)) 3 |}).
    rewrite (for_each_map _ g).
    2:{ intros [k vs] Hin. simpl.
        now rewrite (group_average_returns pairs k vs Hin). }
    cbn [bind]. eexists. split; [reflexivity|].
    assert (Hd : map AnalyticsSeries.sp_date (map g (Seq.group_by pairs))
                 = map fst (Seq.group_by pairs))
      by (rewrite map_map; reflexivity).
    assert (Hperm := sorted_by_perm AnalyticsSeries.sp_date
                       (map g (Seq.group_by pairs))).
    split; [|split].
    + apply sorted_by_strict. now rewrite Hd.
    + intros d. rewrite <- Hdates, <- Hkeys, <- Hd.
      split; apply Permutation_in; apply Permutation_map;
        [exact Hperm | symmetry; exact Hperm].
    + intros Hrange. rewrite <- Hvals in Hrange.
      apply Forall_forall. intros p Hp.
      apply (Permutation_in _ Hperm) in Hp.
      apply in_map_iff in Hp as ([k vs] & <- & Hin). simpl.
      apply round3_unit_interval.
      now apply (group_average_within (-1) 1 pairs k vs).
  - fold messages.
    destruct (routes_dated_sentiments messages) as [Hvals Hdates].
    set (pairs := RoutesSeries.dated_sentiments messages) in *.
    destruct (group_by_spec pairs) as (Hnd & Hkeys & Hgroups).
    set (g := fun item : Z * list Q =>
                {| RoutesSeries.x := fst item;
                   RoutesSeries.y := Py.sum (snd item) / Py.len (snd item) |}).
    assert (Hperm := sorted_by_perm fst (Seq.group_by pairs)).
    rewrite (for_each_map _ g).
    2:{ intros [k vs] Hin. apply (Permutation_in _ Hperm) in Hin. simpl.
        now rewrite (group_average_returns pairs k vs Hin). }
    eexists. split; [reflexivity|].
    assert (Hd : forall l : list (Z * list Q),
              map (@RoutesSeries.x Q) (map g l) = map fst l)
      by (intros l; rewrite map_map; reflexivity).
    split; [|split].
    + assert (Hs := sorted_by_strict fst (Seq.group_by pairs) Hnd).
      revert Hs. generalize (Seq.sorted_by fst (Seq.group_by pairs)).
      induction 1 as [|a l Hl IH Ha]; simpl; constructor; [exact IH|].
      rewrite Forall_forall in *. intros p Hp.
      apply in_map_iff in Hp as (b & <- & Hb). simpl. now apply Ha.
    + intros d. rewrite <- Hdates, <- Hkeys, Hd.
      split; apply Permutation_in; apply Permutation_map;
        [exact Hperm | symmetry; exact Hperm].
    + intros Hrange. rewrite <- Hvals in Hrange.
      apply Forall_forall. intros p Hp.
      apply in_map_iff in Hp as ([k vs] & <- & Hin).
      apply (Permutation_in _ Hperm) in Hin. simpl.
      now apply (group_average_within (-1) 1 pairs k vs).
Qed.

End SentimentTrendFacts.

(** The sample history and messages, over a million days and over
    thirty. *)
Lemma sentiment_trend_series_witness :
  (AnalyticsSeries.get_sentiment_trends Samples.history 1 Samples.now 1000000
   = Raise "OverflowError"
   /\ RoutesSeries.sentiment_trends Samples.conversations 1 Samples.now 1000000
      = Raise "OverflowError")
  /\ (exists points,
        AnalyticsSeries.get_sentiment_trends Samples.history 1 Samples.now
          Samples.days = Ok points
        /\ StronglySorted
             (fun a b =>
                (AnalyticsSeries.sp_date a < AnalyticsSeries.sp_date b)%Z)
             points)
  /\ (exists points,
        RoutesSeries.sentiment_trends Samples.conversations 1 Samples.now
          Samples.days = Ok points
        /\ StronglySorted
             (fun a b => (RoutesSeries.x a < RoutesSeries.x b)%Z) points).
Proof.
  split.
  - apply (proj1 (sentiment_trend_series Samples.history Samples.conversations
                    1 Samples.now 1000000)).
    reflexivity.
  - destruct (proj2 (sentiment_trend_series Samples.history
                       Samples.conversations 1 Samples.now Samples.days)
                eq_refl)
      as [(points & Hp & Hs & _) (points' & Hp' & Hs' & _)].
    split; [exists points | exists points']; split; assumption.
Defined.

(** ** The mood heatmap of routes.py *)
Section HeatmapFacts.

Local Open Scope Q_scope.

Lemma emotion_value_range (emotion : string) :
  -0.8 <= RoutesSeries.emotion_value emotion <= 1.
Proof.
  unfold RoutesSeries.emotion_value. cbn [find fst snd].
  repeat match goal with
         | |- context [if ?b then _ else _] => destruct b
         end; cbn [snd]; split; discriminate.
Qed.

Lemma not_none_in (xs : list (option Q)) (v : Q) :
  In (Some v) xs -> In v (Analytics.not_none xs).
Proof.
  induction xs as [|[w|] xs IH]; simpl; [tauto| |].
  - intros [E|H]; [injection E as ->; now left | right; auto].
  - intros [E|H]; [discriminate | auto].
Qed.

(** The mood value of one message does not raise and, for a sentiment
    between -1 and 1, lies between -1 and 1. *)
Lemma mood_value_returns (emotion : string) (sentiment : option Q) :
  exists value,
    RoutesSeries.mood_value emotion sentiment = Ok value
    /\ (match sentiment with
        | Some s => -1 <= s <= 1
        | None => True
        end -> -1 <= value <= 1).
Proof.
  pose proof (emotion_value_range emotion) as He.
  unfold RoutesSeries.mood_value. destruct sentiment as [s|].
  - destruct (Qeq_bool s 0).
    + eexists. split; [reflexivity|]. intros _. lra.
    + rewrite truediv_nonzero by discriminate.
      eexists. split; [reflexivity|]. intros Hs.
      split; [apply Qle_shift_div_l | apply Qle_shift_div_r];
        try reflexivity; lra.
  - eexists. split; [reflexivity|]. intros _. lra.
Qed.

(** The heatmap endpoint [daily_mood] of routes.py raises
    [OverflowError] when the look-back cannot be subtracted from the
    current time, and only then.  Otherwise it holds one value per
    calendar date on which the user sent a message with an emotion, and
    when the stored sentiment scores lie between -1 and 1 every daily
    value lies between -1 and 1. *)
Theorem daily_mood_heatmap (db : list Conversation) (user_id : Z)
    (now : datetime) (days : Z) :
  let messages := Routes.user_messages db user_id (cutoff_date now days) in
  (Props.representable now days = false ->
   RoutesSeries.daily_mood db user_id now days = Raise "OverflowError")
  /\ (Props.representable now days = true ->
      exists heatmap,
        RoutesSeries.daily_mood db user_id now days = Ok heatmap
        /\ NoDup (map fst heatmap)
        /\ (forall d,
              In d (map fst heatmap)
              <-> exists c, In c messages /\ cv_emotion c <> None
                            /\ date (cv_timestamp c) = d)
        /\ (Props.all_within (-1) 1
              (Analytics.not_none (map cv_sentiment_score messages)) ->
            Forall (fun entry => -1 <= snd entry <= 1) heatmap)).
Proof.
  intros messages. unfold RoutesSeries.daily_mood.
  split; intros Hdays.
  { now rewrite (utcnow_minus_overflow now days Hdays). }
  rewrite (utcnow_minus_representable now days Hdays). cbn [bind].
  clear Hdays. fold messages.
  set (rows := RoutesSeries.with_emotion messages).
  set (emotion_of := fun c : Conversation =>
                       match cv_emotion c with Some e => e | None => "" end).
  assert (Hmood : exists mv : Conversation -> Q,
            (forall c, RoutesSeries.mood_value (emotion_of c)
                         (cv_sentiment_score c) = Ok (mv c))
            /\ (forall c, match cv_sentiment_score c with
                          | Some s => -1 <= s <= 1
                          | None => True
                          end -> -1 <= mv c <= 1)).
  { exists (fun c => match RoutesSeries.mood_value (emotion_of c)
                             (cv_sentiment_score c) with
                     | Ok v => v
                     | Raise _ => 0
                     end).
    split; intros c;
      destruct (mood_value_returns (emotion_of c) (cv_sentiment_score c))
        as (v & -> & Hv); [reflexivity | exact Hv]. }
  destruct Hmood as (mv & Hmv & Hrange).
  rewrite (for_each_map _ (fun c => (date (cv_timestamp c), mv c))).
  2:{ intros c _. fold (emotion_of c). now rewrite Hmv. }
  cbn [bind].
  set (pairs := map (fun c => (date (cv_timestamp c), mv c)) rows).
  destruct (group_by_spec pairs) as (Hnd & Hkeys & Hgroups).
  rewrite (for_each_map _
             (fun entry => (fst entry, Py.sum (snd entry) / Py.len (snd entry)))).
  2:{ intros [k vs] Hin. simpl.
      now rewrite (group_average_returns pairs k vs Hin). }
  eexists. split; [reflexivity|].
  rewrite map_map. simpl.
  split; [exact Hnd|]. split.
  - intros d. rewrite Hkeys. unfold pairs. rewrite map_map. simpl.
    rewrite in_map_iff. unfold rows, RoutesSeries.with_emotion. split.
    + intros (c & <- & Hc). apply filter_In in Hc as [Hc He].
      exists c. repeat split; [exact Hc|].
      destruct (cv_emotion c); [discriminate | discriminate He].
    + intros (c & Hc & He & <-). exists c. split; [reflexivity|].
      apply filter_In. split; [exact Hc|]. now destruct (cv_emotion c).
  - intros Hin. apply Forall_forall. intros e He.
    apply in_map_iff in He as ([k vs] & <- & Hg). simpl.
    apply (group_average_within (-1) 1 pairs k vs); [|exact Hg].
    unfold pairs. rewrite map_map. simpl.
    apply Forall_forall. intros v Hv.
    apply in_map_iff in Hv as (c & <- & Hc). apply Hrange.
    destruct (cv_sentiment_score c) as [s|] eqn:Es; [|exact I].
    unfold Props.all_within in Hin. rewrite Forall_forall in Hin.
    apply Hin. apply not_none_in. rewrite <- Es. apply in_map.
    unfold rows, RoutesSeries.with_emotion in Hc.
    now apply filter_In in Hc as [Hc _].
Qed.

End HeatmapFacts.

(** The sample messages, over a million days and over thirty. *)
Lemma daily_mood_heatmap_witness :
  RoutesSeries.daily_mood Samples.conversations 1 Samples.now 1000000
  = Raise "OverflowError"
  /\ exists heatmap,
       RoutesSeries.daily_mood Samples.conversations 1 Samples.now Samples.days
       = Ok heatmap
       /\ NoDup (map fst heatmap).
Proof.
  split.
  - apply (proj1 (daily_mood_heatmap Samples.conversations 1 Samples.now
                    1000000)).
    reflexivity.
  - destruct (proj2 (daily_mood_heatmap Samples.conversations 1 Samples.now
                       Samples.days) eq_refl)
      as (heatmap & Hh & Hn & _).
    exists heatmap. split; [exact Hh | exact Hn].
Defined.

(** ** Emotion trends of routes.py *)
Section TallyFacts.

Import TrendProps.

Lemma tally_of_add (d : list (Z * nat)) (k k' : Z) :
  tally_of (Seq.tally_add k d) k'
  = if (k' =? k)%Z then S (tally_of d k) else tally_of d k'.
Proof.
  unfold tally_of. induction d as [|[k0 n] d IH]; simpl.
  - rewrite (Z.eqb_sym k k'). now destruct (k' =? k)%Z.
  - destruct (Z.eqb_spec k k0); simpl.
    + subst k0. rewrite Z.eqb_refl.
      rewrite (Z.eqb_sym k k'). now destruct (k' =? k)%Z.
    + destruct (Z.eqb_spec k0 k'), (Z.eqb_spec k' k), (Z.eqb_spec k0 k);
        try congruence; try reflexivity.
      all: rewrite IH; destruct (Z.eqb_spec k' k); congruence.
Qed.

Lemma keys_tally_add (d : list (Z * nat)) (k k' : Z) :
  In k' (map fst (Seq.tally_add k d)) <-> k' = k \/ In k' (map fst d).
Proof.
  induction d as [|[k0 n] d IH]; simpl.
  - intuition.
  - destruct (Z.eqb_spec k k0); simpl.
    + subst k0. intuition.
    + rewrite IH. intuition.
Qed.

Lemma nodup_tally_add (d : list (Z * nat)) (k : Z) :
  NoDup (map fst d) -> NoDup (map fst (Seq.tally_add k d)).
Proof.
  induction d as [|[k0 n] d IH]; simpl; intros H.
  - constructor; [intros []|constructor].
  - inversion H as [|? ? Hnin Hnd]; subst.
    destruct (Z.eqb_spec k k0); simpl.
    + constructor; assumption.
    + constructor; [|auto].
      rewrite keys_tally_add. intros [->|Hin]; [congruence | contradiction].
Qed.

Lemma positive_tally_add (d : list (Z * nat)) (k : Z) :
  Forall (fun entry => 0 < snd entry) d ->
  Forall (fun entry => 0 < snd entry) (Seq.tally_add k d).
Proof.
  induction d as [|[k0 n] d IH]; simpl; intros H.
  - repeat constructor.
  - inversion H; subst.
    destruct (k =? k0)%Z; constructor; simpl in *; auto; lia.
Qed.

Lemma tally_of_entry (d : list (Z * nat)) (k : Z) (n : nat) :
  NoDup (map fst d) -> In (k, n) d -> tally_of d k = n.
Proof.
  unfold tally_of. induction d as [|[k0 n0] d IH]; simpl; intros Hnd Hin.
  - contradiction.
  - inversion Hnd as [|? ? Hnin Hnd']; subst.
    destruct Hin as [E|Hin].
    + injection E as -> ->. now rewrite Z.eqb_refl.
    + destruct (Z.eqb_spec k0 k).
      * subst k0. exfalso. apply Hnin. apply in_map_iff. now exists (k, n).
      * auto.
Qed.

Lemma inner_of_add (d : list (string * list (Z * nat))) (e e' : string)
    (k : Z) :
  inner_of (Seq.nested_tally_add e k d) e'
  = if (e' =? e)%string then Seq.tally_add k (inner_of d e) else inner_of d e'.
Proof.
  unfold inner_of. induction d as [|[e0 inner] d IH]; simpl.
  - rewrite (String.eqb_sym e e'). now destruct (e' =? e)%string.
  - destruct (String.eqb_spec e e0); simpl.
    + subst e0. rewrite String.eqb_refl.
      rewrite (String.eqb_sym e e'). now destruct (e' =? e)%string.
    + destruct (String.eqb_spec e0 e'), (String.eqb_spec e' e),
        (String.eqb_spec e0 e); try congruence; try reflexivity.
      all: rewrite IH; destruct (String.eqb_spec e' e); congruence.
Qed.

Lemma keys_nested_add (d : list (string * list (Z * nat))) (e e' : string)
    (k : Z) :
  In e' (map fst (Seq.nested_tally_add e k d)) <-> e' = e \/ In e' (map fst d).
Proof.
  induction d as [|[e0 inner] d IH]; simpl.
  - intuition.
  - destruct (String.eqb_spec e e0); simpl.
    + subst e0. intuition.
    + rewrite IH. intuition.
Qed.

Lemma nodup_nested_add (d : list (string * list (Z * nat))) (e : string)
    (k : Z) :
  NoDup (map fst d) -> NoDup (map fst (Seq.nested_tally_add e k d)).
Proof.
  induction d as [|[e0 inner] d IH]; simpl; intros H.
  - constructor; [intros []|constructor].
  - inversion H as [|? ? Hnin Hnd]; subst.
    destruct (String.eqb_spec e e0); simpl.
    + constructor; assumption.
    + constructor; [|auto].
      rewrite keys_nested_add. intros [->|Hin]; [congruence | contradiction].
Qed.

Lemma inner_of_entry (d : list (string * list (Z * nat))) (e : string)
    (inner : list (Z * nat)) :
  NoDup (map fst d) -> In (e, inner) d -> inner_of d e = inner.
Proof.
  unfold inner_of. induction d as [|[e0 i0] d IH]; simpl; intros Hnd Hin.
  - contradiction.
  - inversion Hnd as [|? ? Hnin Hnd']; subst.
    destruct Hin as [E|Hin].
    + injection E as -> ->. now rewrite String.eqb_refl.
    + destruct (String.eqb_spec e0 e).
      * subst e0. exfalso. apply Hnin. apply in_map_iff. now exists (e, inner).
      * auto.
Qed.

(** The nested dict after tallying [rows] into [d]. *)
Lemma nested_fold (rows : list (string * Z)) :
  forall d : list (string * list (Z * nat)),
  let d' :=
    fold_left (fun d row => Seq.nested_tally_add (fst row) (snd row) d) rows d in
  (NoDup (map fst d) -> NoDup (map fst d'))
  /\ (forall e, In e (map fst d') <-> In e (map fst d) \/ In e (map fst rows))
  /\ ((forall e, NoDup (map fst (inner_of d e))
                 /\ Forall (fun entry => 0 < snd entry) (inner_of d e)) ->
      forall e, NoDup (map fst (inner_of d' e))
                /\ Forall (fun entry => 0 < snd entry) (inner_of d' e))
  /\ (forall e k, tally_of (inner_of d' e) k
                  = tally_of (inner_of d e) k + rows_at rows e k).
Proof.
  induction rows as [|[e0 k0] rows IH]; intros d; simpl.
  - repeat split; intros; try tauto; try apply H. unfold rows_at. simpl. lia.
  - destruct (IH (Seq.nested_tally_add e0 k0 d)) as (Hnd & Hkeys & Hinv & Hcount).
    split; [|split; [|split]].
    + intros H. apply Hnd. now apply nodup_nested_add.
    + intros e. rewrite Hkeys, keys_nested_add. intuition.
    + intros H e. apply Hinv. intros e'. rewrite inner_of_add.
      destruct (e' =? e0)%string; [|apply H].
      destruct (H e0) as [Hn Hp].
      split; [now apply nodup_tally_add | now apply positive_tally_add].
    + intros e k. rewrite Hcount, inner_of_add. unfold rows_at. simpl.
      rewrite (String.eqb_sym e0 e), (Z.eqb_sym k0 k).
      destruct (String.eqb_spec e e0); simpl.
      * subst e0. rewrite tally_of_add.
        destruct (k =? k0)%Z eqn:Ek; simpl; [|lia].
        apply Z.eqb_eq in Ek. subst k0. lia.
      * lia.
Qed.

End TallyFacts.

Section EmotionTrendFacts.

Import TrendProps.

Lemma StronglySorted_map {A B : Type} (R : A -> A -> Prop)
    (R' : B -> B -> Prop) (f : A -> B) (l : list A) :
  (forall a b, R a b -> R' (f a) (f b)) ->
  StronglySorted R l -> StronglySorted R' (map f l).
Proof.
  intros Hf. induction 1 as [|a l Hl IH Ha]; simpl; constructor; [exact IH|].
  rewrite Forall_forall in *. intros b Hb.
  apply in_map_iff in Hb as (c & <- & Hc). apply Hf. now apply Ha.
Qed.

Lemma tally_of_positive_key (d : list (Z * nat)) (k : Z) :
  0 < tally_of d k -> In k (map fst d).
Proof.
  unfold tally_of.
  destruct (find (fun entry => (fst entry =? k)%Z) d) as [[k' n]|] eqn:E;
    [|simpl; lia].
  intros _. apply find_some in E as [Hin Hk]. simpl in Hk.
  apply Z.eqb_eq in Hk. subst k'. apply in_map_iff. now exists (k, n).
Qed.

Lemma rows_at_positive (rows : list (string * Z)) (e : string) (k : Z) :
  0 < rows_at rows e k <-> In (e, k) rows.
Proof.
  unfold rows_at. split.
  - intros H.
    destruct (filter (fun row => ((fst row =? e)%string && (snd row =? k)%Z)%bool)
                rows) as [|[e' k'] l] eqn:E; [simpl in H; lia|].
    assert (Hin : In (e', k')
                    (filter (fun row => ((fst row =? e)%string
                                         && (snd row =? k)%Z)%bool) rows))
      by (rewrite E; now left).
    apply filter_In in Hin as [Hin Hc]. simpl in Hc.
    apply andb_true_iff in Hc as [He Hk].
    apply String.eqb_eq in He. apply Z.eqb_eq in Hk. now subst.
  - intros Hin.
    assert (Hf : In (e, k)
                   (filter (fun row => ((fst row =? e)%string
                                        && (snd row =? k)%Z)%bool) rows)).
    { apply filter_In. split; [exact Hin|]. simpl.
      now rewrite String.eqb_refl, Z.eqb_refl. }
    destruct (filter _ rows); [contradiction | simpl; lia].
Qed.

(** The emotion-trend endpoint of routes.py holds one series per emotion
    that occurs among the user's messages of the window; each series is
    in strictly ascending order of date, has a point exactly for the
    dates on which that emotion occurred, and the value of a point is the
    number of messages with that emotion on that date, never zero. *)
Theorem emotion_trend_series (db : list Conversation) (user_id : Z)
    (now : datetime) (days : Z) :
  let rows :=
    RoutesSeries.dated_emotions
      (Routes.user_messages db user_id (cutoff_date now days)) in
  let trends := RoutesSeries.emotion_trends db user_id now days in
  NoDup (map fst trends)
  /\ (forall e, In e (map fst trends) <-> In e (map fst rows))
  /\ (forall e series,
        In (e, series) trends ->
        StronglySorted (fun a b => (RoutesSeries.x a < RoutesSeries.x b)%Z)
          series
        /\ (forall k, In k (map (@RoutesSeries.x nat) series) <-> In (e, k) rows)
        /\ Forall (fun p => RoutesSeries.y p = rows_at rows e (RoutesSeries.x p)
                            /\ 1 <= RoutesSeries.y p) series).
Proof.
  intros rows trends. unfold trends, RoutesSeries.emotion_trends. fold rows.
  destruct (nested_fold rows []) as (Hnd & Hkeys & Hinv & Hcount).
  set (d := fold_left
              (fun d row => Seq.nested_tally_add (fst row) (snd row) d) rows [])
    in *.
  assert (Hn : NoDup (map fst d)) by (apply Hnd; constructor).
  assert (Hi : forall e, NoDup (map fst (inner_of d e))
                         /\ Forall (fun entry => 0 < snd entry) (inner_of d e)).
  { apply Hinv. intros e. split; constructor. }
  rewrite map_map. simpl.
  split; [exact Hn|]. split.
  { intros e. rewrite Hkeys. simpl. tauto. }
  intros e series Hin.
  apply in_map_iff in Hin as ([e' inner] & E & Hin). simpl in E.
  injection E as -> <-.
  pose proof (inner_of_entry d e inner Hn Hin) as Einner.
  destruct (Hi e) as [Hni Hpos]. rewrite Einner in Hni, Hpos.
  assert (Hperm := sorted_by_perm fst inner).
  assert (Hval : forall k n, In (k, n) inner -> n = rows_at rows e k).
  { intros k n Hk. rewrite <- (tally_of_entry inner k n Hni Hk).
    rewrite <- Einner, Hcount. reflexivity. }
  split; [|split].
  - apply (StronglySorted_map (fun a b : Z * nat => (fst a < fst b)%Z));
      [auto | now apply sorted_by_strict].
  - intros k. rewrite map_map. simpl. rewrite <- rows_at_positive. split.
    + intros Hk. apply (Permutation_in _ (Permutation_map fst Hperm)) in Hk.
      apply in_map_iff in Hk as ([k' n] & Ek & Hk). simpl in Ek. subst k'.
      rewrite <- (Hval k n Hk). rewrite Forall_forall in Hpos.
      apply (Hpos (k, n) Hk).
    + intros Hk.
      apply (Permutation_in _ (Permutation_sym (Permutation_map fst Hperm))).
      apply tally_of_positive_key. rewrite <- Einner, Hcount. simpl. exact Hk.
  - apply Forall_forall. intros p Hp.
    apply in_map_iff in Hp as ([k n] & <- & Hk). simpl.
    apply (Permutation_in _ Hperm) in Hk.
    split; [now apply Hval|].
    rewrite Forall_forall in Hpos. apply (Hpos (k, n) Hk).
Qed.

End EmotionTrendFacts.

(** ** Emotion trends of the analytics engine *)
Section AnalyticsTrendFacts.

Import AnalyticsTrends.

Lemma day_of_add (d : list (Z * list (string * nat))) (k k' : Z) (e : string) :
  day_of (trend_add k e d) k'
  = if (k' =? k)%Z then counter_add e (day_of d k) else day_of d k'.
Proof.
  unfold day_of. induction d as [|[k0 inner] d IH]; simpl.
  - rewrite (Z.eqb_sym k k'). now destruct (k' =? k)%Z.
  - destruct (Z.eqb_spec k k0); simpl.
    + subst k0. rewrite Z.eqb_refl.
      rewrite (Z.eqb_sym k k'). now destruct (k' =? k)%Z.
    + destruct (Z.eqb_spec k0 k'), (Z.eqb_spec k' k), (Z.eqb_spec k0 k);
        try congruence; try reflexivity.
      all: rewrite IH; destruct (Z.eqb_spec k' k); congruence.
Qed.

Lemma keys_trend_add (d : list (Z * list (string * nat))) (k k' : Z)
    (e : string) :
  In k' (map fst (trend_add k e d)) <-> k' = k \/ In k' (map fst d).
Proof.
  induction d as [|[k0 inner] d IH]; simpl.
  - intuition.
  - destruct (Z.eqb_spec k k0); simpl.
    + subst k0. intuition.
    + rewrite IH. intuition.
Qed.

Lemma nodup_trend_add (d : list (Z * list (string * nat))) (k : Z)
    (e : string) :
  NoDup (map fst d) -> NoDup (map fst (trend_add k e d)).
Proof.
  induction d as [|[k0 inner] d IH]; simpl; intros H.
  - constructor; [intros []|constructor].
  - inversion H as [|? ? Hnin Hnd]; subst.
    destruct (Z.eqb_spec k k0); simpl.
    + constructor; assumption.
    + constructor; [|auto].
      rewrite keys_trend_add. intros [->|Hin]; [congruence | contradiction].
Qed.

Lemma day_of_entry (d : list (Z * list (string * nat))) (k : Z)
    (inner : list (string * nat)) :
  NoDup (map fst d) -> In (k, inner) d -> day_of d k = inner.
Proof.
  unfold day_of. induction d as [|[k0 i0] d IH]; simpl; intros Hnd Hin.
  - contradiction.
  - inversion Hnd as [|? ? Hnin Hnd']; subst.
    destruct Hin as [E|Hin].
    + injection E as -> ->. now rewrite Z.eqb_refl.
    + destruct (Z.eqb_spec k0 k).
      * subst k0. exfalso. apply Hnin. apply in_map_iff. now exists (k, inner).
      * auto.
Qed.

Lemma day_of_in (d : list (Z * list (string * nat))) (k : Z) :
  In k (map fst d) -> In (k, day_of d k) d.
Proof.
  unfold day_of. induction d as [|[k0 i0] d IH]; simpl; [tauto|].
  destruct (Z.eqb_spec k0 k).
  - subst k0. intros _. now left.
  - intros [E|H]; [congruence|]. right. auto.
Qed.

(** The nested dict after counting [records] into [d]. *)
Lemma trend_fold (records : list EmotionHistory) :
  forall d : list (Z * list (string * nat)),
  let d' :=
    fold_left
      (fun d emotion =>
         trend_add (date (eh_timestamp emotion)) (eh_emotion emotion) d)
      records d in
  (NoDup (map fst d) -> NoDup (map fst d'))
  /\ (forall k, In k (map fst d')
                <-> In k (map fst d)
                    \/ In k (map (fun r => date (eh_timestamp r)) records))
  /\ (forall k e, count_in (day_of d' k) e
                  = count_in (day_of d k) e + records_at records e k)
  /\ (forall k e, In e (map fst (day_of d' k))
                  <-> In e (map fst (day_of d k))
                      \/ exists r, In r records
                                   /\ date (eh_timestamp r) = k
                                   /\ eh_emotion r = e).
Proof.
  induction records as [|r records IH]; intros d; simpl.
  - repeat split; intros; try tauto.
    + unfold records_at. simpl. lia.
    + destruct H as [H|(r & [] & _)]. exact H.
  - destruct (IH (trend_add (date (eh_timestamp r)) (eh_emotion r) d))
      as (Hnd & Hkeys & Hcount & Hinner).
    split; [|split; [|split]].
    + intros H. apply Hnd. now apply nodup_trend_add.
    + intros k. rewrite Hkeys, keys_trend_add. intuition.
    + intros k e. rewrite Hcount, day_of_add. unfold records_at. simpl.
      rewrite (Z.eqb_sym (date (eh_timestamp r)) k).
      destruct (Z.eqb_spec k (date (eh_timestamp r))) as [->|]; simpl; [|lia].
      rewrite count_in_counter_add, (String.eqb_sym (eh_emotion r) e).
      destruct (e =? eh_emotion r)%string eqn:Ee; simpl; [|lia].
      apply String.eqb_eq in Ee. subst e. lia.
    + intros k e. rewrite Hinner, day_of_add.
      destruct (Z.eqb_spec k (date (eh_timestamp r))) as [->|Hk].
      * rewrite keys_counter_add. split.
        -- intros [[->|H]|(r' & Hr' & Hd & He)]; eauto 8.
        -- intros [H|(r' & [<-|Hr'] & Hd & He)]; eauto 8;
             try (left; left; now symmetry).
      * split.
        -- intros [H|(r' & Hr' & Hd & He)]; eauto 8.
        -- intros [H|(r' & [<-|Hr'] & Hd & He)]; eauto 8; try congruence.
Qed.

(** The emotion trends of the analytics engine hold one series per
    emotion that occurs among the filtered records, and every series
    covers the same dates: all the dates on which any record of the
    window falls, in strictly ascending order.  The value of a point is
    the number of records with that emotion on that date, so a date on
    which the emotion did not occur is present with the value 0. *)
Theorem emotion_trends_zero_filled (set_order : list string -> list string)
    (db : list EmotionHistory) (user_id : Z) (now : datetime) (days : Z) :
  arranges set_order ->
  let records := Analytics.query db user_id (cutoff_date now days) in
  let trends := get_emotion_trends set_order db user_id now days in
  NoDup (map fst trends)
  /\ (forall e, In e (map fst trends) <-> In e (map eh_emotion records))
  /\ exists dates,
       StronglySorted Z.lt dates
       /\ (forall k, In k dates
                     <-> In k (map (fun r => date (eh_timestamp r)) records))
       /\ forall e series,
            In (e, series) trends ->
            map (@RoutesSeries.x nat) series = dates
            /\ Forall (fun p => RoutesSeries.y p
                                = records_at records e (RoutesSeries.x p))
                 series.
Proof.
  intros Harr records trends. unfold trends, get_emotion_trends. fold records.
  destruct records as [|r0 rs] eqn:E.
  { split; [constructor|]. split; [simpl; tauto|].
    exists []. split; [constructor|]. split; [simpl; tauto|].
    intros e series []. }
  rewrite <- E. clear E r0 rs.
  destruct (trend_fold records []) as (Hnd & Hkeys & Hcount & Hinner).
  set (d := fold_left
              (fun d emotion =>
                 trend_add (date (eh_timestamp emotion)) (eh_emotion emotion) d)
              records []) in *.
  assert (Hn : NoDup (map fst d)) by (apply Hnd; constructor).
  set (all := concat (map (fun entry => map fst (snd entry)) d)).
  destruct (Harr all) as [Hao Hai].
  rewrite map_map. simpl. rewrite map_id.
  split; [exact Hao|]. split.
  { intros e. rewrite Hai. unfold all. rewrite in_concat. split.
    - intros (keys & Hk & He). apply in_map_iff in Hk as ([k inner] & <- & Hin).
      simpl in He. rewrite <- (day_of_entry d k inner Hn Hin) in He.
      apply Hinner in He as [[]|(r & Hr & _ & <-)]. now apply in_map.
    - intros He. apply in_map_iff in He as (r & <- & Hr).
      exists (map fst (day_of d (date (eh_timestamp r)))). split.
      + apply in_map_iff. exists (date (eh_timestamp r),
                                  day_of d (date (eh_timestamp r))).
        split; [reflexivity|]. apply day_of_in. apply Hkeys. right.
        apply (in_map (fun r => date (eh_timestamp r))). exact Hr.
      + apply Hinner. right. eauto. }
  exists (Seq.sorted_by (fun k => k) (map fst d)).
  assert (Hperm := sorted_by_perm (fun k : Z => k) (map fst d)).
  split; [|split].
  - apply sorted_by_strict. now rewrite map_id.
  - intros k.
    assert (Hk : In k (map fst d)
                 <-> In k (map (fun r => date (eh_timestamp r)) records)).
    { rewrite Hkeys. simpl. tauto. }
    rewrite <- Hk. split; apply Permutation_in;
      [exact Hperm | symmetry; exact Hperm].
  - intros e series Hin. apply in_map_iff in Hin as (e' & E & _).
    injection E as -> <-. rewrite map_map. simpl. rewrite map_id.
    split; [reflexivity|]. apply Forall_forall. intros p Hp.
    apply in_map_iff in Hp as (k & <- & _). simpl. now rewrite Hcount.
Qed.

End AnalyticsTrendFacts.

(** ** Replies *)
Section ReplyFacts.

Lemma choice_in {A : Type} (pick : nat) (xs : list A) :
  xs <> [] -> exists item, Replies.choice pick xs = Ok item /\ In item xs.
Proof.
  intros Hne. unfold Replies.choice.
  assert (Hlt : pick mod List.length xs < List.length xs).
  { apply Nat.mod_upper_bound. destruct xs; [contradiction | discriminate]. }
  destruct (nth_error xs (pick mod List.length xs)) as [item|] eqn:E.
  - exists item. split; [reflexivity|]. now apply nth_error_In in E.
  - apply nth_error_None in E. lia.
Qed.

(** [d.get(k, default)] is the value of an entry of [d] or the default. *)
Lemma get_cases {V : Type} (d : list (string * V)) (k : string) (default : V) :
  In (k, Replies.get d k default) d
  \/ (~ In k (map fst d) /\ Replies.get d k default = default).
Proof.
  unfold Replies.get.
  destruct (find (fun entry => (fst entry =? k)%string) d) as [[k' v]|] eqn:E.
  - left. apply find_some in E as [Hin Hk]. simpl in Hk.
    apply String.eqb_eq in Hk. now subst k'.
  - right. split; [|reflexivity]. intros Hin.
    apply in_map_iff in Hin as ([k' v] & Hk & Hin). simpl in Hk. subst k'.
    apply (find_none _ _ E) in Hin. simpl in Hin.
    now rewrite String.eqb_refl in Hin.
Qed.

(** A key of the table gets the table's value, whatever the default. *)
Lemma get_key {V : Type} (d : list (string * V)) (k : string) (default : V) :
  In k (map fst d) -> In (k, Replies.get d k default) d.
Proof.
  intros H. destruct (get_cases d k default) as [Hin|[Hn _]];
    [exact Hin | contradiction].
Qed.

Lemma string_app_nil_r (s : string) : (s ++ "")%string = s.
Proof.
  induction s as [|c s IH]; simpl; [reflexivity | now rewrite IH].
Qed.

Lemma v1_templates_nonempty (emotion : string) (templates : list string) :
  In (emotion, templates) Replies.V1.responses -> templates <> [].
Proof.
  unfold Replies.V1.responses. simpl.
  intros H. repeat destruct H as [H|H]; try contradiction;
    injection H as _ <-; discriminate.
Qed.

Lemma v2_templates_nonempty (emotion : string) (templates : list string) :
  In (emotion, templates) Replies.V2.responses -> templates <> [].
Proof.
  unfold Replies.V2.responses. simpl.
  intros H. repeat destruct H as [H|H]; try contradiction;
    injection H as _ <-; discriminate.
Qed.

End ReplyFacts.

Section ReplyClaims.

Local Open Scope string_scope.

(** The shape of a reply of attached_assets/routes.py: a template, a
    sentence of emphasis only if the confidence exceeds 0.8, and the
    suggestion. *)
Lemma v1_reply_cases (pick : nat) (emotion : string)
    (confidence sentiment_score : Q) :
  exists templates base emphasis,
    Replies.V1.generate_bot_response pick emotion confidence sentiment_score
    = Ok ((base ++ emphasis)
          ++ Replies.get Replies.V1.suggestions emotion
               " Is there anything specific I can help you with today?")
    /\ In base templates
    /\ (In emotion Spec.closed_labels ->
        In (emotion, templates) Replies.V1.responses)
    /\ (~ In emotion Spec.closed_labels ->
        In ("neutral", templates) Replies.V1.responses
        /\ Replies.get Replies.V1.suggestions emotion
             " Is there anything specific I can help you with today?"
           = " Is there anything specific I can help you with today?")
    /\ ((confidence <= 0.8)%Q -> emphasis = "").
Proof.
  unfold Replies.V1.generate_bot_response.
  change (Replies.subscript Replies.V1.responses "neutral")
    with (Ok (Replies.get Replies.V1.responses "neutral" [])).
  cbn [bind].
  set (neutral := Replies.get Replies.V1.responses "neutral" []).
  set (templates := Replies.get Replies.V1.responses emotion neutral).
  assert (Hn : In ("neutral", neutral) Replies.V1.responses)
    by (unfold neutral; apply get_key; simpl; tauto).
  assert (Ht : templates <> []).
  { destruct (get_cases Replies.V1.responses emotion neutral) as [H|[_ H]].
    - exact (v1_templates_nonempty _ _ H).
    - fold templates in H. rewrite H. exact (v1_templates_nonempty _ _ Hn). }
  destruct (choice_in pick templates Ht) as (base & -> & Hbase). cbn [bind].
  exists templates, base.
  assert (Hkeys : map fst Replies.V1.responses = Spec.closed_labels)
    by reflexivity.
  assert (Hknown : In emotion Spec.closed_labels ->
                   In (emotion, templates) Replies.V1.responses).
  { intros H. apply get_key. now rewrite Hkeys. }
  assert (Hunknown : ~ In emotion Spec.closed_labels ->
            In ("neutral", templates) Replies.V1.responses
            /\ Replies.get Replies.V1.suggestions emotion
                 " Is there anything specific I can help you with today?"
               = " Is there anything specific I can help you with today?").
  { intros H. split.
    - destruct (get_cases Replies.V1.responses emotion neutral) as [Hin|[_ E]].
      + exfalso. apply H. rewrite <- Hkeys. apply in_map_iff.
        now exists (emotion, templates).
      + fold templates in E. now rewrite E.
    - destruct (get_cases Replies.V1.suggestions emotion
                  " Is there anything specific I can help you with today?")
        as [Hin|[_ E]]; [|exact E].
      exfalso. apply H. simpl in Hin. simpl.
      repeat destruct Hin as [Hin|Hin]; try contradiction;
        injection Hin as <- _; tauto. }
  destruct (Qltb 0.8 confidence) eqn:Ec.
  - apply Qltb_lt in Ec.
    assert (Hc : forall emphasis : string,
              (confidence <= 0.8)%Q -> emphasis = "")
      by (intros emphasis Hle; exfalso; apply (Qlt_not_le _ _ Ec Hle)).
    destruct (Qltb sentiment_score (-0.3)); [|destruct (Qltb 0.3 sentiment_score)].
    + eexists. split; [reflexivity|]. split; [exact Hbase|].
      split; [exact Hknown|]. split; [exact Hunknown | apply Hc].
    + eexists. split; [reflexivity|]. split; [exact Hbase|].
      split; [exact Hknown|]. split; [exact Hunknown | apply Hc].
    + exists "". rewrite string_app_nil_r. split; [reflexivity|].
      split; [exact Hbase|]. split; [exact Hknown|].
      split; [exact Hunknown | reflexivity].
  - exists "". rewrite string_app_nil_r. split; [reflexivity|].
    split; [exact Hbase|]. split; [exact Hknown|].
    split; [exact Hunknown | reflexivity].
Qed.

End ReplyClaims.

Section ReplyComposition.

Local Open Scope string_scope.

Variable textblob_polarity : string -> result Q.

Lemma detect_unloaded_reading (self : EmotionDetector.t) (text : string) :
  EmotionDetector.model self = None \/ EmotionDetector.vectorizer self = None ->
  exists emotion confidence sentiment,
    EmotionDetector.detect_emotion textblob_polarity self text
    = Ok (emotion, confidence, sentiment)
    /\ In emotion Spec.closed_labels
    /\ (0.5 <= confidence <= 0.8)%Q.
Proof.
  intros Hno. destruct (Spec.blank text) eqn:Hb.
  - rewrite (detect_emotion_blank textblob_polarity self text Hb).
    eexists _, _, _. split; [reflexivity|].
    split; [simpl; tauto | split; discriminate].
  - rewrite (detect_emotion_unloaded textblob_polarity self text Hno Hb).
    destruct (fallback_detection_returns textblob_polarity text) as [s ->].
    eexists _, _, _. split; [reflexivity|].
    split; [apply ed_fallback_label_closed|].
    apply (ed_fallback_confidence_bounds text).
Qed.

(** Without a trained model the chat handler of attached_assets/routes.py
    never adds a sentence of emphasis: whatever the message and its
    sentiment, the reply to the reading [detect_emotion] returns is one
    of the three templates of the detected emotion followed directly by
    the suggestion of that emotion, because the keyword fallback never
    reports a confidence above 0.8. *)
Theorem reply_without_model_is_plain (self : EmotionDetector.t)
    (text : string) (pick : nat) :
  EmotionDetector.model self = None \/ EmotionDetector.vectorizer self = None ->
  exists emotion confidence sentiment templates base,
    EmotionDetector.detect_emotion textblob_polarity self text
    = Ok (emotion, confidence, sentiment)
    /\ In (emotion, templates) Replies.V1.responses
    /\ In base templates
    /\ Replies.V1.generate_bot_response pick emotion confidence sentiment
       = Ok (base
             ++ Replies.get Replies.V1.suggestions emotion
                  " Is there anything specific I can help you with today?").
Proof.
  intros Hno.
  destruct (detect_unloaded_reading self text Hno) as (e & c & s & Hd & He & Hc).
  destruct (v1_reply_cases pick e c s)
    as (templates & base & emphasis & Hr & Hbase & Hknown & _ & Hplain).
  exists e, c, s, templates, base.
  split; [exact Hd|]. split; [now apply Hknown|]. split; [exact Hbase|].
  rewrite Hr, (Hplain (proj2 Hc)). now rewrite string_app_nil_r.
Qed.

End ReplyComposition.

(** No artifact and the flat analyzer: "I am so happy today". *)
Lemma reply_without_model_is_plain_witness :
  exists emotion confidence sentiment templates base,
    EmotionDetector.detect_emotion Samples.flat_polarity
      (EmotionDetector.load_models None None None) "I am so happy today"
    = Ok (emotion, confidence, sentiment)
    /\ In (emotion, templates) Replies.V1.responses
    /\ In base templates
    /\ Replies.V1.generate_bot_response 7 emotion confidence sentiment
       = Ok (base
             ++ Replies.get Replies.V1.suggestions emotion
                  " Is there anything specific I can help you with today?")%string.
Proof.
  apply (reply_without_model_is_plain Samples.flat_polarity
           (EmotionDetector.load_models None None None)
           "I am so happy today" 7).
  left. reflexivity.
Defined.

Section ReplyV2Claims.

Local Open Scope string_scope.

(** The reply of routes.py, for any label at all, never raises: it ends
    with one of the three templates of the label, or of neutral when the
    label is none of the seven, and starts with a supportive phrase
    exactly when the sentiment is below -0.3, with an encouraging one
    exactly when it is above 0.3, and with nothing in between. *)
Theorem reply_v2_structure (pick1 pick2 : nat) (emotion : string)
    (sentiment : Q) (message : string) :
  exists templates prefix response,
    Replies.V2.generate_bot_response pick1 pick2 emotion sentiment message
    = Ok (prefix ++ response)
    /\ In response templates
    /\ (In emotion Spec.closed_labels ->
        In (emotion, templates) Replies.V2.responses)
    /\ (~ In emotion Spec.closed_labels ->
        In ("neutral", templates) Replies.V2.responses)
    /\ ((sentiment < -0.3)%Q -> In prefix Replies.V2.supportive_phrases)
    /\ ((0.3 < sentiment)%Q -> In prefix Replies.V2.encouraging_phrases)
    /\ ((-0.3 <= sentiment <= 0.3)%Q -> prefix = "").
Proof.
  unfold Replies.V2.generate_bot_response.
  change (Replies.subscript Replies.V2.responses "neutral")
    with (Ok (Replies.get Replies.V2.responses "neutral" [])).
  cbn [bind].
  set (neutral := Replies.get Replies.V2.responses "neutral" []).
  set (templates := Replies.get Replies.V2.responses emotion neutral).
  assert (Hn : In ("neutral", neutral) Replies.V2.responses)
    by (unfold neutral; apply get_key; simpl; tauto).
  assert (Ht : templates <> []).
  { destruct (get_cases Replies.V2.responses emotion neutral) as [H|[_ H]].
    - exact (v2_templates_nonempty _ _ H).
    - fold templates in H. rewrite H. exact (v2_templates_nonempty _ _ Hn). }
  assert (Hkeys : map fst Replies.V2.responses = Spec.closed_labels)
    by reflexivity.
  assert (Hknown : In emotion Spec.closed_labels ->
                   In (emotion, templates) Replies.V2.responses).
  { intros H. apply get_key. now rewrite Hkeys. }
  assert (Hunknown : ~ In emotion Spec.closed_labels ->
                     In ("neutral", templates) Replies.V2.responses).
  { intros H.
    destruct (get_cases Replies.V2.responses emotion neutral) as [Hin|[_ E]].
    - exfalso. apply H. rewrite <- Hkeys. apply in_map_iff.
      now exists (emotion, templates).
    - fold templates in E. now rewrite E. }
  exists templates.
  destruct (Qltb sentiment (-0.3)) eqn:E1.
  - apply Qltb_lt in E1.
    destruct (choice_in pick1 Replies.V2.supportive_phrases)
      as (prefix & -> & Hp); [discriminate|].
    destruct (choice_in pick2 templates Ht) as (response & -> & Hr).
    cbn [bind]. exists prefix, response.
    split; [reflexivity|]. split; [exact Hr|]. split; [exact Hknown|].
    split; [exact Hunknown|]. split; [auto|].
    split; intros H; exfalso; lra.
  - apply Qltb_ge in E1. destruct (Qltb 0.3 sentiment) eqn:E2.
    + apply Qltb_lt in E2.
      destruct (choice_in pick1 Replies.V2.encouraging_phrases)
        as (prefix & -> & Hp); [discriminate|].
      destruct (choice_in pick2 templates Ht) as (response & -> & Hr).
      cbn [bind]. exists prefix, response.
      split; [reflexivity|]. split; [exact Hr|]. split; [exact Hknown|].
      split; [exact Hunknown|].
      split; [intros H; exfalso; lra|]. split; [auto|].
      intros H; exfalso; lra.
    + apply Qltb_ge in E2.
      destruct (choice_in pick1 templates Ht) as (response & -> & Hr).
      exists "", response.
      split; [reflexivity|]. split; [exact Hr|]. split; [exact Hknown|].
      split; [exact Hunknown|].
      split; [intros H; exfalso; lra|].
      split; [intros H; exfalso; lra | reflexivity].
Qed.

End ReplyV2Claims.

(** ** Matching uploaded files *)
Section UploadFacts.

Local Open Scope string_scope.

(** In upload_pkl.py a file of the listing is matched to the first
    expected name one of whose parts occurs in the lowercased file name,
    and the vectorizer is declared first: so every [.pkl] file whose
    name holds "tfidf" or "vectorizer" is taken for the vectorizer, the
    classifier's own expected name tfidf_logreg_emotion.pkl included, and
    a file is taken for the classifier exactly when its name holds
    "logreg" or "emotion" and neither "tfidf" nor "vectorizer". *)
Theorem upload_matching_order (file : string) :
  UploadPkl.endswith file ".pkl" = true ->
  (contains "tfidf" (lower file) = true
   \/ contains "vectorizer" (lower file) = true ->
   UploadPkl.matched_name file = Some "tfidf_vectorizer.pkl")
  /\ (UploadPkl.matched_name file = Some "tfidf_logreg_emotion.pkl"
      <-> contains "tfidf" (lower file) = false
          /\ contains "vectorizer" (lower file) = false
          /\ (contains "logreg" (lower file) = true
              \/ contains "emotion" (lower file) = true))
  /\ UploadPkl.matched_name "tfidf_logreg_emotion.pkl"
     = Some "tfidf_vectorizer.pkl".
Proof.
  intros Hend. unfold UploadPkl.matched_name. rewrite Hend.
  unfold UploadPkl.model_files. cbn [find].
  change (UploadPkl.matches file "tfidf_vectorizer.pkl")
    with (contains "tfidf" (lower file)
          || (contains "vectorizer" (lower file) || false))%bool.
  change (UploadPkl.matches file "tfidf_logreg_emotion.pkl")
    with (contains "tfidf" (lower file)
          || (contains "logreg" (lower file)
              || (contains "emotion" (lower file) || false)))%bool.
  change (UploadPkl.matches file "label_encoder.pkl")
    with (contains "label" (lower file)
          || (contains "encoder" (lower file) || false))%bool.
  destruct (contains "tfidf" (lower file)),
    (contains "vectorizer" (lower file)),
    (contains "logreg" (lower file)),
    (contains "emotion" (lower file)),
    (contains "label" (lower file)),
    (contains "encoder" (lower file)); simpl;
    (split; [intros [H|H]; (reflexivity || discriminate H)|]);
    (split; [|reflexivity]);
    (split; [intros H; try discriminate H; repeat split; auto
            | intros (H1 & H2 & [H3|H3]);
              try discriminate H1; try discriminate H2;
              try discriminate H3; reflexivity]).
Qed.

End UploadFacts.

Lemma upload_matching_order_witness :
  UploadPkl.matched_name "my_tfidf_model.pkl" = Some "tfidf_vectorizer.pkl".
Proof.
  apply (proj1 (upload_matching_order "my_tfidf_model.pkl" eq_refl)).
  left. reflexivity.
Defined.

(** ** Ranges of a reading, with or without a trained model *)
Section ReadingRanges.

Local Open Scope Q_scope.

Lemma fold_max2_in (xs : list Q) : forall v : Q,
  In (fold_left max2 xs v) (v :: xs).
Proof.
  induction xs as [|w xs IH]; intros v; simpl; [now left|].
  destruct (IH (max2 v w)) as [E|H]; [|now right; right].
  rewrite <- E. unfold max2. destruct (Qltb v w); [right; now left | now left].
Qed.

(** [max(xs)] is one of the numbers. *)
Lemma max_seq_in (xs : list Q) (m : Q) : max_seq xs = Ok m -> In m xs.
Proof.
  destruct xs as [|v xs]; simpl; [discriminate|].
  intros E. injection E as <-. apply fold_max2_in.
Qed.

Variable textblob_polarity : string -> result Q.
Hypothesis polarity_range : Props.polarity_in_range textblob_polarity.

(** What a successful trained-model classification returns. *)
Lemma model_body_reading (self : EmotionDetector.t) (v : Vectorizer)
    (m : Model) (text : string) (e : string) (c s : Q) :
  EmotionDetector._predict_with_model_body textblob_polarity self v m text
  = Ok (e, c, s) ->
  (exists text_vector probabilities,
      transform v text = Ok text_vector
      /\ predict_proba m text_vector = Ok probabilities
      /\ In c probabilities)
  /\ -1 <= s <= 1.
Proof.
  unfold EmotionDetector._predict_with_model_body.
  destruct (transform v text) as [X|] eqn:EX; simpl; [|discriminate].
  destruct (predict m X) as [pe|]; simpl; [|discriminate].
  destruct (predict_proba m X) as [probs|] eqn:Ep; simpl; [|discriminate].
  destruct (max_seq probs) as [conf|] eqn:Em; simpl; [|discriminate].
  match goal with
  | |- bind ?decode _ = _ -> _ => destruct decode as [label|]
  end; simpl; [|discriminate].
  destruct (sentiment_score_range textblob_polarity polarity_range text)
    as (s' & -> & Hs). simpl.
  intros E. injection E as <- <- <-.
  split; [|exact Hs]. exists X, probs.
  split; [reflexivity|]. split; [exact Ep | now apply max_seq_in].
Qed.

(** Every reading keeps the ranges of the data model, whichever path
    produced it: when the polarity analyzer keeps to [-1,1] and the
    classifier, if there is one, returns probabilities between 0 and 1,
    [detect_emotion] followed by [calculate_intensity] returns a
    confidence between 0 and 1, a sentiment between -1 and 1 and an
    intensity between 0 and 1. *)
Theorem reading_in_range (self : EmotionDetector.t) (text : string) :
  (forall m text_vector probabilities,
      EmotionDetector.model self = Some m ->
      predict_proba m text_vector = Ok probabilities ->
      Props.all_within 0 1 probabilities) ->
  exists emotion confidence sentiment intensity,
    EmotionDetector.detect_with_intensity textblob_polarity self text
    = Ok (emotion, confidence, sentiment, intensity)
    /\ 0 <= confidence <= 1
    /\ -1 <= sentiment <= 1
    /\ 0 <= intensity <= 1.
Proof.
  intros Hproba. unfold EmotionDetector.detect_with_intensity.
  assert (Hgoal : forall e c s,
            0 <= c <= 1 -> -1 <= s <= 1 ->
            exists emotion confidence sentiment intensity,
              Ok (e, c, s, EmotionDetector.calculate_intensity e c s)
              = Ok (emotion, confidence, sentiment, intensity)
              /\ 0 <= confidence <= 1
              /\ -1 <= sentiment <= 1
              /\ 0 <= intensity <= 1).
  { intros e c s Hc Hs.
    exists e, c, s, (EmotionDetector.calculate_intensity e c s).
    pose proof (calculate_intensity_lower e c s Hc Hs) as Hi.
    repeat split; try tauto; lra. }
  assert (Hfall : exists e c s,
            EmotionDetector._fallback_detection textblob_polarity text
            = Ok (e, c, s) /\ 0 <= c <= 1 /\ -1 <= s <= 1).
  { unfold EmotionDetector._fallback_detection.
    pose proof (ed_fallback_confidence_bounds text) as Hc.
    destruct (EmotionDetector.fallback_label text) as [e c]. simpl in Hc.
    destruct (sentiment_score_range textblob_polarity polarity_range text)
      as (s & -> & Hs). simpl.
    exists e, c, s. repeat split; try tauto; lra. }
  destruct Hfall as (ef & cf & sf & Hf & Hcf & Hsf).
  destruct (Spec.blank text) eqn:Hb.
  - rewrite (detect_emotion_blank textblob_polarity self text Hb). cbn [bind].
    apply Hgoal; lra.
  - destruct (EmotionDetector.model self) as [m|] eqn:Hm;
      [destruct (EmotionDetector.vectorizer self) as [v|] eqn:Hv|].
    + rewrite (detect_emotion_loaded textblob_polarity self v m text Hm Hv Hb).
      destruct (EmotionDetector._predict_with_model_body textblob_polarity
                  self v m text) as [[[e c] s]|x] eqn:Ebody.
      * cbn [bind].
        destruct (model_body_reading self v m text e c s Ebody)
          as [(X & probs & _ & Hp & Hin) Hs].
        apply Hgoal; [|exact Hs].
        pose proof (Hproba m X probs eq_refl Hp) as Hall.
        unfold Props.all_within in Hall. rewrite Forall_forall in Hall.
        now apply Hall.
      * rewrite Hf. cbn [bind]. now apply Hgoal.
    + rewrite (detect_emotion_unloaded textblob_polarity self text
                 (or_intror Hv) Hb), Hf. cbn [bind]. now apply Hgoal.
    + rewrite (detect_emotion_unloaded textblob_polarity self text
                 (or_introl Hm) Hb), Hf. cbn [bind]. now apply Hgoal.
Qed.

End ReadingRanges.

(** The sample classifier returns the probabilities 0.1 and 0.9. *)
Lemma reading_in_range_witness :
  exists emotion confidence sentiment intensity,
    EmotionDetector.detect_with_intensity Samples.flat_polarity
      (EmotionDetector.load_models (Some Samples.model)
         (Some Samples.vectorizer) (Some Samples.binary_encoder))
      "what a day"
    = Ok (emotion, confidence, sentiment, intensity)
    /\ (0 <= confidence <= 1)%Q
    /\ (-1 <= sentiment <= 1)%Q
    /\ (0 <= intensity <= 1)%Q.
Proof.
  apply (reading_in_range Samples.flat_polarity).
  - intros text q E. injection E as <-. split; discriminate.
  - intros m X probs Hm Hp. injection Hm as <-. injection Hp as <-.
    repeat constructor; discriminate.
Defined.

(** The distinct elements in order of first occurrence are one
    arrangement a set can be iterated in. *)
Lemma emotion_trends_zero_filled_witness :
  let records :=
    Analytics.query Samples.history 1 (cutoff_date Samples.now Samples.days) in
  let trends :=
    AnalyticsTrends.get_emotion_trends (nodup string_dec) Samples.history 1
      Samples.now Samples.days in
  NoDup (map fst trends)
  /\ (forall e, In e (map fst trends) <-> In e (map eh_emotion records))
  /\ exists dates,
       StronglySorted Z.lt dates
       /\ (forall k, In k dates
                     <-> In k (map (fun r => date (eh_timestamp r)) records))
       /\ forall e series,
            In (e, series) trends ->
            map (@RoutesSeries.x nat) series = dates
            /\ Forall (fun p => RoutesSeries.y p
                                = AnalyticsTrends.records_at records e
                                    (RoutesSeries.x p))
                 series.
Proof.
  apply (emotion_trends_zero_filled (nodup string_dec) Samples.history 1
           Samples.now Samples.days).
  intros l. split; [apply NoDup_nodup|]. intros e. apply nodup_In.
Defined.
